(* ===================================================================== *)
(* blobber: a shallow embedding of the probing, enumeration, scheduling  *)
(* and download code, and the properties its specification states.       *)
(*                                                                       *)
(*   pkg/azure     (Scanner.checkAccess)            -> Module Azure      *)
(*   cmd/blobber   (RootCmd.Run, checkContainer,                         *)
(*                  listBlobURLs, saveBlobList,                          *)
(*                  downloadBlobs)                  -> Module Blobber    *)
(*   downloader    (DownloadFile)                   -> Module Downloader *)
(*   page chains, as the specification names them   -> Module Chain      *)
(*   package strings, as far as the code calls it   -> Module Strings    *)
(*   checkedCount and the wait group of a scan      -> Module Progress   *)
(*                                                                       *)
(* The network, the resolver and the file system are the environment:    *)
(* an HTTP exchange is the value client.Get and io.ReadAll produced, a   *)
(* sequence of exchanges is consumed in program order, and a file system *)
(* is a finite map from paths to contents.                               *)
(* ===================================================================== *)

From Stdlib Require Import ZArith List String Ascii Bool Lia.
From stdpp Require Import base option list strings gmap.
Import ListNotations.

Local Open Scope string_scope.
Local Open Scope list_scope.

(* --------------------------------------------------------------------- *)
(* The file system: regular files and their contents                      *)
(* --------------------------------------------------------------------- *)
Module Fs.

Abbreviation FS := (gmap string string).

(* What the operating system answers: whether os.MkdirAll of the
   directory of a path succeeds, and whether os.Create of a path does. *)
Record Os : Type := {
  mkdirall_ok : string -> bool;
  create_ok : string -> bool
}.

(* os.Create(path) when it succeeds: the file exists and is empty,
   whatever it held before. *)
Definition Create (fs : FS) (path : string) : FS := <[path := ""]> fs.

(* Bytes written through the handle os.Create returned. *)
Definition Write (fs : FS) (path : string) (bytes : string) : FS :=
  alter (fun old : string => (old ++ bytes)%string) path fs.

End Fs.

(* --------------------------------------------------------------------- *)
(* encoding/xml, as far as the decoded structs observe a document         *)
(* --------------------------------------------------------------------- *)
Module Xml.

(* An element: local name, attributes, its own character data and its
   child elements in document order. Name spaces, comments and processing
   instructions play no part in how the structs below are decoded. *)
#[warnings="-register-all"]
Inductive node : Type :=
| Elem (name : string) (attrs : list (string * string))
       (text : string) (kids : list node).

(* What xml.Unmarshal finds in a byte slice: no well-formed root element
   (this includes the empty body), or a root element. *)
Inductive Body : Type :=
| NotXml
| Doc (root : node).

Definition name_of (n : node) : string :=
  match n with Elem nm _ _ _ => nm end.
Definition attrs_of (n : node) : list (string * string) :=
  match n with Elem _ a _ _ => a end.
Definition text_of (n : node) : string :=
  match n with Elem _ _ t _ => t end.
Definition kids_of (n : node) : list node :=
  match n with Elem _ _ _ k => k end.

(* A string field tagged with an element name: every child of that name
   is decoded into it in document order, so the last one stays. *)
Fixpoint field_text (tag : string) (kids : list node) (cur : string) : string :=
  match kids with
  | [] => cur
  | k :: rest =>
      field_text tag rest (if String.eqb (name_of k) tag then text_of k else cur)
  end.

(* A string field tagged `name,attr`. *)
Fixpoint field_attr (tag : string) (attrs : list (string * string)) (cur : string) : string :=
  match attrs with
  | [] => cur
  | (a, v) :: rest => field_attr tag rest (if String.eqb a tag then v else cur)
  end.

(* strings.TrimSpace, for the ASCII white space characters. *)
Definition is_space (c : ascii) : bool :=
  let n := nat_of_ascii c in
  (Nat.eqb n 32 || (Nat.leb 9 n && Nat.leb n 13))%bool.

Fixpoint trim_left (s : string) : string :=
  match s with
  | String c r => if is_space c then trim_left r else s
  | EmptyString => EmptyString
  end.

Fixpoint rev_string (s acc : string) : string :=
  match s with
  | EmptyString => acc
  | String c r => rev_string r (String c acc)
  end.

Definition TrimSpace (s : string) : string :=
  rev_string (trim_left (rev_string (trim_left s) "")) "".

Definition digit_of (c : ascii) : option Z :=
  let n := nat_of_ascii c in
  if (Nat.leb 48 n && Nat.leb n 57)%bool then Some (Z.of_nat (n - 48)) else None.

Fixpoint digits (s : string) (acc : Z) : option Z :=
  match s with
  | EmptyString => Some acc
  | String c r =>
      match digit_of c with
      | Some d => digits r (10 * acc + d)%Z
      | None => None
      end
  end.

(* strconv.ParseInt(s, 10, 64) *)
Definition ParseInt64 (s : string) : option Z :=
  let signed (neg : bool) (ds : string) :=
    match ds with
    | EmptyString => None
    | _ =>
        match digits ds 0%Z with
        | Some v =>
            let v' := if neg then (- v)%Z else v in
            if ((- 2 ^ 63 <=? v') && (v' <=? 2 ^ 63 - 1))%Z%bool
            then Some v' else None
        | None => None
        end
    end in
  match s with
  | String "+"%char r => signed false r
  | String "-"%char r => signed true r
  | _ => signed false s
  end.

(* An int64 field: empty character data leaves 0, anything else goes
   through TrimSpace and ParseInt. *)
Definition int64_field (src : string) : option Z :=
  match src with
  | EmptyString => Some 0%Z
  | _ => ParseInt64 (TrimSpace src)
  end.

End Xml.

(* --------------------------------------------------------------------- *)
(* The functions of package strings the code calls                        *)
(* --------------------------------------------------------------------- *)
Module Strings.

(* strings.CutPrefix *)
Fixpoint strip_prefix (prefix s : string) : option string :=
  match prefix with
  | EmptyString => Some s
  | String a prefix' =>
      match s with
      | String b s' => if Ascii.eqb a b then strip_prefix prefix' s' else None
      | EmptyString => None
      end
  end.

(* strings.TrimPrefix *)
Definition TrimPrefix (s prefix : string) : string :=
  match strip_prefix prefix s with
  | Some rest => rest
  | None => s
  end.

(* strings.Cut: the text before and after the first occurrence of sep. *)
Fixpoint Cut (s sep : string) : option (string * string) :=
  match strip_prefix sep s with
  | Some rest => Some (EmptyString, rest)
  | None =>
      match s with
      | String c s' =>
          match Cut s' sep with
          | Some (before, after) => Some (String c before, after)
          | None => None
          end
      | EmptyString => None
      end
  end.

(* strings.SplitN(s, sep, 2) for a non-empty separator. *)
Definition SplitN2 (s sep : string) : list string :=
  match Cut s sep with
  | Some (before, after) => [before; after]
  | None => [s]
  end.

(* strings.Split(s, sep) for a non-empty separator: there are at most
   len(s) occurrences to cut at. *)
Fixpoint split_at_most (n : nat) (s sep : string) : list string :=
  match n with
  | 0 => [s]
  | S n' =>
      match Cut s sep with
      | Some (before, after) => before :: split_at_most n' after sep
      | None => [s]
      end
  end.

Definition Split (s sep : string) : list string :=
  split_at_most (String.length s) s sep.

(* Whether a byte occurs in a string. *)
Fixpoint has_byte (c : ascii) (s : string) : bool :=
  match s with
  | EmptyString => false
  | String b s' => (Ascii.eqb c b || has_byte c s')%bool
  end.

(* The UTF-8 encodings of the runes unicode.IsSpace accepts: the six ASCII
   ones, U+0085, U+00A0, U+1680, U+2000 to U+200A, U+2028, U+2029,
   U+202F, U+205F and U+3000. *)
Definition bytes2 (a b : ascii) : string := String a (String b "").
Definition bytes3 (a b c : ascii) : string := String a (String b (String c "")).

Definition space_runes : list string :=
  [String "009"%char ""; String "010"%char ""; String "011"%char "";
   String "012"%char ""; String "013"%char ""; String "032"%char "";
   bytes2 "194" "133"; bytes2 "194" "160"; bytes3 "225" "154" "128";
   bytes3 "226" "128" "128"; bytes3 "226" "128" "129"; bytes3 "226" "128" "130";
   bytes3 "226" "128" "131"; bytes3 "226" "128" "132"; bytes3 "226" "128" "133";
   bytes3 "226" "128" "134"; bytes3 "226" "128" "135"; bytes3 "226" "128" "136";
   bytes3 "226" "128" "137"; bytes3 "226" "128" "138"; bytes3 "226" "128" "168";
   bytes3 "226" "128" "169"; bytes3 "226" "128" "175"; bytes3 "226" "129" "159";
   bytes3 "227" "128" "128"].

Fixpoint rev_onto (s acc : string) : string :=
  match s with
  | EmptyString => acc
  | String c s' => rev_onto s' (String c acc)
  end.

Definition rev (s : string) : string := rev_onto s "".

(* The text behind a leading rune of `runes`, if s starts with one. *)
Fixpoint strip_rune (runes : list string) (s : string) : option string :=
  match runes with
  | [] => None
  | r :: runes' =>
      match strip_prefix r s with
      | Some rest => Some rest
      | None => strip_rune runes' s
      end
  end.

(* Leading runes are dropped one at a time; a string holds at most
   len(s) of them. *)
Fixpoint trim_runes (n : nat) (runes : list string) (s : string) : string :=
  match n with
  | 0 => s
  | S n' =>
      match strip_rune runes s with
      | Some rest => trim_runes n' runes rest
      | None => s
      end
  end.

Definition TrimLeftSpace (s : string) : string :=
  trim_runes (String.length s) space_runes s.

(* Trailing runes are the leading ones of the reversed string, their
   bytes reversed. *)
Definition TrimRightSpace (s : string) : string :=
  rev (trim_runes (String.length s) (map rev space_runes) (rev s)).

(* strings.TrimSpace *)
Definition TrimSpace (s : string) : string := TrimRightSpace (TrimLeftSpace s).

End Strings.

(* --------------------------------------------------------------------- *)
(* The HTTP exchanges the code observes                                   *)
(* --------------------------------------------------------------------- *)
Module Http.

(* io.ReadAll(resp.Body) *)
Inductive ReadResult : Type :=
| ReadErr
| ReadOk (body : Xml.Body).

(* client.Get(url): a transport error, or a response with its status code
   and what reading its body gives. *)
Inductive GetResult : Type :=
| GetErr
| GetOk (StatusCode : Z) (body : ReadResult).

Definition StatusOK : Z := 200.

Definition hex_digit (n : nat) : ascii :=
  match String.get n "0123456789ABCDEF" with
  | Some c => c
  | None => "0"%char
  end.

(* url.QueryEscape: letters, digits and - _ . ~ stay, a space becomes +,
   every other byte becomes %XX. *)
Definition unreserved (c : ascii) : bool :=
  let n := nat_of_ascii c in
  ((Nat.leb 48 n && Nat.leb n 57) || (Nat.leb 65 n && Nat.leb n 90)
   || (Nat.leb 97 n && Nat.leb n 122)
   || Nat.eqb n 45 || Nat.eqb n 95 || Nat.eqb n 46 || Nat.eqb n 126)%bool.

Fixpoint QueryEscape (s : string) : string :=
  match s with
  | EmptyString => EmptyString
  | String c r =>
      let n := nat_of_ascii c in
      if unreserved c then String c (QueryEscape r)
      else if Nat.eqb n 32 then String "+"%char (QueryEscape r)
      else String "%"%char
             (String (hex_digit (n / 16))
                (String (hex_digit (n mod 16)) (QueryEscape r)))
  end.

(* The body of a blob response as io.Copy sees it: the bytes the server
   sends, and after how many of them the copy breaks off, if it does. *)
Record Stream : Type := {
  data : string;
  breaks_after : option nat
}.

(* client.Get(url) for a blob. *)
Inductive Fetch : Type :=
| FetchErr
| FetchOk (StatusCode : Z) (body : Stream).

(* io.Copy(out, resp.Body): the bytes that reached the file, and whether
   it returned an error. *)
Definition Copy (s : Stream) : string * bool :=
  match breaks_after s with
  | Some n => (String.substring 0 n (data s), true)
  | None => (data s, false)
  end.

End Http.

(* --------------------------------------------------------------------- *)
(* pkg/azure                                                              *)
(* --------------------------------------------------------------------- *)
Module Azure.
Import Xml Http.

Record Config : Type := {
  Accounts : string;
  Containers : string;
  Download : bool;
  Output : string;
  SkipSSL : bool;
  MaxGoroutines : Z;
  MaxParallelDownload : Z;
  BaseDomain : string;
  Debug : bool
}.

(* No XMLName field: every root element is accepted. *)
Record ErrorResponse : Type := {
  Code : string;
  Message : string
}.

Definition unmarshal_ErrorResponse (b : Body) : option ErrorResponse :=
  match b with
  | NotXml => None
  | Doc root =>
      Some {| Code := field_text "Code" (kids_of root) "";
              Message := field_text "Message" (kids_of root) "" |}
  end.

Record AccessResult : Type := {
  Account : string;
  Container : string;
  IsPublic : bool;
  ErrorCode : string;
  URL : string;
  Blobs : list string
}.

Definition access_url (cfg : Config) (account container : string) : string :=
  "https://" ++ account ++ "." ++ BaseDomain cfg ++ "/" ++ container
  ++ "?restype=container".

Definition with_ErrorCode (r : AccessResult) (code : string) : AccessResult :=
  {| Account := Account r; Container := Container r; IsPublic := IsPublic r;
     ErrorCode := code; URL := URL r; Blobs := Blobs r |}.

Definition with_IsPublic (r : AccessResult) (p : bool) : AccessResult :=
  {| Account := Account r; Container := Container r; IsPublic := p;
     ErrorCode := ErrorCode r; URL := URL r; Blobs := Blobs r |}.

(* Scanner.checkAccess; `get` is what s.client.Get(url) returned. The
   debug lines it prints are not part of the result. *)
Definition checkAccess (cfg : Config) (account container : string)
    (get : GetResult) : AccessResult :=
  let result := {| Account := account; Container := container;
                   IsPublic := false; ErrorCode := "";
                   URL := access_url cfg account container; Blobs := [] |} in
  match get with
  | GetErr => with_ErrorCode result "RequestFailed"
  | GetOk status rd =>
      if Z.eqb status StatusOK then with_IsPublic result true
      else
        match rd with
        | ReadErr => with_ErrorCode result "ReadFailed"
        | ReadOk body =>
            match unmarshal_ErrorResponse body with
            | None => with_IsPublic result true
            | Some errorResp =>
                if String.eqb (Code errorResp) "" then with_IsPublic result true
                else with_ErrorCode result (Code errorResp)
            end
        end
  end.

Definition CheckAccess := checkAccess.

Record BlobProperties : Type := {
  CreationTime : string;
  LastModified : string;
  ContentLength : Z;
  ContentType : string;
  ContentMD5 : string;
  BlobType : string;
  AccessTier : string;
  LeaseStatus : string;
  LeaseState : string;
  ServerEncrypted : string
}.

Record Blob : Type := {
  Name : string;
  Properties : BlobProperties
}.

(* The field Blobs is tagged `xml:"Blobs>Blob"`. *)
Record BlobList : Type := {
  BlobList_Blobs : list Blob;
  NextMarker : string
}.

(* The field BlobList carries no tag: it is decoded from child elements
   named BlobList. *)
Record EnumerationResults : Type := {
  ServiceEndpoint : string;
  ContainerName : string;
  Results_BlobList : BlobList
}.

Definition zero_BlobProperties : BlobProperties :=
  {| CreationTime := ""; LastModified := ""; ContentLength := 0%Z;
     ContentType := ""; ContentMD5 := ""; BlobType := ""; AccessTier := "";
     LeaseStatus := ""; LeaseState := ""; ServerEncrypted := "" |}.

Fixpoint decode_ContentLength (kids : list node) (cur : Z) : option Z :=
  match kids with
  | [] => Some cur
  | k :: rest =>
      if String.eqb (name_of k) "Content-Length"
      then match int64_field (text_of k) with
           | Some n => decode_ContentLength rest n
           | None => None
           end
      else decode_ContentLength rest cur
  end.

Definition decode_BlobProperties (kids : list node) (p : BlobProperties)
  : option BlobProperties :=
  match decode_ContentLength kids (ContentLength p) with
  | None => None
  | Some n =>
      Some {| CreationTime := field_text "Creation-Time" kids (CreationTime p);
              LastModified := field_text "Last-Modified" kids (LastModified p);
              ContentLength := n;
              ContentType := field_text "Content-Type" kids (ContentType p);
              ContentMD5 := field_text "Content-MD5" kids (ContentMD5 p);
              BlobType := field_text "BlobType" kids (BlobType p);
              AccessTier := field_text "AccessTier" kids (AccessTier p);
              LeaseStatus := field_text "LeaseStatus" kids (LeaseStatus p);
              LeaseState := field_text "LeaseState" kids (LeaseState p);
              ServerEncrypted :=
                field_text "ServerEncrypted" kids (ServerEncrypted p) |}
  end.

Fixpoint decode_Properties (kids : list node) (p : BlobProperties)
  : option BlobProperties :=
  match kids with
  | [] => Some p
  | k :: rest =>
      if String.eqb (name_of k) "Properties"
      then match decode_BlobProperties (kids_of k) p with
           | Some p' => decode_Properties rest p'
           | None => None
           end
      else decode_Properties rest p
  end.

Definition decode_Blob (n : node) : option Blob :=
  match decode_Properties (kids_of n) zero_BlobProperties with
  | Some p => Some {| Name := field_text "Name" (kids_of n) ""; Properties := p |}
  | None => None
  end.

(* The path Blobs>Blob: the Blob children of the Blobs children. *)
Fixpoint decode_Blob_elems (kids : list node) (acc : list Blob)
  : option (list Blob) :=
  match kids with
  | [] => Some acc
  | k :: rest =>
      if String.eqb (name_of k) "Blob"
      then match decode_Blob k with
           | Some b => decode_Blob_elems rest (acc ++ [b])
           | None => None
           end
      else decode_Blob_elems rest acc
  end.

Fixpoint decode_Blobs_elems (kids : list node) (acc : list Blob)
  : option (list Blob) :=
  match kids with
  | [] => Some acc
  | k :: rest =>
      if String.eqb (name_of k) "Blobs"
      then match decode_Blob_elems (kids_of k) acc with
           | Some acc' => decode_Blobs_elems rest acc'
           | None => None
           end
      else decode_Blobs_elems rest acc
  end.

Definition decode_BlobList (kids : list node) (l : BlobList) : option BlobList :=
  match decode_Blobs_elems kids (BlobList_Blobs l) with
  | Some bs =>
      Some {| BlobList_Blobs := bs;
              NextMarker := field_text "NextMarker" kids (NextMarker l) |}
  | None => None
  end.

Fixpoint decode_BlobList_elems (kids : list node) (l : BlobList) : option BlobList :=
  match kids with
  | [] => Some l
  | k :: rest =>
      if String.eqb (name_of k) "BlobList"
      then match decode_BlobList (kids_of k) l with
           | Some l' => decode_BlobList_elems rest l'
           | None => None
           end
      else decode_BlobList_elems rest l
  end.

(* No XMLName field: every root element is accepted. *)
Definition unmarshal_EnumerationResults (b : Body) : option EnumerationResults :=
  match b with
  | NotXml => None
  | Doc root =>
      match decode_BlobList_elems (kids_of root)
              {| BlobList_Blobs := []; NextMarker := "" |} with
      | Some l =>
          Some {| ServiceEndpoint :=
                    field_attr "ServiceEndpoint" (attrs_of root) "";
                  ContainerName := field_attr "ContainerName" (attrs_of root) "";
                  Results_BlobList := l |}
      | None => None
      end
  end.

Definition blob_url (cfg : Config) (account container : string) (blob : Blob)
  : string :=
  "https://" ++ account ++ "." ++ BaseDomain cfg ++ "/" ++ container ++ "/"
  ++ Name blob.

(* Scanner.ListBlobs; `request_ok` is whether http.NewRequest accepted the
   URL, `resp` what s.client.Do returned. *)
Definition ListBlobs (cfg : Config) (account container : string)
    (request_ok : bool) (resp : GetResult) : list string :=
  if negb request_ok then []
  else
    match resp with
    | GetErr => []
    | GetOk status rd =>
        if negb (Z.eqb status StatusOK) then []
        else
          match rd with
          | ReadErr => []
          | ReadOk xmlData =>
              match unmarshal_EnumerationResults xmlData with
              | None => []
              | Some results =>
                  map (blob_url cfg account container)
                      (BlobList_Blobs (Results_BlobList results))
              end
          end
    end.

End Azure.

(* --------------------------------------------------------------------- *)
(* cmd/blobber                                                            *)
(* --------------------------------------------------------------------- *)
Module Blobber.
Import Xml Http.

(* XMLName `xml:"Error"` *)
Record BlobError : Type := {
  Code : string;
  Message : string
}.

Record BlobProperties : Type := {
  CreationTime : string;
  LastModified : string;
  Etag : string;
  ContentLength : Z;
  ContentType : string;
  ContentEncoding : string;
  ContentLanguage : string;
  ContentCRC64 : string;
  ContentMD5 : string;
  CacheControl : string;
  ContentDisposition : string;
  BlobType : string;
  AccessTier : string
}.

(* XMLName `xml:"Blob"` *)
Record Blob : Type := {
  Name : string;
  Properties : BlobProperties
}.

(* XMLName `xml:"EnumerationResults"`; the field Blobs of the struct type
   Blobs is kept as the slice it wraps. *)
Record EnumerationResults : Type := {
  ServiceEndpoint : string;
  ContainerName : string;
  Blobs_Blob : list Blob;
  NextMarker : string
}.

Definition zero_BlobProperties : BlobProperties :=
  {| CreationTime := ""; LastModified := ""; Etag := ""; ContentLength := 0%Z;
     ContentType := ""; ContentEncoding := ""; ContentLanguage := "";
     ContentCRC64 := ""; ContentMD5 := ""; CacheControl := "";
     ContentDisposition := ""; BlobType := ""; AccessTier := "" |}.

(* A struct with a tagged XMLName field only accepts an element of that
   name. *)
Definition unmarshal_BlobError (b : Body) : option BlobError :=
  match b with
  | NotXml => None
  | Doc root =>
      if String.eqb (name_of root) "Error"
      then Some {| Code := field_text "Code" (kids_of root) "";
                   Message := field_text "Message" (kids_of root) "" |}
      else None
  end.

(* Content-Length children in document order; one that does not parse
   fails the whole decoding. *)
Fixpoint decode_ContentLength (kids : list node) (cur : Z) : option Z :=
  match kids with
  | [] => Some cur
  | k :: rest =>
      if String.eqb (name_of k) "Content-Length"
      then match int64_field (text_of k) with
           | Some n => decode_ContentLength rest n
           | None => None
           end
      else decode_ContentLength rest cur
  end.

Definition decode_BlobProperties (kids : list node) (p : BlobProperties)
  : option BlobProperties :=
  match decode_ContentLength kids (ContentLength p) with
  | None => None
  | Some n =>
      Some {| CreationTime := field_text "Creation-Time" kids (CreationTime p);
              LastModified := field_text "Last-Modified" kids (LastModified p);
              Etag := field_text "Etag" kids (Etag p);
              ContentLength := n;
              ContentType := field_text "Content-Type" kids (ContentType p);
              ContentEncoding := field_text "Content-Encoding" kids (ContentEncoding p);
              ContentLanguage := field_text "Content-Language" kids (ContentLanguage p);
              ContentCRC64 := field_text "Content-CRC64" kids (ContentCRC64 p);
              ContentMD5 := field_text "Content-MD5" kids (ContentMD5 p);
              CacheControl := field_text "Cache-Control" kids (CacheControl p);
              ContentDisposition :=
                field_text "Content-Disposition" kids (ContentDisposition p);
              BlobType := field_text "BlobType" kids (BlobType p);
              AccessTier := field_text "AccessTier" kids (AccessTier p) |}
  end.

Fixpoint decode_Properties (kids : list node) (p : BlobProperties)
  : option BlobProperties :=
  match kids with
  | [] => Some p
  | k :: rest =>
      if String.eqb (name_of k) "Properties"
      then match decode_BlobProperties (kids_of k) p with
           | Some p' => decode_Properties rest p'
           | None => None
           end
      else decode_Properties rest p
  end.

Definition decode_Blob (n : node) : option Blob :=
  match decode_Properties (kids_of n) zero_BlobProperties with
  | Some p => Some {| Name := field_text "Name" (kids_of n) ""; Properties := p |}
  | None => None
  end.

(* The slice field `xml:"Blob"`: one appended element per Blob child. *)
Fixpoint decode_Blob_elems (kids : list node) (acc : list Blob)
  : option (list Blob) :=
  match kids with
  | [] => Some acc
  | k :: rest =>
      if String.eqb (name_of k) "Blob"
      then match decode_Blob k with
           | Some b => decode_Blob_elems rest (acc ++ [b])
           | None => None
           end
      else decode_Blob_elems rest acc
  end.

Fixpoint decode_Blobs_elems (kids : list node) (acc : list Blob)
  : option (list Blob) :=
  match kids with
  | [] => Some acc
  | k :: rest =>
      if String.eqb (name_of k) "Blobs"
      then match decode_Blob_elems (kids_of k) acc with
           | Some acc' => decode_Blobs_elems rest acc'
           | None => None
           end
      else decode_Blobs_elems rest acc
  end.

Definition unmarshal_EnumerationResults (b : Body) : option EnumerationResults :=
  match b with
  | NotXml => None
  | Doc root =>
      if String.eqb (name_of root) "EnumerationResults"
      then match decode_Blobs_elems (kids_of root) [] with
           | Some bs =>
               Some {| ServiceEndpoint :=
                         field_attr "ServiceEndpoint" (attrs_of root) "";
                       ContainerName :=
                         field_attr "ContainerName" (attrs_of root) "";
                       Blobs_Blob := bs;
                       NextMarker := field_text "NextMarker" (kids_of root) "" |}
           | None => None
           end
      else None
  end.

(* The command line flags (package variables). *)
Record Flags : Type := {
  isDownload : bool;
  outputPath : string;
  skipSSL : bool;
  maxGoroutines : Z;
  maxParallelDownload : Z;
  debug : bool;
  listBlobs : bool;
  limit : Z;
  baseDomain : string;
  totalCount : bool
}.

Definition with_limit (fl : Flags) (l : Z) : Flags :=
  {| isDownload := isDownload fl; outputPath := outputPath fl;
     skipSSL := skipSSL fl; maxGoroutines := maxGoroutines fl;
     maxParallelDownload := maxParallelDownload fl; debug := debug fl;
     listBlobs := listBlobs fl; limit := l; baseDomain := baseDomain fl;
     totalCount := totalCount fl |}.

(* The messages checkContainer prints (error values are not carried).
   The progress bars and the blank line that closes one are left out. *)
Inductive Msg : Type :=
| DbgChecking (url : string)
| DbgError
| DbgReadError
| DbgNoAuthentication (account container : string)
| InfoPublicAccessNotPermitted (account container : string)
| DbgErrorCode (account container code message : string)
| DbgNotAccessible (account container : string)
| DbgCounting (url : string)
| DbgCountFetchError
| DbgCountReadError
| DbgCountParseError
| DbgCountedSoFar (n : nat)
| FoundTotal (account container : string) (n : nat)
| FoundMoreThan5000 (account container : string)
| Found (account container : string) (n : nat)
| DbgFetching (url : string)
| DbgFetchError
| DbgFetchReadError
| DbgFetchParseError
| DbgFoundSoFar (n : nat).

(* The call that ends checkContainer. *)
Inductive Action : Type :=
| DoDownload (blobs : list Blob)
| DoSave (blobs : list Blob)
| DoList (blobs : list Blob)
| DoNothing.

(* The blobs the call is given. *)
Definition blobs_of (a : Action) : list Blob :=
  match a with
  | DoDownload bs | DoSave bs | DoList bs => bs
  | DoNothing => []
  end.

Record Outcome : Type := {
  requests : list string;   (* the URLs given to client.Get, in order *)
  console : list Msg;       (* the messages printed, in order *)
  found : bool;             (* foundContainers++ was executed *)
  action : Action
}.

Definition baseURL (fl : Flags) (account container : string) : string :=
  "https://" ++ account ++ "." ++ baseDomain fl ++ "/" ++ container.

Definition listURL (fl : Flags) (account container : string) : string :=
  baseURL fl account container ++ "?restype=container&comp=list".

Definition nextURL (lurl nextMarker : string) : string :=
  lurl ++ "&marker=" ++ QueryEscape nextMarker.

Definition dbg (fl : Flags) (m : Msg) : list Msg :=
  if debug fl then [m] else [].

(* What a walk over `for nextMarker != "" ...` leaves behind: the
   exchanges not consumed, the URLs requested, the lines printed and the
   loop's accumulator. *)
Definition Walk (A : Type) : Type :=
  (list GetResult * list string * list Msg * A)%type.

(* The counting loop of checkContainer (--total). `script` holds the
   answers to the coming client.Get calls; None when it holds too few. *)
Fixpoint count_walk (fl : Flags) (lurl : string) (script : list GetResult)
    (nextMarker : string) (totalBlobCount : nat) : option (Walk nat) :=
  if String.eqb nextMarker "" then Some (script, [], [], totalBlobCount)
  else
    match script with
    | [] => None
    | r :: rest =>
        let url := nextURL lurl nextMarker in
        let pre := dbg fl (DbgCounting url) in
        match r with
        | GetErr => Some (rest, [url], pre ++ dbg fl DbgCountFetchError, totalBlobCount)
        | GetOk _ ReadErr =>
            Some (rest, [url], pre ++ dbg fl DbgCountReadError, totalBlobCount)
        | GetOk _ (ReadOk body) =>
            match unmarshal_EnumerationResults body with
            | None =>
                Some (rest, [url], pre ++ dbg fl DbgCountParseError, totalBlobCount)
            | Some nextResults =>
                let total' := totalBlobCount + length (Blobs_Blob nextResults) in
                match count_walk fl lurl rest (NextMarker nextResults) total' with
                | None => None
                | Some (rest', reqs, msgs, t) =>
                    Some (rest', url :: reqs,
                          pre ++ dbg fl (DbgCountedSoFar total') ++ msgs, t)
                end
            end
        end
    end.

(* The fetching loop: for nextMarker != "" && len(allBlobs) < limit. *)
Fixpoint list_walk (fl : Flags) (lurl : string) (script : list GetResult)
    (nextMarker : string) (allBlobs : list Blob) : option (Walk (list Blob)) :=
  if (negb (String.eqb nextMarker "") && (Z.of_nat (length allBlobs) <? limit fl)%Z)%bool
  then
    match script with
    | [] => None
    | r :: rest =>
        let url := nextURL lurl nextMarker in
        let pre := dbg fl (DbgFetching url) in
        match r with
        | GetErr => Some (rest, [url], pre ++ dbg fl DbgFetchError, allBlobs)
        | GetOk _ ReadErr =>
            Some (rest, [url], pre ++ dbg fl DbgFetchReadError, allBlobs)
        | GetOk _ (ReadOk body) =>
            match unmarshal_EnumerationResults body with
            | None => Some (rest, [url], pre ++ dbg fl DbgFetchParseError, allBlobs)
            | Some nextResults =>
                let all' := allBlobs ++ Blobs_Blob nextResults in
                match list_walk fl lurl rest (NextMarker nextResults) all' with
                | None => None
                | Some (rest', reqs, msgs, bs) =>
                    Some (rest', url :: reqs,
                          pre ++ dbg fl (DbgFoundSoFar (length all')) ++ msgs, bs)
                end
            end
        end
    end
  else Some (script, [], [], allBlobs).

(* The switch on blobError.Code: Some lines when checkContainer returns
   there, None when it goes on to the EnumerationResults decoding. *)
Definition error_gate (fl : Flags) (account container : string) (body : Body)
  : option (list Msg) :=
  match unmarshal_BlobError body with
  | Some blobError =>
      let code := Code blobError in
      if String.eqb code "" then None
      else if String.eqb code "NoAuthenticationInformation"
      then Some (dbg fl (DbgNoAuthentication account container))
      else if String.eqb code "PublicAccessNotPermitted"
      then Some [InfoPublicAccessNotPermitted account container]
      else if String.eqb code "ResourceNotFound" then None
      else Some (dbg fl (DbgErrorCode account container code (Message blobError)))
  | None => None
  end.

(* if limit > 0 && len(allBlobs) > limit { allBlobs = allBlobs[:limit] } *)
Definition truncate (fl : Flags) (allBlobs : list Blob) : list Blob :=
  if ((0 <? limit fl) && (limit fl <? Z.of_nat (length allBlobs)))%Z%bool
  then firstn (Z.to_nat (limit fl)) allBlobs
  else allBlobs.

Definition dispatch (fl : Flags) (allBlobs : list Blob) : Action :=
  if isDownload fl then DoDownload allBlobs
  else if negb (String.eqb (outputPath fl) "") then DoSave allBlobs
  else if listBlobs fl then DoList allBlobs
  else DoNothing.

(* checkContainer, from the decoded first page on. *)
Definition report (fl : Flags) (account container : string)
    (results : EnumerationResults) (rest : list GetResult)
  : option (list string * list Msg * Action) :=
  let lurl := listURL fl account container in
  let n := length (Blobs_Blob results) in
  let counted :=
    if (totalCount fl && negb (String.eqb (NextMarker results) ""))%bool
    then match count_walk fl lurl rest (NextMarker results) n with
         | Some (rest', reqs, msgs, total) =>
             Some (rest', reqs, msgs ++ [FoundTotal account container total])
         | None => None
         end
    else if (5000 <=? n)%nat
         then Some (rest, [], [FoundMoreThan5000 account container])
         else Some (rest, [], [Found account container n]) in
  match counted with
  | None => None
  | Some (rest1, reqs1, msgs1) =>
      let fetched :=
        if ((5000 <? limit fl)%Z && negb (String.eqb (NextMarker results) ""))%bool
        then list_walk fl lurl rest1 (NextMarker results) (Blobs_Blob results)
        else Some (rest1, [], [], Blobs_Blob results) in
      match fetched with
      | None => None
      | Some (_, reqs2, msgs2, allBlobs) =>
          Some (reqs1 ++ reqs2, msgs1 ++ msgs2, dispatch fl (truncate fl allBlobs))
      end
  end.

(* checkContainer(account, container). `script` holds the answers to its
   client.Get calls in the order it makes them; the result is None when
   the code would make a call the script has no answer for. *)
Definition checkContainer (fl : Flags) (account container : string)
    (script : list GetResult) : option Outcome :=
  let lurl := listURL fl account container in
  let pre := dbg fl (DbgChecking lurl) in
  let returns (msgs : list Msg) :=
    Some {| requests := [lurl]; console := pre ++ msgs;
            found := false; action := DoNothing |} in
  match script with
  | [] => None
  | GetErr :: _ => returns (dbg fl DbgError)
  | GetOk _ ReadErr :: _ => returns (dbg fl DbgReadError)
  | GetOk _ (ReadOk body) :: rest =>
      match error_gate fl account container body with
      | Some msgs => returns msgs
      | None =>
          match unmarshal_EnumerationResults body with
          | None => returns (dbg fl (DbgNotAccessible account container))
          | Some results =>
              if (length (Blobs_Blob results) =? 0)%nat
              then returns (dbg fl (DbgNotAccessible account container))
              else
                match report fl account container results rest with
                | None => None
                | Some (reqs, msgs, act) =>
                    Some {| requests := lurl :: reqs; console := pre ++ msgs;
                            found := true; action := act |}
                end
          end
      end
  end.

Definition blobURL (fl : Flags) (account container : string) (blob : Blob) : string :=
  "https://" ++ account ++ "." ++ baseDomain fl ++ "/" ++ container ++ "/" ++ Name blob.

(* listBlobURLs: the lines it prints. *)
Definition listBlobURLs (fl : Flags) (account container : string)
    (blobs : list Blob) : list string :=
  map (blobURL fl account container) blobs.

(* saveBlobList: the file system after it, given whether os.Create of
   the output file succeeds. *)
Definition saveBlobList (os : Fs.Os) (fl : Flags) (account container : string)
    (blobs : list Blob) (fs : Fs.FS) : Fs.FS :=
  let outputFile :=
    if String.eqb (outputPath fl) ""
    then (account ++ "_" ++ container ++ "_blobs.txt")%string
    else outputPath fl in
  if Fs.create_ok os outputFile then
    let saveLimit := if (99999 <? limit fl)%Z then limit fl else 99999%Z in
    let blobsToSave :=
      if (saveLimit <? Z.of_nat (length blobs))%Z
      then firstn (Z.to_nat saveLimit) blobs else blobs in
    fold_left
      (fun fs' blob =>
         Fs.Write fs' outputFile
           (blobURL fl account container blob ++ String "010"%char "")%string)
      blobsToSave (Fs.Create fs outputFile)
  else fs.

(* One job of downloadBlobs (the body of its goroutine), for the blob at
   `url` stored as `filename`: the directory first, then the request, then
   the file, then the copy. The status code is not looked at. *)
Definition download_job (os : Fs.Os) (get : string -> Fetch)
    (url filename : string) (fs : Fs.FS) : Fs.FS :=
  if Fs.mkdirall_ok os filename then
    match get url with
    | FetchErr => fs
    | FetchOk _ body =>
        if Fs.create_ok os filename
        then Fs.Write (Fs.Create fs filename) filename (fst (Copy body))
        else fs
    end
  else fs.

(* ----- RootCmd.Run ----- *)

(* What the main goroutine does in `for _, account := range accountList`,
   in program order. The resolver is a function of the domain name. *)
Inductive MainOp : Type :=
| OpLookup (domain : string)                  (* domainExists(domain) *)
| OpSkip (account : string) (n : nat)         (* checkedCount += n *)
| OpWgAdd                                     (* wg.Add(1) *)
| OpAcquire (account container : string)      (* sem <- struct{}{} *)
| OpGo (account container : string).          (* go func(acc, cont) *)

Definition domain_of (fl : Flags) (account : string) : string :=
  account ++ "." ++ baseDomain fl.

Fixpoint container_loop (account : string) (containerList : list string)
  : list MainOp :=
  match containerList with
  | [] => []
  | container :: rest =>
      OpWgAdd :: OpAcquire account container :: OpGo account container
      :: container_loop account rest
  end.

Fixpoint account_loop (domainExists : string -> bool) (fl : Flags)
    (accountList containerList : list string) : list MainOp :=
  match accountList with
  | [] => []
  | account :: rest =>
      OpLookup (domain_of fl account)
      :: (if domainExists (domain_of fl account)
          then container_loop account containerList
          else [OpSkip account (length containerList)])
      ++ account_loop domainExists fl rest containerList
  end.

Inductive RunResult : Type :=
| ErrOutputWithList       (* --output cannot be used with --list *)
| ErrNoAccounts
| ErrNoContainers
| Scan (fl : Flags) (ops : list MainOp).

(* RootCmd.Run up to wg.Wait(); accountList and containerList are what
   processInput returns for the two flags. *)
Definition Run (domainExists : string -> bool) (fl : Flags)
    (accountList containerList : list string) : RunResult :=
  if (negb (String.eqb (outputPath fl) "") && listBlobs fl)%bool
  then ErrOutputWithList
  else
    let fl' :=
      if (negb (isDownload fl) && negb (String.eqb (outputPath fl) "")
          && (limit fl =? 10)%Z)%bool
      then with_limit fl 99999 else fl in
    match accountList with
    | [] => ErrNoAccounts
    | _ :: _ =>
        match containerList with
        | [] => ErrNoContainers
        | _ :: _ => Scan fl' (account_loop domainExists fl' accountList containerList)
        end
    end.

Definition ops_of (r : RunResult) : list MainOp :=
  match r with
  | Scan _ ops => ops
  | _ => []
  end.

(* ----- the goroutines of a scan ----- *)

(* A worker goroutine: inside checkContainer, then in its deferred
   function before `<-sem`, then after it (progress update), then gone. *)
Inductive Phase : Type := Probing | Releasing | Counting | Finished.

Record Worker : Type := {
  w_account : string;
  w_container : string;
  w_phase : Phase
}.

Record State : Type := {
  pending : list MainOp;     (* what the main goroutine has still to do *)
  sem : nat;                 (* elements in the channel sem *)
  workers : list Worker;     (* the goroutines started so far *)
  lookups : list string;     (* domains resolved so far *)
  checkedCount : nat;
  wg : nat
}.

Definition set_phase (w : Worker) (p : Phase) : Worker :=
  {| w_account := w_account w; w_container := w_container w; w_phase := p |}.

(* make(chan struct{}, maxGoroutines) panics on a negative size: nothing
   of the loop runs then. *)
Definition start (N : Z) (ops : list MainOp) : State :=
  {| pending := if (N <? 0)%Z then [] else ops;
     sem := 0; workers := []; lookups := []; checkedCount := 0; wg := 0 |}.

(* One step of one goroutine; N is the capacity of sem. A send blocks
   while the channel holds N elements, a receive while it holds none. *)
Inductive step (N : Z) : State -> State -> Prop :=
| step_lookup d ops s ws ls cc g :
    step N (Build_State (OpLookup d :: ops) s ws ls cc g)
           (Build_State ops s ws (ls ++ [d]) cc g)
| step_skip a n ops s ws ls cc g :
    step N (Build_State (OpSkip a n :: ops) s ws ls cc g)
           (Build_State ops s ws ls (cc + n) g)
| step_wgadd ops s ws ls cc g :
    step N (Build_State (OpWgAdd :: ops) s ws ls cc g)
           (Build_State ops s ws ls cc (S g))
| step_acquire a c ops s ws ls cc g :
    (Z.of_nat s < N)%Z ->
    step N (Build_State (OpAcquire a c :: ops) s ws ls cc g)
           (Build_State ops (S s) ws ls cc g)
| step_go a c ops s ws ls cc g :
    step N (Build_State (OpGo a c :: ops) s ws ls cc g)
           (Build_State ops s (ws ++ [Build_Worker a c Probing]) ls cc g)
| step_probed w ops s ws1 ws2 ls cc g :
    w_phase w = Probing ->
    step N (Build_State ops s (ws1 ++ w :: ws2) ls cc g)
           (Build_State ops s (ws1 ++ set_phase w Releasing :: ws2) ls cc g)
| step_release w ops s ws1 ws2 ls cc g :
    w_phase w = Releasing ->
    step N (Build_State ops (S s) (ws1 ++ w :: ws2) ls cc g)
           (Build_State ops s (ws1 ++ set_phase w Counting :: ws2) ls cc g)
| step_done w ops s ws1 ws2 ls cc g :
    w_phase w = Counting ->
    step N (Build_State ops s (ws1 ++ w :: ws2) ls cc g)
           (Build_State ops s (ws1 ++ set_phase w Finished :: ws2) ls (S cc) (pred g)).

(* The states a scan can be in. *)
Definition reachable (N : Z) (ops : list MainOp) (s : State) : Prop :=
  rtc (step N) (start N ops) s.

Definition is_probing (w : Worker) : bool :=
  match w_phase w with Probing => true | _ => false end.

(* The probes in flight: the workers inside checkContainer. *)
Definition in_flight (s : State) : nat :=
  length (List.filter is_probing (workers s)).

(* The workers that have not yet received from sem. *)
Definition holds_slot (w : Worker) : bool :=
  match w_phase w with Probing | Releasing => true | _ => false end.

Definition slots_held (ws : list Worker) : nat :=
  length (List.filter holds_slot ws).

(* In what is left of the loop every `go` directly follows its send on
   sem. *)
Fixpoint paired (ops : list MainOp) : Prop :=
  match ops with
  | [] => True
  | OpAcquire _ _ :: OpGo _ _ :: rest => paired rest
  | OpAcquire _ _ :: _ => False
  | OpGo _ _ :: _ => False
  | _ :: rest => paired rest
  end.

(* Between two steps: the channel holds one element per worker that has
   not received yet, plus one when the main goroutine has sent and not yet
   started the worker. *)
Definition sem_invariant (N : Z) (s : State) : Prop :=
  (Z.of_nat (sem s) <= Z.max 0 N)%Z
  /\ ((paired (pending s) /\ slots_held (workers s) = sem s)
      \/ (exists a c ops, pending s = OpGo a c :: ops /\ paired ops
                          /\ S (slots_held (workers s)) = sem s)).

(* The domains a sequence of operations resolves, in order. *)
Fixpoint lookups_of (ops : list MainOp) : list string :=
  match ops with
  | [] => []
  | OpLookup d :: rest => d :: lookups_of rest
  | _ :: rest => lookups_of rest
  end.

(* ----- processInput ----- *)

(* What the file system answers for the name given as input: os.Stat
   fails, or os.Open fails, or the lines bufio.Scanner yields (a read
   error only ends them). *)
Inductive InputFile : Type :=
| NoSuchFile
| CannotOpen
| Lines (lines : list string).

Definition keep_names (items : list string) : list string :=
  List.filter (fun item => negb (String.eqb item ""))
    (map Strings.TrimSpace items).

(* processInput(input) *)
Definition processInput (files : string -> InputFile) (input : string)
  : list string :=
  if String.eqb input "" then []
  else
    match files input with
    | Lines lines => keep_names lines
    | CannotOpen => []
    | NoSuchFile => keep_names (Strings.Split input ",")
    end.

End Blobber.

(* --------------------------------------------------------------------- *)
(* Page chains, as the specification speaks of them                       *)
(* --------------------------------------------------------------------- *)
Module Chain.
Import Http Blobber.

(* `linked m script pages`: asked with the tokens m, then the token of
   each page in turn, the server answers with `script`, every answer
   decodes, to `pages`, and every token asked with is non-empty. *)
Inductive linked : string -> list GetResult -> list EnumerationResults -> Prop :=
| linked_nil m : linked m [] []
| linked_cons m status body p rest ps :
    m <> "" ->
    unmarshal_EnumerationResults body = Some p ->
    linked (NextMarker p) rest ps ->
    linked m (GetOk status (ReadOk body) :: rest) (p :: ps).

(* The tokens of a chain that starts with m, and the token it ends with. *)
Definition markers (m : string) (ps : list EnumerationResults) : list string :=
  m :: map NextMarker ps.

Definition last_marker (m : string) (ps : list EnumerationResults) : string :=
  List.last (map NextMarker ps) m.

(* The records of the pages, page after page. *)
Definition records (ps : list EnumerationResults) : list Blob :=
  concat (map Blobs_Blob ps).

(* An exchange on which a walk breaks off: the request, the read or the
   decoding fails. *)
Definition failed (r : GetResult) : Prop :=
  match r with
  | GetErr => True
  | GetOk _ ReadErr => True
  | GetOk _ (ReadOk body) => unmarshal_EnumerationResults body = None
  end.

(* `cs` is what the counting loop of checkContainer consumes after the
   first page `first`: nothing without --total or on a single page. *)
Definition count_part (fl : Flags) (lurl : string) (first : EnumerationResults)
    (cs : list GetResult) (reqs : list string) : Prop :=
  if (totalCount fl && negb (String.eqb (NextMarker first) ""))%bool
  then exists msgs t,
      count_walk fl lurl cs (NextMarker first) (length (Blobs_Blob first))
      = Some ([], reqs, msgs, t)
  else cs = [] /\ reqs = [].

(* --list without --download and --output. *)
Definition list_mode (fl : Flags) : Prop :=
  isDownload fl = false /\ outputPath fl = "" /\ listBlobs fl = true.

End Chain.

(* --------------------------------------------------------------------- *)
(* Bookkeeping of a scan: checkedCount and the wait group                 *)
(* --------------------------------------------------------------------- *)
Module Progress.
Import Blobber.

(* What the operations still to come will add to checkedCount: a skipped
   account its containers, a started worker one. *)
Fixpoint owed (ops : list MainOp) : nat :=
  match ops with
  | [] => 0
  | OpSkip _ n :: rest => n + owed rest
  | OpGo _ _ :: rest => S (owed rest)
  | _ :: rest => owed rest
  end.

(* The workers that have not yet added to checkedCount and called
   wg.Done. *)
Definition unfinished (w : Worker) : bool :=
  match w_phase w with Finished => false | _ => true end.

Definition running (ws : list Worker) : nat :=
  length (List.filter unfinished ws).

(* The loop body for a container comes as wg.Add, send, go. *)
Fixpoint triples (ops : list MainOp) : Prop :=
  match ops with
  | [] => True
  | OpLookup _ :: rest => triples rest
  | OpSkip _ _ :: rest => triples rest
  | OpWgAdd :: OpAcquire _ _ :: OpGo _ _ :: rest => triples rest
  | _ => False
  end.

(* wg.Add was called for a worker that is not started yet. *)
Definition announced (ops : list MainOp) : nat :=
  match ops with
  | OpAcquire _ _ :: _ => 1
  | OpGo _ _ :: _ => 1
  | _ => 0
  end.

(* What is left of the loop, possibly from inside a loop body. *)
Definition loop_rest (ops : list MainOp) : Prop :=
  triples ops
  \/ (exists a c a' c' rest, ops = OpAcquire a c :: OpGo a' c' :: rest /\ triples rest)
  \/ (exists a c rest, ops = OpGo a c :: rest /\ triples rest).

(* The wait group counts the workers announced and not finished. *)
Definition wg_invariant (s : State) : Prop :=
  loop_rest (pending s) /\ wg s = running (workers s) + announced (pending s).

(* Main is past wg.Wait(): the loop is over and the counter is zero. *)
Definition joined (s : State) : Prop :=
  pending s = [] /\ wg s = 0.

(* Nothing is left to do. *)
Definition quiescent (s : State) : Prop :=
  pending s = [] /\ Forall (fun w => w_phase w = Finished) (workers s).

End Progress.

(* --------------------------------------------------------------------- *)
(* downloader                                                             *)
(* --------------------------------------------------------------------- *)
Module Downloader.
Import Http.

Inductive error : Type :=
| ErrCreateDirectory      (* failed to create directory *)
| ErrCreateFile           (* failed to create file *)
| ErrRequest              (* HTTP request failed *)
| ErrStatus (code : Z)    (* download failed, HTTP code *)
| ErrWrite.               (* file writing error *)

(* DownloadFile(client, url, destPath, baseDomain): the error it returns
   (None for nil) and the file system it leaves. *)
Definition DownloadFile (os : Fs.Os) (get : string -> Fetch)
    (url destPath : string) (fs : Fs.FS) : option error * Fs.FS :=
  if negb (Fs.mkdirall_ok os destPath) then (Some ErrCreateDirectory, fs)
  else if negb (Fs.create_ok os destPath) then (Some ErrCreateFile, fs)
  else
    let fs1 := Fs.Create fs destPath in
    match get url with
    | FetchErr => (Some ErrRequest, fs1)
    | FetchOk status body =>
        if negb (Z.eqb status StatusOK) then (Some (ErrStatus status), fs1)
        else
          let (written, failed) := Copy body in
          let fs2 := Fs.Write fs1 destPath written in
          if failed then (Some ErrWrite, fs2) else (None, fs2)
    end.

(* extractAccountAndContainer(url, baseDomain) *)
Definition extractAccountAndContainer (url baseDomain : string) : string * string :=
  let parts := Strings.Split url "." in
  if (length parts <? 2)%nat then ("unknown", "unknown")
  else
    let account := Strings.TrimPrefix (hd "" parts) "https://" in
    let hostAndPath := Strings.SplitN2 url ("." ++ baseDomain ++ "/") in
    if (length hostAndPath <? 2)%nat then (account, "unknown")
    else
      let containerPath := Strings.SplitN2 (nth 1 hostAndPath "") "/" in
      if ((length containerPath <? 1)%nat || String.eqb (hd "" containerPath) "")%bool
      then (account, "unknown")
      else (account, hd "" containerPath).

(* The lines DebugDownloadFile prints, each with the account and the
   container taken from the URL (header values and error texts are not
   carried). *)
Inductive DebugMsg : Type :=
| DbgStarting (account container url destPath : string)
| DbgDirectoryError (account container : string)
| DbgFileError (account container : string)
| DbgSending (account container url : string)
| DbgRequestError (account container : string)
| DbgResponse (account container : string) (status : Z)
| DbgFailedResponse (account container : string) (status : Z)
| DbgContentLength (account container : string)
| DbgContentType (account container : string)
| DbgWriteError (account container : string)
| DbgCompleted (account container : string) (bytesWritten : nat).

(* DebugDownloadFile(client, url, destPath, baseDomain) *)
Definition DebugDownloadFile (os : Fs.Os) (get : string -> Fetch)
    (url destPath baseDomain : string) (fs : Fs.FS)
  : list DebugMsg * option error * Fs.FS :=
  let (account, container) := extractAccountAndContainer url baseDomain in
  let m0 := [DbgStarting account container url destPath] in
  if negb (Fs.mkdirall_ok os destPath)
  then (m0 ++ [DbgDirectoryError account container], Some ErrCreateDirectory, fs)
  else if negb (Fs.create_ok os destPath)
  then (m0 ++ [DbgFileError account container], Some ErrCreateFile, fs)
  else
    let fs1 := Fs.Create fs destPath in
    let m1 := m0 ++ [DbgSending account container url] in
    match get url with
    | FetchErr => (m1 ++ [DbgRequestError account container], Some ErrRequest, fs1)
    | FetchOk status body =>
        let m2 := m1 ++ [DbgResponse account container status] in
        if negb (Z.eqb status StatusOK)
        then (m2 ++ [DbgFailedResponse account container status],
              Some (ErrStatus status), fs1)
        else
          let m3 := m2 ++ [DbgContentLength account container;
                           DbgContentType account container] in
          let (written, failed) := Copy body in
          let fs2 := Fs.Write fs1 destPath written in
          if failed then (m3 ++ [DbgWriteError account container], Some ErrWrite, fs2)
          else (m3 ++ [DbgCompleted account container (String.length written)],
                None, fs2)
    end.

End Downloader.

(* ===================================================================== *)
(* Properties                                                             *)
(* ===================================================================== *)

Import Xml Http.

(* --------------------------------------------------------------------- *)
(* Sample data used by the concrete statements                            *)
(* --------------------------------------------------------------------- *)
Module Sample.
Import Blobber.

(* blobber -a acct1 -c c1 --list : the flag defaults with --list. *)
Definition list_flags : Flags :=
  {| isDownload := false; outputPath := ""; skipSSL := true;
     maxGoroutines := 500; maxParallelDownload := 10; debug := false;
     listBlobs := true; limit := 10; baseDomain := "blob.core.windows.net";
     totalCount := false |}.

Definition blob_elem (name : string) : node :=
  Elem "Blob" [] ""
    [Elem "Name" [] name [];
     Elem "Properties" [] "" [Elem "Content-Length" [] "12" []]].

(* <EnumerationResults><Blobs>...</Blobs><NextMarker>..</NextMarker>
   </EnumerationResults> *)
Definition page (names : list string) (marker : string) : Body :=
  Doc (Elem "EnumerationResults" [("ContainerName", "c1")] ""
         [Elem "Blobs" [] "" (map blob_elem names);
          Elem "NextMarker" [] marker []]).

(* <Error><Code>code</Code><Message>..</Message></Error> *)
Definition error_body (code : string) : Body :=
  Doc (Elem "Error" [] ""
         [Elem "Code" [] code []; Elem "Message" [] "The request failed." []]).

Definition config : Azure.Config :=
  {| Azure.Accounts := "acct1"; Azure.Containers := "c1";
     Azure.Download := false; Azure.Output := ""; Azure.SkipSSL := true;
     Azure.MaxGoroutines := 500; Azure.MaxParallelDownload := 10;
     Azure.BaseDomain := "blob.core.windows.net"; Azure.Debug := false |}.

(* The same with --limit 6000, and with --limit 5001. *)
Definition fetch_flags : Flags := with_limit list_flags 6000.
Definition fetch_flags_5001 : Flags := with_limit list_flags 5001.

(* What the pages above decode to. *)
Definition blob (name : string) : Blob :=
  {| Name := name;
     Properties :=
       {| CreationTime := ""; LastModified := ""; Etag := ""; ContentLength := 12;
          ContentType := ""; ContentEncoding := ""; ContentLanguage := "";
          ContentCRC64 := ""; ContentMD5 := ""; CacheControl := "";
          ContentDisposition := ""; BlobType := ""; AccessTier := "" |} |}.

Definition results (names : list string) (marker : string) : EnumerationResults :=
  {| ServiceEndpoint := ""; ContainerName := "c1";
     Blobs_Blob := map blob names; NextMarker := marker |}.

Definition ok (b : Body) : GetResult := GetOk 200 (ReadOk b).

Definition lurl : string :=
  "https://acct1.blob.core.windows.net/c1?restype=container&comp=list".

(* Three pages of 3, 5000 and 1 records. *)
Definition big_chain : list GetResult :=
  [ok (page ["a"; "b"; "c"] "m1"); ok (page (repeat "x" (Z.to_nat 5000)) "m2");
   ok (page ["z"] "")].

Definition resolver (domain : string) : bool :=
  String.eqb domain "acct1.blob.core.windows.net".

(* acct1 resolved, the worker for acct1/c1 started and probing. *)
Definition probing_state : State :=
  {| pending := []; sem := 1;
     workers := [{| w_account := "acct1"; w_container := "c1"; w_phase := Probing |}];
     lookups := ["acct1.blob.core.windows.net"]; checkedCount := 0; wg := 1 |}.

(* blobber -a acct1 -c c1 --list -o out.txt *)
Definition list_and_output_flags : Flags :=
  {| isDownload := false; outputPath := "out.txt"; skipSSL := true;
     maxGoroutines := 500; maxParallelDownload := 10; debug := false;
     listBlobs := true; limit := 10; baseDomain := "blob.core.windows.net";
     totalCount := false |}.

(* An operating system on which every directory and file can be created,
   a server that answers every blob request with 404 and no body, and a
   file system that holds an earlier download. *)
Definition os_ok : Fs.Os :=
  {| Fs.mkdirall_ok := fun _ => true; Fs.create_ok := fun _ => true |}.

Definition not_found (url : string) : Fetch :=
  FetchOk 404 {| data := ""; breaks_after := None |}.

Definition earlier_download : Fs.FS := {[ "out/a.txt" := "old contents" ]}.


(* The scan of acct1/c1 after its only worker has finished. *)
Definition finished_state : State :=
  {| pending := []; sem := 0;
     workers := [{| w_account := "acct1"; w_container := "c1"; w_phase := Finished |}];
     lookups := ["acct1.blob.core.windows.net"]; checkedCount := 1; wg := 0 |}.

(* blobber -a acct1 -c c1 --list -g 0, and where its scan stops. *)
Definition zero_flags : Flags :=
  {| isDownload := false; outputPath := ""; skipSSL := true;
     maxGoroutines := 0; maxParallelDownload := 10; debug := false;
     listBlobs := true; limit := 10; baseDomain := "blob.core.windows.net";
     totalCount := false |}.

Definition blocked_state : State :=
  {| pending := [OpAcquire "acct1" "c1"; OpGo "acct1" "c1"]; sem := 0;
     workers := []; lookups := ["acct1.blob.core.windows.net"];
     checkedCount := 0; wg := 1 |}.

(* blobber -a acct1 -c c1 --list --total --limit 6000 *)
Definition total_flags : Flags :=
  {| isDownload := false; outputPath := ""; skipSSL := true;
     maxGoroutines := 500; maxParallelDownload := 10; debug := false;
     listBlobs := true; limit := 6000; baseDomain := "blob.core.windows.net";
     totalCount := true |}.

(* blobber -a acct1 -c c1 -o out.txt *)
Definition save_flags : Flags :=
  {| isDownload := false; outputPath := "out.txt"; skipSSL := true;
     maxGoroutines := 500; maxParallelDownload := 10; debug := false;
     listBlobs := false; limit := 10; baseDomain := "blob.core.windows.net";
     totalCount := false |}.

(* A listing that wraps its Blobs element in a BlobList element. *)
Definition wrapped_page (names : list string) : Body :=
  Doc (Elem "EnumerationResults" [] ""
         [Elem "BlobList" [] "" [Elem "Blobs" [] "" (map blob_elem names)]]).

(* No file is named like the flag. *)
Definition no_files (name : string) : InputFile := NoSuchFile.

End Sample.

(* --------------------------------------------------------------------- *)
(* Decoding                                                               *)
(* --------------------------------------------------------------------- *)

(* A document with root <Error> is no EnumerationResults: the two structs
   name different root elements. *)
Lemma error_document_is_no_listing (body : Body) (e : Blobber.BlobError) :
  Blobber.unmarshal_BlobError body = Some e ->
  Blobber.unmarshal_EnumerationResults body = None.
Proof.
  destruct body as [|root]; simpl; [discriminate|].
  destruct (String.eqb (name_of root) "Error") eqn:Hname; [|discriminate].
  apply String.eqb_eq in Hname. rewrite Hname. reflexivity.
Qed.

Lemma error_gate_open_cases fl a c body :
  Blobber.error_gate fl a c body = None ->
  Blobber.unmarshal_BlobError body = None
  \/ exists e, Blobber.unmarshal_BlobError body = Some e
               /\ (Blobber.Code e = "" \/ Blobber.Code e = "ResourceNotFound").
Proof.
  unfold Blobber.error_gate.
  destruct (Blobber.unmarshal_BlobError body) as [e|]; [|by left].
  intros H. right. exists e. split; [done|].
  destruct (String.eqb (Blobber.Code e) "") eqn:E0.
  { left. by apply String.eqb_eq. }
  destruct (String.eqb (Blobber.Code e) "NoAuthenticationInformation"); [done|].
  destruct (String.eqb (Blobber.Code e) "PublicAccessNotPermitted"); [done|].
  destruct (String.eqb (Blobber.Code e) "ResourceNotFound") eqn:E3; [|done].
  right. by apply String.eqb_eq.
Qed.

(* checkContainer reports a container only on a first answer whose body
   decodes to a listing with at least one blob. *)
Lemma checkContainer_found_inv fl a c r rest o :
  Blobber.checkContainer fl a c (r :: rest) = Some o ->
  Blobber.found o = true ->
  exists status body results,
    r = GetOk status (ReadOk body)
    /\ Blobber.error_gate fl a c body = None
    /\ Blobber.unmarshal_EnumerationResults body = Some results
    /\ Blobber.Blobs_Blob results <> [].
Proof.
  unfold Blobber.checkContainer.
  destruct r as [|status [|body]]; try (intros [= <-]; discriminate).
  destruct (Blobber.error_gate fl a c body) eqn:Hg; [intros [= <-]; discriminate|].
  destruct (Blobber.unmarshal_EnumerationResults body) as [results|] eqn:Hd;
    [|intros [= <-]; discriminate].
  destruct (length (Blobber.Blobs_Blob results) =? 0)%nat eqn:Hlen;
    [intros [= <-]; discriminate|].
  intros _ _. exists status, body, results. repeat split; try done.
  intros Hnil. rewrite Hnil in Hlen. discriminate.
Qed.

(* An answer with an <Error> body is never reported, whatever its code. *)
Lemma checkContainer_error_body fl a c status body e rest o :
  Blobber.unmarshal_BlobError body = Some e ->
  Blobber.checkContainer fl a c (GetOk status (ReadOk body) :: rest) = Some o ->
  Blobber.found o = false.
Proof.
  intros He Ho. destruct (Blobber.found o) eqn:Hf; [|done].
  destruct (checkContainer_found_inv _ _ _ _ _ _ Ho Hf)
    as (s & b & res & [= <- <-] & _ & Hd & _).
  rewrite (error_document_is_no_listing _ _ He) in Hd. discriminate.
Qed.

(* --------------------------------------------------------------------- *)
(* Classification                                                         *)
(* --------------------------------------------------------------------- *)

(** C1 (as amended): Scanner.checkAccess classifies every answer with
    status 200 as public, whatever its body. checkContainer does not look
    at the status code at all, and it reports a container only when the
    body of the answer decodes to a listing with at least one blob. *)
Theorem status_200_classification :
  (forall cfg a c rd,
      Azure.IsPublic (Azure.checkAccess cfg a c (GetOk StatusOK rd)) = true
      /\ Azure.ErrorCode (Azure.checkAccess cfg a c (GetOk StatusOK rd)) = "")
  /\ (forall fl a c s1 s2 rd rest,
         Blobber.checkContainer fl a c (GetOk s1 rd :: rest)
         = Blobber.checkContainer fl a c (GetOk s2 rd :: rest))
  /\ (forall fl a c s body rest o,
         Blobber.checkContainer fl a c (GetOk s (ReadOk body) :: rest) = Some o ->
         Blobber.found o = true ->
         exists results,
           Blobber.unmarshal_EnumerationResults body = Some results
           /\ Blobber.Blobs_Blob results <> []).
Proof.
  split; [|split].
  - intros cfg a c rd. by cbn.
  - intros fl a c s1 s2 rd rest. reflexivity.
  - intros fl a c s body rest o Ho Hf.
    destruct (checkContainer_found_inv _ _ _ _ _ _ Ho Hf)
      as (s' & b & res & [= <- <-] & _ & Hd & Hne).
    by exists res.
Qed.

(** C1, counterexample: an answer with status 200 whose body is a listing
    with no blob is not reported by checkContainer. *)
Lemma status_200_empty_listing_not_reported :
  Blobber.checkContainer Sample.list_flags "acct1" "c1"
    [GetOk 200 (ReadOk (Sample.page [] ""))]
  = Some {| Blobber.requests :=
              ["https://acct1.blob.core.windows.net/c1?restype=container&comp=list"];
            Blobber.console := [];
            Blobber.found := false;
            Blobber.action := Blobber.DoNothing |}.
Proof. reflexivity. Qed.

(** C2: at a 404 answer whose body is an <Error> document with the code
    ResourceNotFound, Scanner.checkAccess leaves IsPublic false and stores
    the code, and checkContainer returns without reporting the container;
    the empty code is public for checkAccess only. *)
Theorem resource_not_found_is_not_public :
  let get := GetOk 404 (ReadOk (Sample.error_body "ResourceNotFound")) in
  Azure.unmarshal_ErrorResponse (Sample.error_body "ResourceNotFound")
  = Some {| Azure.Code := "ResourceNotFound";
            Azure.Message := "The request failed." |}
  /\ Azure.IsPublic (Azure.checkAccess Sample.config "acct1" "c1" get) = false
  /\ Azure.ErrorCode (Azure.checkAccess Sample.config "acct1" "c1" get)
     = "ResourceNotFound"
  /\ Azure.IsPublic
       (Azure.checkAccess Sample.config "acct1" "c1"
          (GetOk 404 (ReadOk (Sample.error_body "")))) = true
  /\ Blobber.found <$> Blobber.checkContainer Sample.list_flags "acct1" "c1" [get]
     = Some false
  /\ Blobber.found <$> Blobber.checkContainer Sample.list_flags "acct1" "c1"
                         [GetOk 404 (ReadOk (Sample.error_body ""))]
     = Some false.
Proof. repeat split. Qed.

(** C7: the classification depends on the captured answer only. For
    Scanner.checkAccess, IsPublic and ErrorCode are the same for every
    account, container and configuration, and the whole AccessResult is
    the same once account, container and base domain are. For
    checkContainer, whether the container is reported is the same for
    every account, container, flag setting and later exchange. *)
Theorem classification_depends_on_answer_only :
  (forall cfg1 cfg2 a1 a2 c1 c2 get,
      Azure.IsPublic (Azure.checkAccess cfg1 a1 c1 get)
      = Azure.IsPublic (Azure.checkAccess cfg2 a2 c2 get)
      /\ Azure.ErrorCode (Azure.checkAccess cfg1 a1 c1 get)
         = Azure.ErrorCode (Azure.checkAccess cfg2 a2 c2 get))
  /\ (forall cfg1 cfg2 a c get,
         Azure.BaseDomain cfg1 = Azure.BaseDomain cfg2 ->
         Azure.checkAccess cfg1 a c get = Azure.checkAccess cfg2 a c get)
  /\ (forall fl1 fl2 a1 a2 c1 c2 r rest1 rest2 o1 o2,
         Blobber.checkContainer fl1 a1 c1 (r :: rest1) = Some o1 ->
         Blobber.checkContainer fl2 a2 c2 (r :: rest2) = Some o2 ->
         Blobber.found o1 = Blobber.found o2).
Proof.
  split; [|split].
  - intros cfg1 cfg2 a1 a2 c1 c2 get. unfold Azure.checkAccess.
    destruct get as [|status [|body]]; cbn; [done| |].
    + by destruct (Z.eqb status StatusOK).
    + destruct (Z.eqb status StatusOK); [done|].
      destruct (Azure.unmarshal_ErrorResponse body) as [e|]; [|done].
      by destruct (String.eqb (Azure.Code e) "").
  - intros cfg1 cfg2 a c get Hbd.
    unfold Azure.checkAccess, Azure.access_url. by rewrite Hbd.
  - intros fl1 fl2 a1 a2 c1 c2 r rest1 rest2 o1 o2.
    unfold Blobber.checkContainer.
    destruct r as [|status [|body]]; try (by intros [= <-] [= <-]).
    assert (Hgate : forall fl a c fl' a' c',
               Blobber.error_gate fl a c body = None <->
               Blobber.error_gate fl' a' c' body = None).
    { intros. unfold Blobber.error_gate.
      destruct (Blobber.unmarshal_BlobError body) as [e|]; [|done].
      repeat (match goal with
              | |- context [if ?b then _ else _] => destruct b
              end; try done). }
    destruct (Blobber.error_gate fl1 a1 c1 body) eqn:Hg1;
      destruct (Blobber.error_gate fl2 a2 c2 body) eqn:Hg2.
    + by intros [= <-] [= <-].
    + apply (Hgate fl2 a2 c2 fl1 a1 c1) in Hg2. congruence.
    + apply (Hgate fl1 a1 c1 fl2 a2 c2) in Hg1. congruence.
    + destruct (Blobber.unmarshal_EnumerationResults body) as [results|];
        [|by intros [= <-] [= <-]].
      destruct (length (Blobber.Blobs_Blob results) =? 0)%nat;
        [by intros [= <-] [= <-]|].
      destruct (Blobber.report fl1 a1 c1 results rest1) as [[[? ?] ?]|];
        [|discriminate].
      destruct (Blobber.report fl2 a2 c2 results rest2) as [[[? ?] ?]|];
        [|discriminate].
      by intros [= <-] [= <-].
Qed.

(* --------------------------------------------------------------------- *)
(* The page walks                                                         *)
(* --------------------------------------------------------------------- *)
Section Walks.
Import Blobber Chain.
Variable fl : Flags.
Variable lurl : string.

Lemma records_cons p ps : records (p :: ps) = Blobs_Blob p ++ records ps.
Proof. reflexivity. Qed.

Lemma records_app ps qs : records (ps ++ qs) = records ps ++ records qs.
Proof. unfold records. by rewrite map_app, concat_app. Qed.

Lemma last_marker_cons m p ps : last_marker m (p :: ps) = last_marker (NextMarker p) ps.
Proof.
  unfold last_marker. cbn [map].
  generalize (map NextMarker ps) (NextMarker p) m. clear.
  induction l as [|y l IH]; intros x d; [done|].
  change (List.last (x :: y :: l) d) with (List.last (y :: l) d).
  by rewrite (IH y d), (IH y x).
Qed.

Lemma eqb_marker_false m : m <> "" -> String.eqb m "" = false.
Proof. intros H. by apply String.eqb_neq. Qed.

(* What the counting loop consumed does not depend on what follows. *)
Lemma count_walk_app cs : forall m n reqs msgs t ls,
  count_walk fl lurl cs m n = Some ([], reqs, msgs, t) ->
  count_walk fl lurl (cs ++ ls) m n = Some (ls, reqs, msgs, t).
Proof.
  induction cs as [|r cs IH]; intros m n reqs msgs t ls.
  - cbn. destruct (String.eqb m "") eqn:Hm; [|discriminate].
    intros [= <- <- <-]. destruct ls; cbn; by rewrite Hm.
  - cbn [count_walk app]. destruct (String.eqb m ""); [discriminate|].
    destruct r as [|status [|body]]; try (by intros [= -> <- <- <-]).
    destruct (unmarshal_EnumerationResults body) as [p|];
      [|by intros [= -> <- <- <-]].
    destruct (count_walk fl lurl cs (NextMarker p) (n + length (Blobs_Blob p)))
      as [[[[rest' reqs'] msgs'] t']|] eqn:Hrec; [|discriminate].
    intros [= -> <- <- <-]. by rewrite (IH _ _ _ _ _ ls Hrec).
Qed.

(* On a chain that ends with the empty token the counting loop asks with
   each token in turn and counts every record. *)
Lemma count_walk_chain m ls ps :
  linked m ls ps -> forall n,
  last_marker m ps = "" ->
  exists msgs,
    count_walk fl lurl ls m n
    = Some ([], map (nextURL lurl) (firstn (length ps) (markers m ps)), msgs,
            n + length (records ps)).
Proof.
  induction 1 as [m|m status body p rest ps Hm Hdec Hl IH]; intros n Hlast.
  - unfold last_marker in Hlast. cbn in Hlast. subst m. cbn.
    exists []. by rewrite Nat.add_0_r.
  - rewrite last_marker_cons in Hlast.
    destruct (IH (n + length (Blobs_Blob p)) Hlast) as [msgs Hrec].
    cbn [count_walk]. rewrite (eqb_marker_false _ Hm), Hdec, Hrec.
    eexists. rewrite records_cons, length_app, Nat.add_assoc. reflexivity.
Qed.

(* On such a chain the fetching loop asks with each token in turn, for k
   pages: all of them, or as many as it takes to collect `limit` records,
   and no page is asked for once that many are collected. *)
Lemma list_walk_chain m ls ps :
  linked m ls ps -> forall acc,
  last_marker m ps = "" ->
  exists k msgs,
    k <= length ps
    /\ list_walk fl lurl ls m acc
       = Some (skipn k ls, map (nextURL lurl) (firstn k (markers m ps)), msgs,
               acc ++ records (firstn k ps))
    /\ (k = length ps
        \/ (limit fl <= Z.of_nat (length (acc ++ records (firstn k ps))))%Z)
    /\ (forall j, j < k ->
          (Z.of_nat (length (acc ++ records (firstn j ps))) < limit fl)%Z).
Proof.
  induction 1 as [m|m status body p rest ps Hm Hdec Hl IH]; intros acc Hlast.
  - unfold last_marker in Hlast. cbn in Hlast. subst m.
    exists 0, []. cbn. rewrite app_nil_r. repeat split; [lia|by left|lia].
  - rewrite last_marker_cons in Hlast. cbn [list_walk].
    rewrite (eqb_marker_false _ Hm). cbn [negb andb].
    destruct (Z.of_nat (length acc) <? limit fl)%Z eqn:Hlt.
    + destruct (IH (acc ++ Blobs_Blob p) Hlast) as (k & msgs & Hk & Hw & Hstop & Hbelow).
      exists (S k). eexists. rewrite Hdec, Hw.
      cbn [firstn skipn markers map length]. rewrite records_cons, (app_assoc acc).
      split; [lia|]. split; [reflexivity|]. split.
      * destruct Hstop as [->|Hstop]; [by left|by right].
      * intros [|j] Hj.
        -- cbn. rewrite app_nil_r. by apply Z.ltb_lt.
        -- cbn [firstn]. rewrite records_cons, (app_assoc acc). apply Hbelow. lia.
    + exists 0, []. cbn. rewrite app_nil_r.
      repeat split; [lia| |lia]. right. by apply Z.ltb_ge.
Qed.

(* A failing exchange after a linked run of pages, met before `limit`
   records are collected, ends the fetching loop with the records of the
   pages before it. *)
Lemma list_walk_failure m good ps :
  linked m good ps -> forall acc bad rest,
  last_marker m ps <> "" ->
  failed bad ->
  (Z.of_nat (length (acc ++ records ps)) < limit fl)%Z ->
  exists msgs,
    list_walk fl lurl (good ++ bad :: rest) m acc
    = Some (rest, map (nextURL lurl) (markers m ps), msgs, acc ++ records ps).
Proof.
  induction 1 as [m|m status body p rest0 ps Hm Hdec Hl IH];
    intros acc bad rest Hlast Hbad Hlim.
  - unfold last_marker in Hlast. cbn in Hlast, Hlim. rewrite app_nil_r in Hlim.
    cbn [app list_walk]. rewrite (eqb_marker_false _ Hlast). cbn [negb andb].
    apply Z.ltb_lt in Hlim. rewrite Hlim. cbn. rewrite app_nil_r.
    destruct bad as [|status [|body]]; try (by eexists).
    cbn in Hbad. rewrite Hbad. by eexists.
  - rewrite last_marker_cons in Hlast.
    rewrite records_cons, app_assoc in Hlim.
    destruct (IH (acc ++ Blobs_Blob p) bad rest Hlast Hbad Hlim) as [msgs Hw].
    cbn [app list_walk]. rewrite (eqb_marker_false _ Hm). cbn [negb andb].
    assert (Hlt : (Z.of_nat (length acc) <? limit fl)%Z = true).
    { apply Z.ltb_lt. rewrite !length_app in Hlim. lia. }
    rewrite Hlt, Hdec, Hw. eexists.
    rewrite records_cons, (app_assoc acc). reflexivity.
Qed.

(* The cut to `limit` of what the loop collected is the cut of the whole
   chain, when the loop stopped for one of its two reasons. *)
Lemma truncate_firstn (l : list Blob) :
  (0 < limit fl)%Z -> truncate fl l = firstn (Z.to_nat (limit fl)) l.
Proof.
  intros Hpos. unfold truncate.
  assert ((0 <? limit fl)%Z = true) as -> by by apply Z.ltb_lt.
  cbn [andb]. destruct (limit fl <? Z.of_nat (length l))%Z eqn:Hlt; [done|].
  apply Z.ltb_ge in Hlt. rewrite firstn_all2; [done|lia].
Qed.

End Walks.

(* --------------------------------------------------------------------- *)
(* checkContainer on a page chain                                         *)
(* --------------------------------------------------------------------- *)
Section Enumeration.
Import Blobber Chain.
Variable fl : Flags.
Variables account container : string.

Local Abbreviation lurl := (listURL fl account container).

Lemma listing_passes_gate body p :
  unmarshal_EnumerationResults body = Some p ->
  error_gate fl account container body = None.
Proof.
  intros Hp. unfold error_gate.
  destruct (unmarshal_BlobError body) as [e|] eqn:He; [|done].
  rewrite (error_document_is_no_listing _ _ He) in Hp. discriminate.
Qed.

Lemma records_firstn_length k (ps : list EnumerationResults) :
  length (records (firstn k ps)) <= length (records ps).
Proof.
  rewrite <- (firstn_skipn k ps) at 2. rewrite records_app, length_app. lia.
Qed.

(* The rest of checkContainer after a non-empty first page: the counting
   loop takes its part of the script, the fetching loop goes on from
   there. *)
Lemma report_after_count p1 cs creqs ls :
  count_part fl lurl p1 cs creqs ->
  exists cmsgs,
    report fl account container p1 (cs ++ ls)
    = match (if ((5000 <? limit fl)%Z && negb (String.eqb (NextMarker p1) ""))%bool
             then list_walk fl lurl ls (NextMarker p1) (Blobs_Blob p1)
             else Some (ls, [], [], Blobs_Blob p1)) with
      | Some (_, reqs2, msgs2, allBlobs) =>
          Some (creqs ++ reqs2, cmsgs ++ msgs2, dispatch fl (truncate fl allBlobs))
      | None => None
      end.
Proof.
  unfold count_part, report.
  destruct (totalCount fl && negb (String.eqb (NextMarker p1) ""))%bool.
  - intros (msgs & t & Hc). rewrite (count_walk_app _ _ _ _ _ _ _ _ ls Hc).
    by eexists.
  - intros [-> ->]. cbn [app].
    destruct (5000 <=? length (Blobs_Blob p1))%nat; by eexists.
Qed.

Lemma checkContainer_first_page status b1 p1 rest :
  unmarshal_EnumerationResults b1 = Some p1 ->
  Blobs_Blob p1 <> [] ->
  checkContainer fl account container (GetOk status (ReadOk b1) :: rest)
  = match report fl account container p1 rest with
    | Some (reqs, msgs, act) =>
        Some {| requests := lurl :: reqs;
                console := dbg fl (DbgChecking lurl) ++ msgs;
                found := true; action := act |}
    | None => None
    end.
Proof.
  intros Hp Hne. unfold checkContainer.
  rewrite (listing_passes_gate _ _ Hp), Hp.
  destruct (Blobs_Blob p1) eqn:Hb; [done|]. cbn [length Nat.eqb].
  reflexivity.
Qed.

(** C3 (as amended): for a container whose first page is not empty and
    whose page chain is walked without a failing exchange, in list mode,
    with limit L and B records in the whole chain: when L > 5000 exactly
    min(L, B) URLs are listed; when 0 < L <= 5000 no further page is
    fetched and min(L, size of the first page) URLs are listed; when
    L <= 0 the whole first page is listed. A page is requested only while
    fewer than L records are collected. *)
Theorem list_output_length status b1 p1 cs creqs ls ps :
  list_mode fl ->
  unmarshal_EnumerationResults b1 = Some p1 ->
  Blobs_Blob p1 <> [] ->
  count_part fl lurl p1 cs creqs ->
  linked (NextMarker p1) ls ps ->
  last_marker (NextMarker p1) ps = "" ->
  exists o bs k,
    checkContainer fl account container (GetOk status (ReadOk b1) :: cs ++ ls)
    = Some o
    /\ found o = true
    /\ action o = DoList bs
    /\ requests o
       = lurl :: creqs
         ++ map (nextURL lurl) (firstn k (markers (NextMarker p1) ps))
    /\ (forall j, j < k ->
          (Z.of_nat (length (records (firstn (S j) (p1 :: ps)))) < limit fl)%Z)
    /\ ((5000 < limit fl)%Z ->
        Z.of_nat (length (listBlobURLs fl account container bs))
        = Z.min (limit fl) (Z.of_nat (length (records (p1 :: ps)))))
    /\ ((0 < limit fl <= 5000)%Z ->
        k = 0
        /\ Z.of_nat (length (listBlobURLs fl account container bs))
           = Z.min (limit fl) (Z.of_nat (length (Blobs_Blob p1))))
    /\ ((limit fl <= 0)%Z -> k = 0 /\ bs = Blobs_Blob p1).
Proof.
  intros (Hdl & Hout & Hlist) Hp Hne Hcount Hlinked Hlast.
  assert (Hdisp : forall l, dispatch fl l = DoList l).
  { intros l. unfold dispatch. by rewrite Hdl, Hout, Hlist. }
  rewrite (checkContainer_first_page _ _ _ _ Hp Hne).
  destruct (report_after_count p1 cs creqs ls Hcount) as [cmsgs ->].
  unfold listBlobURLs. setoid_rewrite length_map.
  destruct (5000 <? limit fl)%Z eqn:Hbig; cbn [andb].
  - apply Z.ltb_lt in Hbig.
    destruct (String.eqb (NextMarker p1) "") eqn:Hm; cbn [negb].
    + (* a single page *)
      apply String.eqb_eq in Hm.
      inversion Hlinked as [m|]; [subst|congruence].
      eexists _, _, 0. cbn [firstn map]. rewrite Hdisp.
      split_and!; try done; try lia.
      intros _. rewrite truncate_firstn by lia. unfold records. cbn.
      rewrite app_nil_r, length_firstn. lia.
    + destruct (list_walk_chain fl lurl _ _ _ Hlinked (Blobs_Blob p1) Hlast)
        as (k & msgs & Hk & -> & Hstop & Hbelow).
      eexists _, _, k. rewrite Hdisp. split_and!; try done; try lia.
      intros _. rewrite truncate_firstn by lia.
      rewrite length_firstn, records_cons.
      pose proof (records_firstn_length k ps) as Hle.
      rewrite !length_app in *.
      destruct Hstop as [->|Hstop]; [rewrite firstn_all; lia|lia].
  - apply Z.ltb_ge in Hbig.
    eexists _, _, 0. cbn [firstn map]. rewrite Hdisp.
    split_and!; try done; try lia.
    + intros [Hpos _]. split; [done|]. rewrite truncate_firstn by lia.
      rewrite length_firstn. lia.
    + intros Hle. split; [done|]. unfold truncate.
      assert ((0 <? limit fl)%Z = false) as -> by (apply Z.ltb_ge; lia). done.
Qed.

(** C4 (as amended): when the fetching loop meets a page whose request,
    read or decoding fails, it makes no further request, and the records
    of the pages before it are handed to the configured action as an
    ordinary result: the container counts as found and nothing in the
    outcome marks the list as truncated. *)
Theorem failed_page_gives_partial_result status b1 p1 cs creqs good ps bad rest :
  unmarshal_EnumerationResults b1 = Some p1 ->
  Blobs_Blob p1 <> [] ->
  count_part fl lurl p1 cs creqs ->
  (5000 < limit fl)%Z ->
  linked (NextMarker p1) good ps ->
  last_marker (NextMarker p1) ps <> "" ->
  failed bad ->
  (Z.of_nat (length (records (p1 :: ps))) < limit fl)%Z ->
  exists o,
    checkContainer fl account container
      (GetOk status (ReadOk b1) :: cs ++ good ++ bad :: rest) = Some o
    /\ found o = true
    /\ action o = dispatch fl (records (p1 :: ps))
    /\ requests o
       = lurl :: creqs ++ map (nextURL lurl) (markers (NextMarker p1) ps).
Proof.
  intros Hp Hne Hcount Hbig Hlinked Hlast Hbad Hlim.
  rewrite (checkContainer_first_page _ _ _ _ Hp Hne).
  destruct (report_after_count p1 cs creqs (good ++ bad :: rest) Hcount)
    as [cmsgs ->].
  assert ((5000 <? limit fl)%Z = true) as -> by by apply Z.ltb_lt.
  assert (String.eqb (NextMarker p1) "" = false) as ->.
  { apply eqb_marker_false. intros Hm.
    inversion Hlinked as [m|]; [subst|congruence].
    unfold last_marker in Hlast. by cbn in Hlast. }
  cbn [andb negb]. rewrite records_cons in Hlim.
  destruct (list_walk_failure fl lurl _ _ _ Hlinked (Blobs_Blob p1) bad rest
              Hlast Hbad Hlim) as [msgs ->].
  eexists. repeat split. cbn [action]. f_equal.
  unfold truncate. rewrite records_cons.
  assert ((limit fl <? Z.of_nat (length (Blobs_Blob p1 ++ records ps)))%Z = false)
    as -> by (apply Z.ltb_ge; lia).
  by rewrite andb_false_r.
Qed.

End Enumeration.

(** C5 (as amended): on a page chain walked without a failing exchange,
    each walk asks for the next page with exactly the token the page
    before returned. The counting walk ends at the page with the empty
    token and counts every record. The fetching walk ends at that page or
    as soon as `limit` records are collected, whichever comes first, and
    what it hands on is, after the cut to `limit`, a prefix of the
    in-order concatenation of the pages' records. *)
Theorem walk_follows_tokens (fl : Blobber.Flags) (lurl m : string)
    (ls : list GetResult) (ps : list Blobber.EnumerationResults) :
  Chain.linked m ls ps ->
  Chain.last_marker m ps = "" ->
  (forall n, exists msgs,
      Blobber.count_walk fl lurl ls m n
      = Some ([], map (Blobber.nextURL lurl)
                    (firstn (length ps) (Chain.markers m ps)),
              msgs, n + length (Chain.records ps)))
  /\ (forall acc, exists k msgs,
         k <= length ps
         /\ Blobber.list_walk fl lurl ls m acc
            = Some (skipn k ls,
                    map (Blobber.nextURL lurl) (firstn k (Chain.markers m ps)),
                    msgs, acc ++ Chain.records (firstn k ps))
         /\ (k = length ps
             \/ (Blobber.limit fl
                 <= Z.of_nat (length (acc ++ Chain.records (firstn k ps))))%Z)
         /\ (forall j, j < k ->
               (Z.of_nat (length (acc ++ Chain.records (firstn j ps)))
                < Blobber.limit fl)%Z)
         /\ exists n,
             Blobber.truncate fl (acc ++ Chain.records (firstn k ps))
             = firstn n (acc ++ Chain.records ps)).
Proof.
  intros Hlinked Hlast. split.
  - intros n. by apply count_walk_chain.
  - intros acc.
    destruct (list_walk_chain fl lurl _ _ _ Hlinked acc Hlast)
      as (k & msgs & Hk & Hw & Hstop & Hbelow).
    exists k, msgs. repeat split; try done.
    set (got := acc ++ Chain.records (firstn k ps)).
    assert (Hpre : got = firstn (length got) (acc ++ Chain.records ps)).
    { subst got. rewrite <- (firstn_skipn k ps) at 3.
      rewrite records_app, app_assoc, firstn_app, Nat.sub_diag.
      cbn [firstn]. by rewrite firstn_all, app_nil_r. }
    unfold Blobber.truncate.
    destruct ((0 <? Blobber.limit fl)%Z
              && (Blobber.limit fl <? Z.of_nat (length got))%Z)%bool eqn:Hcut.
    + exists (Z.to_nat (Blobber.limit fl)).
      apply andb_true_iff in Hcut as [_ Hcut]. apply Z.ltb_lt in Hcut.
      rewrite Hpre at 1. rewrite firstn_firstn. f_equal. lia.
    + by exists (length got).
Qed.

(* --------------------------------------------------------------------- *)
(* Concrete enumerations                                                  *)
(* --------------------------------------------------------------------- *)

(** C3, counterexample: with the default limit 10 and a chain of two
    pages of three records each, three URLs are listed, not
    min(10, 6) = 6: below a limit of 5001 only the first page is used. *)
Lemma list_output_shorter_than_min :
  let fl := Sample.list_flags in
  let p1 := Sample.results ["a"; "b"; "c"] "m1" in
  let ps := [Sample.results ["d"; "e"; "f"] ""] in
  let ls := [Sample.ok (Sample.page ["d"; "e"; "f"] "")] in
  Blobber.unmarshal_EnumerationResults (Sample.page ["a"; "b"; "c"] "m1") = Some p1
  /\ Chain.linked (Blobber.NextMarker p1) ls ps
  /\ Chain.last_marker (Blobber.NextMarker p1) ps = ""
  /\ exists o bs,
      Blobber.checkContainer fl "acct1" "c1"
        (Sample.ok (Sample.page ["a"; "b"; "c"] "m1") :: ls) = Some o
      /\ Blobber.action o = Blobber.DoList bs
      /\ Blobber.requests o = [Sample.lurl]
      /\ length (Blobber.listBlobURLs fl "acct1" "c1" bs) = 3
      /\ Z.min (Blobber.limit fl) (Z.of_nat (length (Chain.records (p1 :: ps)))) = 6%Z.
Proof.
  cbv zeta. split_and!; [reflexivity| |reflexivity|].
  - eapply Chain.linked_cons; [done|reflexivity|constructor].
  - eexists _, _. split_and!; reflexivity.
Qed.

(* Limit 6000, pages of two and one records: three URLs. *)
Lemma list_output_length_witness :
  exists o bs,
    Blobber.checkContainer Sample.fetch_flags "acct1" "c1"
      [Sample.ok (Sample.page ["a"; "b"] "m1"); Sample.ok (Sample.page ["c"] "")]
    = Some o
    /\ Blobber.action o = Blobber.DoList bs
    /\ Z.of_nat (length (Blobber.listBlobURLs Sample.fetch_flags "acct1" "c1" bs))
       = 3%Z.
Proof.
  destruct (list_output_length Sample.fetch_flags "acct1" "c1" 200
              (Sample.page ["a"; "b"] "m1") (Sample.results ["a"; "b"] "m1")
              [] [] [Sample.ok (Sample.page ["c"] "")] [Sample.results ["c"] ""])
    as (o & bs & k & Ho & _ & Ha & _ & _ & Hbig & _).
  - repeat split.
  - reflexivity.
  - discriminate.
  - split; reflexivity.
  - eapply Chain.linked_cons; [discriminate|reflexivity|constructor].
  - reflexivity.
  - exists o, bs. split; [exact Ho|]. split; [exact Ha|].
    rewrite Hbig; reflexivity.
Defined.

(** C4, counterexample: a chain that ends with an empty second page and a
    chain whose second page cannot be fetched give the same outcome, down
    to the requests made and the messages printed: nothing in it tells
    the complete list from the truncated one. *)
Lemma truncated_and_complete_outcomes_coincide :
  let complete := [Sample.ok (Sample.page ["a"] "m1"); Sample.ok (Sample.page [] "")] in
  let truncated := [Sample.ok (Sample.page ["a"] "m1"); GetErr] in
  Blobber.checkContainer Sample.fetch_flags "acct1" "c1" complete
  = Blobber.checkContainer Sample.fetch_flags "acct1" "c1" truncated
  /\ Blobber.checkContainer Sample.fetch_flags "acct1" "c1" truncated
     = Some {| Blobber.requests :=
                 [Sample.lurl; Blobber.nextURL Sample.lurl "m1"];
               Blobber.console := [Blobber.Found "acct1" "c1" 1];
               Blobber.found := true;
               Blobber.action := Blobber.DoList [Sample.blob "a"] |}.
Proof. split; reflexivity. Qed.

(* Limit 6000: the third page cannot be read, the fourth is never asked
   for, the blobs of the first two are listed. *)
Lemma failed_page_gives_partial_result_witness :
  exists o,
    Blobber.checkContainer Sample.fetch_flags "acct1" "c1"
      [Sample.ok (Sample.page ["a"] "m1"); Sample.ok (Sample.page ["b"] "m2");
       GetOk 200 ReadErr; Sample.ok (Sample.page ["c"] "")] = Some o
    /\ Blobber.found o = true
    /\ Blobber.action o = Blobber.DoList [Sample.blob "a"; Sample.blob "b"]
    /\ Blobber.requests o
       = [Sample.lurl; Blobber.nextURL Sample.lurl "m1";
          Blobber.nextURL Sample.lurl "m2"].
Proof.
  apply (failed_page_gives_partial_result Sample.fetch_flags "acct1" "c1" 200
           (Sample.page ["a"] "m1") (Sample.results ["a"] "m1") [] []
           [Sample.ok (Sample.page ["b"] "m2")] [Sample.results ["b"] "m2"]
           (GetOk 200 ReadErr) [Sample.ok (Sample.page ["c"] "")]).
  - reflexivity.
  - discriminate.
  - split; reflexivity.
  - reflexivity.
  - eapply Chain.linked_cons; [discriminate|reflexivity|constructor].
  - discriminate.
  - exact I.
  - reflexivity.
Defined.

(** C5, counterexample: with limit 5001 and pages of 3, 5000 and 1
    records, the fetching walk ends after the second page although that
    page returned the token m2, and 5001 of the 5004 records are handed
    on. *)
Lemma fetching_walk_ends_before_the_empty_token :
  let p1 := Sample.results ["a"; "b"; "c"] "m1" in
  let ps := [Sample.results (repeat "x" (Z.to_nat 5000)) "m2";
             Sample.results ["z"] ""] in
  Chain.linked (Blobber.NextMarker p1) (tail Sample.big_chain) ps
  /\ Chain.last_marker (Blobber.NextMarker p1) ps = ""
  /\ (fun o => (Blobber.requests o,
                Z.of_nat (length (Blobber.blobs_of (Blobber.action o)))))
      <$> Blobber.checkContainer Sample.fetch_flags_5001 "acct1" "c1"
            Sample.big_chain
      = Some ([Sample.lurl; Blobber.nextURL Sample.lurl "m1"], 5001%Z)
  /\ Z.of_nat (length (Chain.records (p1 :: ps))) = 5004%Z.
Proof.
  cbv zeta. split_and!.
  - eapply Chain.linked_cons; [discriminate|vm_compute; reflexivity|].
    eapply Chain.linked_cons; [discriminate|vm_compute; reflexivity|].
    constructor.
  - reflexivity.
  - vm_compute. reflexivity.
  - vm_compute. reflexivity.
Qed.

(* The counting walk over two further pages. *)
Lemma walk_follows_tokens_witness :
  exists msgs,
    Blobber.count_walk Sample.fetch_flags Sample.lurl
      [Sample.ok (Sample.page ["b"] "m2"); Sample.ok (Sample.page ["c"] "")] "m1" 1
    = Some ([], [Blobber.nextURL Sample.lurl "m1"; Blobber.nextURL Sample.lurl "m2"],
            msgs, 3).
Proof.
  apply (proj1 (walk_follows_tokens Sample.fetch_flags Sample.lurl "m1"
                  [Sample.ok (Sample.page ["b"] "m2"); Sample.ok (Sample.page ["c"] "")]
                  [Sample.results ["b"] "m2"; Sample.results ["c"] ""]
                  ltac:(eapply Chain.linked_cons; [discriminate|reflexivity|];
                        eapply Chain.linked_cons; [discriminate|reflexivity|];
                        constructor)
                  eq_refl) 1).
Defined.

(* --------------------------------------------------------------------- *)
(* The scan: resolver pre-filter and the probe semaphore                  *)
(* --------------------------------------------------------------------- *)
Section Scan.
Import Blobber.

Lemma paired_container_loop a cs rest :
  paired rest -> paired (container_loop a cs ++ rest).
Proof. induction cs as [|c cs IH]; intros Hr; [done|]. cbn. by apply IH. Qed.

Lemma paired_account_loop de fl accs cs : paired (account_loop de fl accs cs).
Proof.
  induction accs as [|a accs IH]; [done|]. cbn.
  destruct (de (domain_of fl a)); [by apply paired_container_loop|done].
Qed.

Lemma paired_ops_of de fl accs cs : paired (ops_of (Run de fl accs cs)).
Proof.
  unfold Run.
  destruct (negb (String.eqb (outputPath fl) "") && listBlobs fl)%bool; [done|].
  destruct accs; [done|]. destruct cs; [done|]. apply paired_account_loop.
Qed.

Lemma slots_held_app ws1 ws2 :
  slots_held (ws1 ++ ws2) = slots_held ws1 + slots_held ws2.
Proof. unfold slots_held. by rewrite List.filter_app, length_app. Qed.

Lemma slots_held_cons w ws :
  slots_held (w :: ws) = (if holds_slot w then 1 else 0) + slots_held ws.
Proof. unfold slots_held. cbn. by destruct (holds_slot w). Qed.

Lemma in_flight_le_slots ws :
  length (List.filter is_probing ws) <= slots_held ws.
Proof.
  induction ws as [|[a c ph] ws IH]; [done|]. rewrite slots_held_cons.
  destruct ph; cbn; lia.
Qed.

Lemma sem_invariant_start N ops : paired ops -> sem_invariant N (start N ops).
Proof.
  intros Hp. split; cbn; [lia|]. left. split; [|done].
  by destruct (N <? 0)%Z.
Qed.

Lemma sem_invariant_step N s s' :
  step N s s' -> sem_invariant N s -> sem_invariant N s'.
Proof.
  intros Hstep [Hcap Hinv].
  destruct Hstep as [d ops s ws ls cc g|a n ops s ws ls cc g|ops s ws ls cc g
                    |a c ops s ws ls cc g Hfree|a c ops s ws ls cc g
                    |w ops s ws1 ws2 ls cc g Hph|w ops s ws1 ws2 ls cc g Hph
                    |w ops s ws1 ws2 ls cc g Hph];
    unfold sem_invariant; cbn [pending sem workers] in *.
  - split; [done|]. destruct Hinv as [[Hp Hs]|(a & c & ops' & [=] & _)]. by left.
  - split; [done|]. destruct Hinv as [[Hp Hs]|(a' & c & ops' & [=] & _)]. by left.
  - split; [done|]. destruct Hinv as [[Hp Hs]|(a & c & ops' & [=] & _)]. by left.
  - split; [lia|]. destruct Hinv as [[Hp Hs]|(a' & c' & ops' & [=] & _)].
    right. destruct ops as [|[| | | |a' c'] ops']; try done.
    exists a', c', ops'. by rewrite Hs.
  - split; [done|]. destruct Hinv as [[[] _]|(a' & c' & ops' & [= <- <- <-] & Hp & Hs)].
    left. split; [done|]. rewrite slots_held_app, slots_held_cons. cbn. lia.
  - split; [done|].
    assert (Heq : slots_held (ws1 ++ set_phase w Releasing :: ws2)
                  = slots_held (ws1 ++ w :: ws2)).
    { rewrite !slots_held_app, !slots_held_cons. unfold holds_slot.
      cbn. by rewrite Hph. }
    rewrite Heq. done.
  - assert (Heq : S (slots_held (ws1 ++ set_phase w Counting :: ws2))
                  = slots_held (ws1 ++ w :: ws2)).
    { rewrite !slots_held_app, !slots_held_cons. unfold holds_slot.
      cbn. rewrite Hph. lia. }
    split; [lia|]. destruct Hinv as [[Hp Hs]|(a & c & ops' & -> & Hp & Hs)].
    + left. split; [done|]. lia.
    + right. exists a, c, ops'. split_and!; [done|done|lia].
  - split; [done|].
    assert (Heq : slots_held (ws1 ++ set_phase w Finished :: ws2)
                  = slots_held (ws1 ++ w :: ws2)).
    { rewrite !slots_held_app, !slots_held_cons. unfold holds_slot.
      cbn. by rewrite Hph. }
    rewrite Heq. done.
Qed.

Lemma sem_invariant_reachable N ops s :
  paired ops -> reachable N ops s -> sem_invariant N s.
Proof.
  intros Hp. unfold reachable. revert s. apply rtc_ind_r.
  - by apply sem_invariant_start.
  - intros s1 s2 _ Hstep IH. by eapply sem_invariant_step.
Qed.

(** C8: in every state a scan can reach, the probes in flight are at most
    the elements held by the one channel sem, which are at most
    maxGoroutines (none when maxGoroutines is negative), whatever the
    accounts and containers: the slot is taken before the worker is
    started and given back after checkContainer has returned. *)
Theorem in_flight_bounded de fl accountList containerList s :
  reachable (maxGoroutines fl) (ops_of (Run de fl accountList containerList)) s ->
  in_flight s <= sem s
  /\ (Z.of_nat (sem s) <= Z.max 0 (maxGoroutines fl))%Z
  /\ (Z.of_nat (in_flight s) <= Z.max 0 (maxGoroutines fl))%Z.
Proof.
  intros Hr.
  destruct (sem_invariant_reachable _ _ _ (paired_ops_of de fl accountList containerList) Hr)
    as [Hcap Hinv].
  pose proof (in_flight_le_slots (workers s)) as Hle. unfold in_flight.
  destruct Hinv as [[_ Hs]|(a & c & ops & _ & _ & Hs)]; split_and!; lia.
Qed.

End Scan.

Section Prefilter.
Import Blobber.
Variable de : string -> bool.
Variable fl : Flags.

Lemma container_loop_go a a' c cs :
  In (OpGo a c) (container_loop a' cs) -> a = a'.
Proof.
  induction cs as [|c0 cs IH]; cbn; [done|].
  intros [?|[?|[[= -> _]|H]]]; try done. by apply IH.
Qed.

Lemma container_loop_acquire a a' c cs :
  In (OpAcquire a c) (container_loop a' cs) -> a = a'.
Proof.
  induction cs as [|c0 cs IH]; cbn; [done|].
  intros [?|[[= -> _]|[?|H]]]; try done. by apply IH.
Qed.

(* Only the containers of an account that resolved get a slot and a
   worker. *)
Lemma account_loop_dispatches_resolved accs cs a c :
  In (OpAcquire a c) (account_loop de fl accs cs)
  \/ In (OpGo a c) (account_loop de fl accs cs) ->
  de (domain_of fl a) = true.
Proof.
  induction accs as [|a0 accs IH]; cbn; [by intros [[]|[]]|].
  destruct (de (domain_of fl a0)) eqn:Hde.
  - intros [[?|H]|[?|H]]; try done; apply in_app_iff in H as [H|H].
    + apply container_loop_acquire in H. by subst.
    + apply IH. by left.
    + apply container_loop_go in H. by subst.
    + apply IH. by right.
  - intros [[?|[?|H]]|[?|[?|H]]]; try done; apply IH; auto.
Qed.

Lemma lookups_of_app ops1 ops2 :
  lookups_of (ops1 ++ ops2) = lookups_of ops1 ++ lookups_of ops2.
Proof.
  induction ops1 as [|op ops1 IH]; [done|].
  destruct op; cbn; by rewrite IH.
Qed.

Lemma lookups_of_container_loop a cs : lookups_of (container_loop a cs) = [].
Proof. induction cs as [|c cs IH]; [done|]. by cbn. Qed.

(* One resolution per entry of the account list, in its order. *)
Lemma lookups_of_account_loop accs cs :
  lookups_of (account_loop de fl accs cs) = map (domain_of fl) accs.
Proof.
  induction accs as [|a accs IH]; [done|]. cbn. rewrite lookups_of_app, IH.
  destruct (de (domain_of fl a)); [by rewrite lookups_of_container_loop|done].
Qed.

(* A worker is started only after the domain of its account was looked
   up. *)
Lemma lookup_precedes_go accs cs : forall pre a c post,
  account_loop de fl accs cs = pre ++ OpGo a c :: post ->
  In (OpLookup (domain_of fl a)) pre.
Proof.
  induction accs as [|a0 accs IH]; intros pre a c post; cbn.
  - by destruct pre.
  - destruct pre as [|x pre]; [done|]. cbn. intros [= <- Heq].
    apply app_eq_app in Heq as [l [[Hblock Hrest]|[Hpre Hrest]]].
    + destruct l as [|y l].
      * cbn in Hrest. symmetry in Hrest.
        by destruct (IH [] a c post Hrest).
      * cbn in Hrest. injection Hrest as <- _. left.
        assert (Hin : In (OpGo a c)
                        (if de (domain_of fl a0) then container_loop a0 cs
                         else [OpSkip a0 (length cs)])).
        { rewrite Hblock. apply in_app_iff. right. by left. }
        destruct (de (domain_of fl a0)).
        -- apply container_loop_go in Hin. by subst.
        -- by destruct Hin.
    + right. rewrite Hpre. apply in_app_iff. right. by eapply IH.
Qed.

(* No worker is ever started for an account that has no `go` pending. *)
Lemma workers_of_pending_accounts a N ops s :
  (forall c, ~ In (OpGo a c) ops) ->
  reachable N ops s ->
  Forall (fun w => w_account w <> a) (workers s).
Proof.
  intros Hops.
  cut (reachable N ops s ->
       Forall (fun w => w_account w <> a) (workers s)
       /\ forall c, ~ In (OpGo a c) (pending s)).
  { intros H Hr. by apply H. }
  unfold reachable. revert s. apply rtc_ind_r.
  - cbn. split; [by constructor|]. destruct (N <? 0)%Z; [by intros c []|done].
  - intros s1 s2 _ Hstep [Hws Hpend].
    destruct Hstep; cbn [pending workers] in *;
      try (split; [done|]; intros c' Hin; apply (Hpend c'); by right).
    + split.
      * apply Forall_app. split; [done|]. constructor; [|done]. cbn.
        intros ->. apply (Hpend c). by left.
      * intros c' Hin. apply (Hpend c'). by right.
    + split; [|done]. apply Forall_app in Hws as [H1 H2].
      inversion H2; subst. apply Forall_app. split; [done|]. by constructor.
    + split; [|done]. apply Forall_app in Hws as [H1 H2].
      inversion H2; subst. apply Forall_app. split; [done|]. by constructor.
    + split; [|done]. apply Forall_app in Hws as [H1 H2].
      inversion H2; subst. apply Forall_app. split; [done|]. by constructor.
Qed.

(** C6: when the domain of an account does not resolve, the loop sends
    nothing on sem and starts no worker for any container of that
    account, so no state of the scan has a worker (hence a probe) for it.
    The loop resolves one domain per entry of the account list, in order,
    and a worker is started only after the domain of its account was
    resolved. *)
Theorem unresolved_account_is_skipped accountList containerList a :
  de (domain_of fl a) = false ->
  let ops := account_loop de fl accountList containerList in
  (forall c, ~ In (OpAcquire a c) ops /\ ~ In (OpGo a c) ops)
  /\ (forall N s, reachable N ops s ->
                  Forall (fun w => w_account w <> a) (workers s))
  /\ lookups_of ops = map (domain_of fl) accountList
  /\ (forall pre a' c post,
        ops = pre ++ OpGo a' c :: post ->
        In (OpLookup (domain_of fl a')) pre).
Proof.
  intros Hde ops.
  assert (Hnone : forall c, ~ In (OpAcquire a c) ops /\ ~ In (OpGo a c) ops).
  { intros c. split; intros Hin.
    - assert (de (domain_of fl a) = true)
        by (eapply account_loop_dispatches_resolved; left; exact Hin).
      congruence.
    - assert (de (domain_of fl a) = true)
        by (eapply account_loop_dispatches_resolved; right; exact Hin).
      congruence. }
  split_and!.
  - exact Hnone.
  - intros N s. apply workers_of_pending_accounts. intros c. apply Hnone.
  - apply lookups_of_account_loop.
  - apply lookup_precedes_go.
Qed.

(* With nothing to do and no worker there is no step. *)
Lemma nothing_pending_nothing_happens N s :
  reachable N [] s -> s = start N [].
Proof.
  unfold reachable. revert s. apply rtc_ind_r; [done|].
  intros s1 s2 _ Hstep ->. exfalso. unfold start in Hstep.
  assert ((if (N <? 0)%Z then [] else []) = @nil MainOp) as Hnil
      by by destruct (N <? 0)%Z.
  rewrite Hnil in Hstep.
  inversion Hstep; by eapply app_cons_not_nil.
Qed.

(** C9: with an output path and the list flag both set, Run returns at
    its first check: it reaches neither the resolver loop nor any
    worker, so the scan has no operation to perform and stays in its
    initial state (no lookup, no slot taken, no worker). *)
Theorem output_with_list_is_rejected accountList containerList :
  outputPath fl <> "" ->
  listBlobs fl = true ->
  Run de fl accountList containerList = ErrOutputWithList
  /\ ops_of (Run de fl accountList containerList) = []
  /\ forall s,
      reachable (maxGoroutines fl) (ops_of (Run de fl accountList containerList)) s ->
      lookups s = [] /\ workers s = [] /\ sem s = 0 /\ in_flight s = 0.
Proof.
  intros Hout Hlist.
  assert (HRun : Run de fl accountList containerList = ErrOutputWithList).
  { unfold Run. apply String.eqb_neq in Hout. by rewrite Hout, Hlist. }
  rewrite HRun. split_and!; [done|done|].
  intros s Hs. cbn in Hs. by rewrite (nothing_pending_nothing_happens _ _ Hs).
Qed.

End Prefilter.

(* acct1 resolves, ghost does not. *)
Lemma unresolved_account_is_skipped_witness :
  Sample.resolver (Blobber.domain_of Sample.list_flags "ghost") = false
  /\ ~ In (Blobber.OpAcquire "ghost" "c1")
         (Blobber.account_loop Sample.resolver Sample.list_flags
            ["acct1"; "ghost"] ["c1"; "c2"]).
Proof.
  split; [reflexivity|].
  pose proof (unresolved_account_is_skipped Sample.resolver Sample.list_flags
                ["acct1"; "ghost"] ["c1"; "c2"] "ghost" eq_refl) as H.
  cbv zeta in H. destruct H as [H _]. apply (H "c1").
Defined.

(* One worker probing acct1/c1 under the default bound 500. *)
Lemma in_flight_bounded_witness :
  Blobber.in_flight Sample.probing_state <= Blobber.sem Sample.probing_state
  /\ (Z.of_nat (Blobber.sem Sample.probing_state) <= Z.max 0 500)%Z
  /\ (Z.of_nat (Blobber.in_flight Sample.probing_state) <= Z.max 0 500)%Z.
Proof.
  apply (in_flight_bounded Sample.resolver Sample.list_flags ["acct1"] ["c1"]).
  unfold Blobber.reachable.
  eapply rtc_l; [apply Blobber.step_lookup|].
  eapply rtc_l; [apply Blobber.step_wgadd|].
  eapply rtc_l; [apply Blobber.step_acquire; reflexivity|].
  eapply rtc_l; [apply (Blobber.step_go _ "acct1" "c1" [] 1 [])|].
  apply rtc_refl.
Defined.

(* blobber -a acct1 -c c1 --list -o out.txt *)
Lemma output_with_list_is_rejected_witness :
  Blobber.Run Sample.resolver Sample.list_and_output_flags ["acct1"] ["c1"]
  = Blobber.ErrOutputWithList.
Proof.
  apply (output_with_list_is_rejected Sample.resolver
           Sample.list_and_output_flags ["acct1"] ["c1"]).
  - discriminate.
  - reflexivity.
Defined.

(* --------------------------------------------------------------------- *)
(* Downloads                                                              *)
(* --------------------------------------------------------------------- *)
Section Download.
Variable os : Fs.Os.
Variable get : string -> Fetch.

Lemma write_after_create (fs : Fs.FS) (path bytes : string) :
  Fs.Write (Fs.Create fs path) path bytes = <[path := bytes]> fs.
Proof. unfold Fs.Write, Fs.Create. by rewrite alter_insert_eq. Qed.

Lemma create_changes (fs : Fs.FS) (path w : string) :
  fs !! path <> Some w -> <[path := w]> fs <> fs.
Proof. intros Hne Heq. apply Hne. rewrite <- Heq. apply lookup_insert_eq. Qed.

(* A job of downloadBlobs asks for the blob before it creates the file:
   when the request fails the file system is as before. *)
Lemma download_job_request_error url filename (fs : Fs.FS) :
  get url = FetchErr -> Blobber.download_job os get url filename fs = fs.
Proof.
  intros Hget. unfold Blobber.download_job. rewrite Hget.
  by destruct (Fs.mkdirall_ok os filename).
Qed.

(** C10: DownloadFile creates the destination file before it sends the
    request. Once the directory and the file could be created, a failed
    request, a status other than 200 and a broken copy all return an
    error and leave at the destination path an empty file, or the bytes
    copied before the break, in place of whatever the path held before;
    the file system differs from the one before unless the path held
    exactly those bytes. *)
Theorem failed_download_leaves_file url destPath (fs : Fs.FS) :
  Fs.mkdirall_ok os destPath = true ->
  Fs.create_ok os destPath = true ->
  (get url = FetchErr
   \/ exists status body,
       get url = FetchOk status body
       /\ (status <> StatusOK \/ breaks_after body <> None)) ->
  exists e w,
    Downloader.DownloadFile os get url destPath fs
    = (Some e, <[destPath := w]> fs)
    /\ (get url = FetchErr -> e = Downloader.ErrRequest /\ w = "")
    /\ (forall status body,
          get url = FetchOk status body -> status <> StatusOK ->
          e = Downloader.ErrStatus status /\ w = "")
    /\ (forall body n,
          get url = FetchOk StatusOK body -> breaks_after body = Some n ->
          e = Downloader.ErrWrite /\ w = String.substring 0 n (data body))
    /\ (fs !! destPath <> Some w -> <[destPath := w]> fs <> fs).
Proof.
  intros Hmk Hcr Hfail. unfold Downloader.DownloadFile.
  rewrite Hmk, Hcr. cbn [negb].
  destruct (get url) as [|status body] eqn:Hget.
  - exists Downloader.ErrRequest, "". split_and!; try done.
    apply create_changes.
  - destruct Hfail as [?|(status' & body' & [= <- <-] & Hbad)]; [done|].
    destruct (Z.eqb status StatusOK) eqn:Hst; cbn [negb].
    + apply Z.eqb_eq in Hst. subst status.
      destruct Hbad as [?|Hbreak]; [done|].
      unfold Copy. destruct (breaks_after body) as [n|] eqn:Hn; [|done].
      rewrite write_after_create.
      exists Downloader.ErrWrite, (String.substring 0 n (data body)).
      split_and!; try done.
      * intros status0 body0 [= <- <-] Hne. done.
      * intros body0 n0 [= <-] Hn0. rewrite Hn in Hn0. by injection Hn0 as <-.
      * apply create_changes.
    + apply Z.eqb_neq in Hst.
      exists (Downloader.ErrStatus status), "". split_and!; try done.
      * intros status0 body0 [= <- <-] _. done.
      * intros body0 n0 [= -> _]. done.
      * apply create_changes.
Qed.

End Download.

(* A 404 answer empties the file of an earlier download. *)
Lemma failed_download_leaves_file_witness :
  exists e,
    fst (Downloader.DownloadFile Sample.os_ok Sample.not_found
           "https://acct1.blob.core.windows.net/c1/a.txt" "out/a.txt"
           Sample.earlier_download) = Some e
    /\ snd (Downloader.DownloadFile Sample.os_ok Sample.not_found
              "https://acct1.blob.core.windows.net/c1/a.txt" "out/a.txt"
              Sample.earlier_download) !! "out/a.txt" = Some "".
Proof.
  destruct (failed_download_leaves_file Sample.os_ok Sample.not_found
              "https://acct1.blob.core.windows.net/c1/a.txt" "out/a.txt"
              Sample.earlier_download eq_refl eq_refl)
    as (e & w & Heq & _ & Hstatus & _).
  - right. eexists _, _. split; [reflexivity|]. left. discriminate.
  - destruct (Hstatus _ _ eq_refl) as [_ ->]; [discriminate|].
    exists e. rewrite Heq. split; [reflexivity|]. apply lookup_insert_eq.
Defined.

(* ===================================================================== *)
(* Further properties of the code                                         *)
(* ===================================================================== *)

(* --------------------------------------------------------------------- *)
(* The scan: progress count, wait group, blocking                         *)
(* --------------------------------------------------------------------- *)
Section Bookkeeping.
Import Blobber Progress.

Lemma running_app ws1 ws2 : running (ws1 ++ ws2) = running ws1 + running ws2.
Proof. unfold running. by rewrite List.filter_app, length_app. Qed.

Lemma running_cons w ws :
  running (w :: ws) = (if unfinished w then 1 else 0) + running ws.
Proof. unfold running. cbn. by destruct (unfinished w). Qed.

Lemma running_set_phase ws1 w ws2 p :
  unfinished w = true ->
  running (ws1 ++ set_phase w p :: ws2) + (if unfinished (set_phase w p) then 0 else 1)
  = running (ws1 ++ w :: ws2).
Proof.
  intros Hw. rewrite !running_app, !running_cons, Hw.
  destruct (unfinished (set_phase w p)); lia.
Qed.

Lemma running_none ws :
  running ws = 0 -> Forall (fun w => w_phase w = Finished) ws.
Proof.
  induction ws as [|[a c ph] ws IH]; [constructor|].
  rewrite running_cons. destruct ph; cbn; try lia.
  intros H. constructor; [done|]. by apply IH.
Qed.

Lemma owed_app ops1 ops2 : owed (ops1 ++ ops2) = owed ops1 + owed ops2.
Proof.
  induction ops1 as [|op ops1 IH]; [done|]. destruct op; cbn; rewrite IH; lia.
Qed.

Lemma owed_container_loop a cs : owed (container_loop a cs) = length cs.
Proof. induction cs as [|c cs IH]; [done|]. cbn. by rewrite IH. Qed.

(* The loop owes one check per pair, resolved or not. *)
Lemma owed_account_loop de fl accs cs :
  owed (account_loop de fl accs cs) = length accs * length cs.
Proof.
  induction accs as [|a accs IH]; [done|]. cbn. rewrite owed_app, IH.
  destruct (de (domain_of fl a)); [rewrite owed_container_loop|cbn]; lia.
Qed.

Lemma triples_app ops1 ops2 : triples ops1 -> triples ops2 -> triples (ops1 ++ ops2).
Proof.
  revert ops1. fix IH 1. intros [|op ops1]; [done|].
  destruct op; cbn; try done; try (by apply IH).
  destruct ops1 as [|[] [|[] ops1]]; try done. cbn. by apply IH.
Qed.

Lemma triples_container_loop a cs : triples (container_loop a cs).
Proof. induction cs as [|c cs IH]; [done|]. by cbn. Qed.

Lemma triples_account_loop de fl accs cs : triples (account_loop de fl accs cs).
Proof.
  induction accs as [|a accs IH]; [done|]. cbn.
  destruct (de (domain_of fl a)).
  - apply triples_app; [apply triples_container_loop|done].
  - by cbn.
Qed.

Lemma triples_announced ops : triples ops -> announced ops = 0.
Proof. by destruct ops as [|[] ?]. Qed.

(* checkedCount, what is still owed and the workers that have not counted
   yet always add up to what the loop owed at the start. *)
Lemma progress_invariant N ops s :
  reachable N ops s ->
  checkedCount s + owed (pending s) + running (workers s)
  = owed (pending (start N ops)).
Proof.
  unfold reachable. set (total := owed (pending (start N ops))).
  revert s. apply rtc_ind_r; [subst total; cbn; unfold running; cbn; lia|].
  clearbody total. intros s1 s2 _ Hstep IH.
  destruct Hstep as [d ops' s ws ls cc g|a n ops' s ws ls cc g|ops' s ws ls cc g
                    |a c ops' s ws ls cc g Hfree|a c ops' s ws ls cc g
                    |w ops' s ws1 ws2 ls cc g Hph|w ops' s ws1 ws2 ls cc g Hph
                    |w ops' s ws1 ws2 ls cc g Hph];
    cbn [pending workers checkedCount owed] in *; try lia.
  - rewrite running_app, running_cons. cbn. lia.
  - pose proof (running_set_phase ws1 w ws2 Releasing) as H.
    unfold unfinished in H. cbn in H. rewrite Hph in H. specialize (H eq_refl). lia.
  - pose proof (running_set_phase ws1 w ws2 Counting) as H.
    unfold unfinished in H. cbn in H. rewrite Hph in H. specialize (H eq_refl). lia.
  - pose proof (running_set_phase ws1 w ws2 Finished) as H.
    unfold unfinished in H. cbn in H. rewrite Hph in H. specialize (H eq_refl). lia.
Qed.

Lemma wg_invariant_reachable N ops s :
  triples ops -> reachable N ops s -> wg_invariant s.
Proof.
  intros Hops. unfold reachable. revert s. apply rtc_ind_r.
  - split; cbn.
    + left. by destruct (N <? 0)%Z.
    + unfold running. cbn. destruct (N <? 0)%Z; [done|].
      by rewrite triples_announced.
  - intros s1 s2 _ Hstep [Hrest Hwg]. unfold wg_invariant.
    destruct Hstep as [d ops' s ws ls cc g|a n ops' s ws ls cc g|ops' s ws ls cc g
                      |a c ops' s ws ls cc g Hfree|a c ops' s ws ls cc g
                      |w ops' s ws1 ws2 ls cc g Hph|w ops' s ws1 ws2 ls cc g Hph
                      |w ops' s ws1 ws2 ls cc g Hph];
      cbn [pending workers wg] in *.
    + destruct Hrest as [Ht|[(?&?&?&?&?&[=]&_)|(?&?&?&[=]&_)]].
      split; [by left|]. cbn in Hwg. by rewrite triples_announced.
    + destruct Hrest as [Ht|[(?&?&?&?&?&[=]&_)|(?&?&?&[=]&_)]].
      split; [by left|]. cbn in Hwg. by rewrite triples_announced.
    + destruct Hrest as [Ht|[(?&?&?&?&?&[=]&_)|(?&?&?&[=]&_)]].
      destruct ops' as [|[| | |a c|] [|[| | | |a' c'] rest]]; try done.
      split; [right; left; by exists a, c, a', c', rest|]. cbn in *. lia.
    + destruct Hrest as [Ht|[(a0&c0&a'&c'&rest&[= <- <- ->]&Ht)|(?&?&?&[=]&_)]];
        [done|].
      split; [right; right; by exists a', c', rest|]. by cbn in *.
    + destruct Hrest as [Ht|[(?&?&?&?&?&[=]&_)|(a0&c0&rest&[= <- <- <-]&Ht)]];
        [done|].
      split; [by left|]. rewrite running_app, running_cons. cbn in *.
      rewrite (triples_announced _ Ht). lia.
    + split; [done|].
      pose proof (running_set_phase ws1 w ws2 Releasing) as H.
      unfold unfinished in H. cbn in H. rewrite Hph in H. specialize (H eq_refl). lia.
    + split; [done|].
      pose proof (running_set_phase ws1 w ws2 Counting) as H.
      unfold unfinished in H. cbn in H. rewrite Hph in H. specialize (H eq_refl). lia.
    + split; [done|].
      pose proof (running_set_phase ws1 w ws2 Finished) as H.
      unfold unfinished in H. cbn in H. rewrite Hph in H. specialize (H eq_refl). lia.
Qed.

Lemma slots_held_finished ws :
  Forall (fun w => w_phase w = Finished) ws -> slots_held ws = 0.
Proof.
  induction 1 as [|w ws Hw _ IH]; [done|].
  rewrite slots_held_cons, IH. unfold holds_slot. by rewrite Hw.
Qed.

(** X1: once Run is past wg.Wait() every worker it started has finished,
    every slot of sem is free again, and checkedCount equals
    len(accountList) * len(containerList), the total the progress bar was
    created with. *)
Theorem wait_joins_all_workers de fl accountList containerList fl' ops s :
  Run de fl accountList containerList = Scan fl' ops ->
  (0 <= maxGoroutines fl)%Z ->
  reachable (maxGoroutines fl) ops s ->
  joined s ->
  quiescent s
  /\ sem s = 0
  /\ checkedCount s = length accountList * length containerList.
Proof.
  intros HRun HN Hr [Hpend Hwg].
  assert (Hops : ops = account_loop de fl' accountList containerList).
  { unfold Run in HRun.
    destruct (negb (String.eqb (outputPath fl) "") && listBlobs fl)%bool; [done|].
    destruct accountList; [done|]. destruct containerList; [done|]. congruence. }
  assert (Ht : triples ops) by (rewrite Hops; apply triples_account_loop).
  destruct (wg_invariant_reachable _ _ _ Ht Hr) as [_ Hw].
  pose proof (progress_invariant _ _ _ Hr) as Hp.
  assert (Hfin : Forall (fun w => w_phase w = Finished) (workers s)).
  { apply running_none. lia. }
  assert (Hpaired : paired ops) by (rewrite Hops; apply paired_account_loop).
  destruct (sem_invariant_reachable _ _ _ Hpaired Hr) as [_ Hsem].
  split_and!.
  - by split.
  - rewrite (slots_held_finished _ Hfin) in Hsem.
    destruct Hsem as [[_ <-]|(a & c & ops' & Heq & _)]; [done|congruence].
  - rewrite Hpend in Hp. cbn in Hp.
    assert ((maxGoroutines fl <? 0)%Z = false) as Hnn by (apply Z.ltb_ge; lia).
    rewrite Hnn, Hops, owed_account_loop in Hp. lia.
Qed.

End Bookkeeping.

Section Blocking.
Import Blobber Progress.

Lemma slot_holder ws :
  1 <= slots_held ws ->
  exists ws1 w ws2,
    ws = ws1 ++ w :: ws2 /\ (w_phase w = Probing \/ w_phase w = Releasing).
Proof.
  induction ws as [|w ws IH]; [cbn; lia|]. rewrite slots_held_cons.
  destruct (holds_slot w) eqn:Hw.
  - intros _. exists [], w, ws. split; [done|].
    unfold holds_slot in Hw. destruct (w_phase w); auto; discriminate.
  - intros H. destruct IH as (ws1 & w' & ws2 & -> & Hp); [lia|].
    by exists (w :: ws1), w', ws2.
Qed.

Lemma holds_slot_counts ws1 w ws2 :
  w_phase w = Probing \/ w_phase w = Releasing ->
  1 <= slots_held (ws1 ++ w :: ws2).
Proof.
  intros Hp. rewrite slots_held_app, slots_held_cons. unfold holds_slot.
  destruct Hp as [-> | ->]; lia.
Qed.

(** X2: with maxGoroutines >= 1 a scan is never stuck on sem: as long as
    the loop has something left to do or a worker has not finished, some
    goroutine can take a step (a checkContainer call returning counts as
    a step). *)
Theorem scan_is_never_stuck de fl accountList containerList s :
  (1 <= maxGoroutines fl)%Z ->
  reachable (maxGoroutines fl) (ops_of (Run de fl accountList containerList)) s ->
  pending s <> [] \/ Exists (fun w => w_phase w <> Finished) (workers s) ->
  exists s', step (maxGoroutines fl) s s'.
Proof.
  intros HN Hr Hwork.
  destruct (sem_invariant_reachable _ _ _
              (paired_ops_of de fl accountList containerList) Hr) as [Hcap Hinv].
  destruct s as [pend sm ws ls cc g]. cbn [pending sem workers] in *.
  assert (Hworker : forall ws1 w ws2, ws = ws1 ++ w :: ws2 ->
            w_phase w <> Finished ->
            (w_phase w = Releasing -> 1 <= sm) ->
            exists s', step (maxGoroutines fl) (Build_State pend sm ws ls cc g) s').
  { intros ws1 w ws2 -> Hph Hrel. destruct (w_phase w) eqn:Hw; [| | |done].
    - eexists. by apply step_probed.
    - destruct sm as [|sm]; [specialize (Hrel eq_refl); lia|].
      eexists. by apply step_release.
    - eexists. by apply step_done. }
  destruct pend as [|op pend].
  - destruct Hwork as [?|Hex]; [done|].
    apply Exists_exists in Hex as (w & Hin & Hph).
    apply list_elem_of_split in Hin as (ws1 & ws2 & ->).
    apply (Hworker ws1 w ws2 eq_refl Hph). intros Hrel.
    destruct Hinv as [[_ <-]|(a & c & ops & [=] & _)].
    apply holds_slot_counts. by right.
  - destruct op as [d|a n| |a c|a c]; try (by eexists; constructor).
    destruct (Z_lt_dec (Z.of_nat sm) (maxGoroutines fl)) as [Hfree|Hfull].
    + eexists. by apply step_acquire.
    + destruct Hinv as [[_ Hs]|(a' & c' & ops & [=] & _)].
      destruct (slot_holder ws) as (ws1 & w & ws2 & Heq & Hp); [lia|].
      apply (Hworker ws1 w ws2 Heq).
      * destruct Hp as [-> | ->]; discriminate.
      * intros _. lia.
Qed.

(** X3: with maxGoroutines <= 0 no worker is ever started, so nothing is
    probed. With maxGoroutines = 0 the first send on sem never goes
    through: when some account resolves, the loop never ends and Run
    never reaches wg.Wait(). *)
Theorem no_probe_without_slots de fl accountList containerList s :
  (maxGoroutines fl <= 0)%Z ->
  reachable (maxGoroutines fl) (ops_of (Run de fl accountList containerList)) s ->
  workers s = []
  /\ sem s = 0
  /\ (maxGoroutines fl = 0%Z ->
      (exists a c, In (OpAcquire a c)
                     (ops_of (Run de fl accountList containerList))) ->
      ~ joined s).
Proof.
  intros HN Hr.
  set (ops := ops_of (Run de fl accountList containerList)) in *.
  assert (Hpaired : paired ops) by apply paired_ops_of.
  assert (Hws : workers s = []).
  { revert s Hr. unfold reachable. apply rtc_ind_r; [done|].
    intros s1 s2 Hr1 Hstep Hnil.
    destruct (sem_invariant_reachable _ _ _ Hpaired Hr1) as [Hcap Hinv].
    destruct Hstep; cbn [pending sem workers] in *; try done;
      try (by destruct (app_cons_not_nil _ _ _ (eq_sym Hnil))).
    exfalso. subst ws. destruct Hinv as [[[] _]|(a' & c' & ops' & _ & _ & Hs)].
    cbn in Hs. lia. }
  destruct (sem_invariant_reachable _ _ _ Hpaired Hr) as [Hcap _].
  split_and!; [done|lia|].
  intros HN0 Hacq [Hpend _].
  cut (exists a c, In (OpAcquire a c) (pending s)).
  { rewrite Hpend. by intros (a & c & []). }
  clear Hws Hcap Hpend. revert s Hr. unfold reachable. apply rtc_ind_r.
  - cbn. by rewrite HN0.
  - intros s1 s2 _ Hstep (a0 & c0 & Hin). exists a0, c0.
    destruct Hstep; cbn [pending] in *; try done;
      try (by destruct Hin as [?|?]); lia.
Qed.

End Blocking.

(* --------------------------------------------------------------------- *)
(* checkContainer on any sequence of exchanges                            *)
(* --------------------------------------------------------------------- *)
Section AnyScript.
Import Blobber Chain.
Variable fl : Flags.
Variables account container : string.

Local Abbreviation lurl := (listURL fl account container).

(* A request for a further page: the list URL with a non-empty marker. *)
Local Abbreviation next_request :=
  (fun u : string => exists m, m <> "" /\ u = nextURL lurl m).

Lemma count_walk_requests script : forall m n rest reqs msgs t,
  count_walk fl lurl script m n = Some (rest, reqs, msgs, t) ->
  Forall next_request reqs.
Proof.
  induction script as [|r script IH]; intros m n rest reqs msgs t; cbn [count_walk].
  { destruct (String.eqb m ""); [by intros [= <- <- <- <-]|done]. }
  destruct (String.eqb m "") eqn:Hm; [by intros [= <- <- <- <-]|].
  apply String.eqb_neq in Hm.
  assert (Hone : Forall next_request [nextURL lurl m]).
  { constructor; [by exists m|done]. }
  destruct r as [|status [|body]]; try (by intros [= <- <- <- <-]).
  destruct (unmarshal_EnumerationResults body) as [p|];
    [|by intros [= <- <- <- <-]].
  destruct (count_walk fl lurl script (NextMarker p) (n + length (Blobs_Blob p)))
    as [[[[rest' reqs'] msgs'] t']|] eqn:Hrec; [|done].
  intros [= <- <- <- <-]. constructor; [by exists m|]. by eapply IH.
Qed.

Lemma list_walk_shape script : forall m acc rest reqs msgs bs,
  list_walk fl lurl script m acc = Some (rest, reqs, msgs, bs) ->
  Forall next_request reqs /\ exists more, bs = acc ++ more.
Proof.
  assert (Hstay : forall acc : list Blob,
             Forall next_request [] /\ exists more, acc = acc ++ more).
  { intros acc. split; [done|]. exists []. by rewrite app_nil_r. }
  induction script as [|r script IH]; intros m acc rest reqs msgs bs;
    cbn [list_walk].
  { destruct (negb (String.eqb m "") && (Z.of_nat (length acc) <? limit fl)%Z)%bool;
      [done|]. intros [= <- <- <- <-]. apply Hstay. }
  destruct (negb (String.eqb m "") && (Z.of_nat (length acc) <? limit fl)%Z)%bool
    eqn:Hgo; [|intros [= <- <- <- <-]; apply Hstay].
  apply andb_true_iff in Hgo as [Hm _]. apply negb_true_iff, String.eqb_neq in Hm.
  assert (Hstop : Forall next_request [nextURL lurl m]
                  /\ exists more, acc = acc ++ more).
  { split; [constructor; [by exists m|done]|exists []; by rewrite app_nil_r]. }
  destruct r as [|status [|body]]; try (by intros [= <- <- <- <-]).
  destruct (unmarshal_EnumerationResults body) as [p|];
    [|by intros [= <- <- <- <-]].
  destruct (list_walk fl lurl script (NextMarker p) (acc ++ Blobs_Blob p))
    as [[[[rest' reqs'] msgs'] bs']|] eqn:Hrec; [|done].
  intros [= <- <- <- <-].
  destruct (IH _ _ _ _ _ _ Hrec) as [Hreqs [more ->]]. split.
  - constructor; [by exists m|done].
  - exists (Blobs_Blob p ++ more). by rewrite app_assoc.
Qed.

(* What the part of checkContainer after a non-empty first page gives. *)
Lemma report_shape p1 rest reqs msgs act :
  report fl account container p1 rest = Some (reqs, msgs, act) ->
  Forall next_request reqs
  /\ exists more, act = dispatch fl (truncate fl (Blobs_Blob p1 ++ more)).
Proof.
  unfold report.
  set (counted := if (totalCount fl && negb (String.eqb (NextMarker p1) ""))%bool
                  then _ else _).
  assert (Hcounted : forall rest1 reqs1 msgs1,
             counted = Some (rest1, reqs1, msgs1) -> Forall next_request reqs1).
  { subst counted. intros rest1 reqs1 msgs1.
    destruct (totalCount fl && negb (String.eqb (NextMarker p1) ""))%bool.
    - destruct (count_walk fl lurl rest (NextMarker p1) (length (Blobs_Blob p1)))
        as [[[[r0 q0] m0] t0]|] eqn:Hc; [|done].
      intros [= <- <- <-]. by eapply count_walk_requests.
    - destruct (5000 <=? length (Blobs_Blob p1))%nat; by intros [= <- <- <-]. }
  destruct counted as [[[rest1 reqs1] msgs1]|]; [|done].
  specialize (Hcounted _ _ _ eq_refl).
  destruct ((5000 <? limit fl)%Z && negb (String.eqb (NextMarker p1) ""))%bool.
  - destruct (list_walk fl lurl rest1 (NextMarker p1) (Blobs_Blob p1))
      as [[[[r2 reqs2] msgs2] bs]|] eqn:Hw; [|done].
    intros [= <- <- <-].
    destruct (list_walk_shape _ _ _ _ _ _ _ Hw) as [Hreqs [more ->]].
    split; [by apply Forall_app|by exists more].
  - intros [= <- <- <-]. split; [by rewrite app_nil_r|].
    exists []. by rewrite app_nil_r.
Qed.

Lemma checkContainer_found_shape script o :
  checkContainer fl account container script = Some o ->
  found o = true ->
  exists status b1 p1 rest reqs more,
    script = GetOk status (ReadOk b1) :: rest
    /\ unmarshal_EnumerationResults b1 = Some p1
    /\ Blobs_Blob p1 <> []
    /\ requests o = lurl :: reqs
    /\ Forall next_request reqs
    /\ action o = dispatch fl (truncate fl (Blobs_Blob p1 ++ more)).
Proof.
  intros Ho Hf. destruct script as [|r rest]; [done|].
  destruct (checkContainer_found_inv _ _ _ _ _ _ Ho Hf)
    as (status & b1 & p1 & -> & _ & Hp & Hne).
  rewrite (checkContainer_first_page _ _ _ _ _ _ _ Hp Hne) in Ho.
  destruct (report fl account container p1 rest) as [[[reqs msgs] act]|] eqn:Hrep;
    [|done].
  injection Ho as <-. cbn.
  destruct (report_shape _ _ _ _ _ Hrep) as [Hreqs [more ->]].
  by exists status, b1, p1, rest, reqs, more.
Qed.

Lemma checkContainer_not_found script o :
  checkContainer fl account container script = Some o ->
  found o = false ->
  requests o = [lurl] /\ action o = DoNothing.
Proof.
  unfold checkContainer. destruct script as [|r rest]; [done|].
  destruct r as [|status [|body]]; try (by intros [= <-]).
  destruct (error_gate fl account container body); [by intros [= <-]|].
  destruct (unmarshal_EnumerationResults body) as [p|]; [|by intros [= <-]].
  destruct (length (Blobs_Blob p) =? 0)%nat; [by intros [= <-]|].
  destruct (report fl account container p rest) as [[[reqs msgs] act]|]; [|done].
  by intros [= <-].
Qed.

Lemma truncate_length (l : list Blob) :
  (0 < limit fl)%Z -> (Z.of_nat (length (truncate fl l)) <= limit fl)%Z.
Proof.
  intros Hpos. rewrite truncate_firstn by done. rewrite length_firstn. lia.
Qed.

Lemma blobs_of_dispatch (l : list Blob) :
  blobs_of (dispatch fl l) = l \/ blobs_of (dispatch fl l) = [].
Proof.
  unfold dispatch. destruct (isDownload fl); [by left|].
  destruct (negb (String.eqb (outputPath fl) "")); [by left|].
  destruct (listBlobs fl); [by left|by right].
Qed.

(** X4: every request checkContainer makes goes to the list URL of its
    own account and container: the first one is the list URL itself, each
    further one the list URL with a non-empty marker appended. A
    container that is not reported costs exactly one request and starts
    no download, save or listing. *)
Theorem requests_stay_on_the_list_url script o :
  checkContainer fl account container script = Some o ->
  (exists reqs, requests o = lurl :: reqs /\ Forall next_request reqs)
  /\ (found o = false -> requests o = [lurl] /\ action o = DoNothing).
Proof.
  intros Ho. split.
  - destruct (found o) eqn:Hf.
    + destruct (checkContainer_found_shape _ _ Ho Hf)
        as (? & ? & ? & ? & reqs & ? & _ & _ & _ & Hr & Hall & _).
      by exists reqs.
    + destruct (checkContainer_not_found _ _ Ho Hf) as [Hr _].
      exists []. by rewrite Hr.
  - intros Hf. by apply (checkContainer_not_found _ _ Ho Hf).
Qed.

(** X5: with a positive limit checkContainer never hands more than
    `limit` blobs to the download, the save or the listing, whatever the
    server answers; and what it hands on starts with the records of the
    first page, in their order, up to that cut. *)
Theorem handed_blobs_within_limit script o :
  checkContainer fl account container script = Some o ->
  ((0 < limit fl)%Z ->
   (Z.of_nat (length (blobs_of (action o))) <= limit fl)%Z)
  /\ (action o <> DoNothing ->
      exists status b1 p1 rest more,
        script = GetOk status (ReadOk b1) :: rest
        /\ unmarshal_EnumerationResults b1 = Some p1
        /\ blobs_of (action o) = truncate fl (Blobs_Blob p1 ++ more)).
Proof.
  intros Ho. destruct (found o) eqn:Hf.
  - destruct (checkContainer_found_shape _ _ Ho Hf)
      as (status & b1 & p1 & rest & reqs & more & -> & Hp & _ & _ & _ & Ha).
    rewrite Ha. split.
    + intros Hpos.
      destruct (blobs_of_dispatch (truncate fl (Blobs_Blob p1 ++ more))) as [-> | ->].
      * by apply truncate_length.
      * cbn. lia.
    + intros Hact. exists status, b1, p1, rest, more. split_and!; try done.
      revert Hact. unfold dispatch. destruct (isDownload fl); [done|].
      destruct (negb (String.eqb (outputPath fl) "")); [done|].
      by destruct (listBlobs fl).
  - destruct (checkContainer_not_found _ _ Ho Hf) as [_ ->]. split; [cbn; lia|done].
Qed.

End AnyScript.

Section Reporting.
Import Blobber Chain.
Variable fl : Flags.
Variables account container : string.

Local Abbreviation lurl := (listURL fl account container).

(** X6: without --debug a container that is not reported leaves at most
    one line on the console, and it leaves that line exactly when the
    answer is an <Error> document with the code PublicAccessNotPermitted:
    every other refusal, a failed request and an empty listing are
    silent. *)
Theorem only_permission_refusal_is_shown r rest o :
  debug fl = false ->
  checkContainer fl account container (r :: rest) = Some o ->
  found o = false ->
  (console o = [] \/ console o = [InfoPublicAccessNotPermitted account container])
  /\ (console o = [InfoPublicAccessNotPermitted account container]
      <-> exists status body e,
          r = GetOk status (ReadOk body)
          /\ unmarshal_BlobError body = Some e
          /\ Code e = "PublicAccessNotPermitted").
Proof.
  intros Hdbg. unfold checkContainer, error_gate, dbg. rewrite Hdbg.
  cbn [app].
  destruct r as [|status [|body]].
  - intros [= <-] _. split; [by left|]. split; [done|]. by intros (? & ? & ? & [=] & _).
  - intros [= <-] _. split; [by left|]. split; [done|]. by intros (? & ? & ? & [=] & _).
  - destruct (unmarshal_BlobError body) as [e|] eqn:He.
    + assert (Hnolist := error_document_is_no_listing _ _ He).
      destruct (String.eqb (Code e) "") eqn:E0.
      { rewrite Hnolist. intros [= <-] _. split; [by left|]. split; [done|].
        intros (? & ? & e' & [= <- <-] & He' & Hc). rewrite He in He'.
        injection He' as <-. rewrite Hc in E0. discriminate. }
      destruct (String.eqb (Code e) "NoAuthenticationInformation") eqn:E1.
      { intros [= <-] _. split; [by left|]. split; [done|].
        intros (? & ? & e' & [= <- <-] & He' & Hc). rewrite He in He'.
        injection He' as <-. rewrite Hc in E1. discriminate. }
      destruct (String.eqb (Code e) "PublicAccessNotPermitted") eqn:E2.
      { intros [= <-] _. split; [by right|]. split; [|done].
        intros _. exists status, body, e. split_and!; try done.
        by apply String.eqb_eq. }
      destruct (String.eqb (Code e) "ResourceNotFound") eqn:E3.
      { rewrite Hnolist. intros [= <-] _. split; [by left|]. split; [done|].
        intros (? & ? & e' & [= <- <-] & He' & Hc). rewrite He in He'.
        injection He' as <-. rewrite Hc in E2. discriminate. }
      intros [= <-] _. split; [by left|]. split; [done|].
      intros (? & ? & e' & [= <- <-] & He' & Hc). rewrite He in He'.
      injection He' as <-. rewrite Hc in E2. discriminate.
    + assert (Hno : forall o' : Outcome,
                 found o' = false -> console o' = [] ->
                 (console o' = []
                  \/ console o' = [InfoPublicAccessNotPermitted account container])
                 /\ (console o' = [InfoPublicAccessNotPermitted account container]
                     <-> exists status0 body0 e,
                         GetOk status (ReadOk body) = GetOk status0 (ReadOk body0)
                         /\ unmarshal_BlobError body0 = Some e
                         /\ Code e = "PublicAccessNotPermitted")).
      { intros o' _ Hc. rewrite Hc. split; [by left|]. split; [done|].
        intros (? & ? & e' & [= <- <-] & He' & _). congruence. }
      destruct (unmarshal_EnumerationResults body) as [p|];
        [|intros [= <-] ?; by apply Hno].
      destruct (length (Blobs_Blob p) =? 0)%nat; [intros [= <-] ?; by apply Hno|].
      destruct (report fl account container p rest) as [[[? ?] ?]|]; [|done].
      by intros [= <-] [=].
Qed.

(** X7: with --total, on a container of more than one page whose chain is
    counted without a failing exchange, the line that reports the
    container carries the number of records of the whole chain, whatever
    the limit and whatever the fetching loop does afterwards. *)
Theorem total_counts_the_whole_chain status b1 p1 cs ps ls o :
  totalCount fl = true ->
  unmarshal_EnumerationResults b1 = Some p1 ->
  Blobs_Blob p1 <> [] ->
  NextMarker p1 <> "" ->
  linked (NextMarker p1) cs ps ->
  last_marker (NextMarker p1) ps = "" ->
  checkContainer fl account container (GetOk status (ReadOk b1) :: cs ++ ls) = Some o ->
  found o = true
  /\ In (FoundTotal account container (length (records (p1 :: ps)))) (console o).
Proof.
  intros Htotal Hp Hne Hm Hlinked Hlast.
  rewrite (checkContainer_first_page _ _ _ _ _ _ _ Hp Hne).
  unfold report. rewrite Htotal, (eqb_marker_false _ Hm). cbn [andb negb].
  destruct (count_walk_chain fl lurl _ _ _ Hlinked (length (Blobs_Blob p1)) Hlast)
    as [msgs Hc].
  rewrite (count_walk_app _ _ _ _ _ _ _ _ ls Hc).
  match goal with
  | |- match match ?w with _ => _ end with _ => _ end = _ -> _ =>
      destruct w as [[[[r2 reqs2] msgs2] bs]|]; [|done]
  end.
  intros [= <-]. split; [done|]. cbn [console].
  rewrite records_cons, length_app.
  apply in_app_iff. right. apply in_app_iff. left. apply in_app_iff. right.
  by left.
Qed.

(** X8: with --total and a limit above 5000 the pages after the first are
    requested twice, once by the counting loop and once by the fetching
    loop: when both walks see the same chain and it holds fewer than
    `limit` records, the requests are the list URL followed by the same
    sequence of marker URLs two times. *)
Theorem total_fetches_the_chain_twice status b1 p1 cs ls ps :
  totalCount fl = true ->
  (5000 < limit fl)%Z ->
  unmarshal_EnumerationResults b1 = Some p1 ->
  Blobs_Blob p1 <> [] ->
  NextMarker p1 <> "" ->
  linked (NextMarker p1) cs ps ->
  linked (NextMarker p1) ls ps ->
  last_marker (NextMarker p1) ps = "" ->
  (Z.of_nat (length (records (p1 :: ps))) < limit fl)%Z ->
  let again := map (nextURL lurl) (firstn (length ps) (markers (NextMarker p1) ps)) in
  exists o,
    checkContainer fl account container (GetOk status (ReadOk b1) :: cs ++ ls) = Some o
    /\ requests o = lurl :: again ++ again
    /\ action o = dispatch fl (records (p1 :: ps)).
Proof.
  intros Htotal Hbig Hp Hne Hm Hcs Hls Hlast Hlim again.
  rewrite (checkContainer_first_page _ _ _ _ _ _ _ Hp Hne).
  assert (Hcount : count_part fl lurl p1 cs again).
  { unfold count_part. rewrite Htotal, (eqb_marker_false _ Hm). cbn [andb negb].
    destruct (count_walk_chain fl lurl _ _ _ Hcs (length (Blobs_Blob p1)) Hlast)
      as [msgs Hc]. by eexists _, _. }
  destruct (report_after_count fl account container p1 cs again ls Hcount)
    as [cmsgs ->].
  assert ((5000 <? limit fl)%Z = true) as -> by by apply Z.ltb_lt.
  rewrite (eqb_marker_false _ Hm). cbn [andb negb].
  destruct (list_walk_chain fl lurl _ _ _ Hls (Blobs_Blob p1) Hlast)
    as (k & msgs & Hk & -> & Hstop & _).
  rewrite records_cons in Hlim.
  assert (Hall : k = length ps).
  { destruct Hstop as [?|Hstop]; [done|]. exfalso.
    pose proof (records_firstn_length k ps). rewrite !length_app in *. lia. }
  subst k. rewrite firstn_all in *.
  eexists. split_and!; try done. cbn [action]. f_equal.
  unfold truncate. rewrite records_cons.
  assert ((limit fl <? Z.of_nat (length (Blobs_Blob p1 ++ records ps)))%Z = false)
    as -> by (apply Z.ltb_ge; lia).
  by rewrite andb_false_r.
Qed.

End Reporting.

(* --------------------------------------------------------------------- *)
(* Saving the list to a file                                              *)
(* --------------------------------------------------------------------- *)
Section Saving.
Import Blobber Chain.
Variable os : Fs.Os.

(* One line of the output file. *)
Local Abbreviation line fl account container :=
  (fun blob : Blob =>
     (blobURL fl account container blob ++ String "010"%char "")%string).

Lemma append_empty (x : string) : (x ++ "")%string = x.
Proof.
  induction x as [|ch x IH]; [done|].
  change (String ch (x ++ "")%string = String ch x). by rewrite IH.
Qed.

Lemma concat_lines_cons (x : string) (xs : list string) :
  String.concat "" (x :: xs) = (x ++ String.concat "" xs)%string.
Proof. destruct xs as [|y xs]; cbn; [by rewrite append_empty|done]. Qed.

Lemma append_assoc (a b c : string) : ((a ++ b) ++ c = a ++ (b ++ c))%string.
Proof.
  induction a as [|ch a IH]; [done|].
  change (String ch ((a ++ b) ++ c)%string = String ch (a ++ (b ++ c))%string).
  by rewrite IH.
Qed.

Lemma writes_accumulate (f : Blob -> string) (file : string) (bs : list Blob) :
  forall (pre : string) (fs : Fs.FS),
    fold_left (fun fs' blob => Fs.Write fs' file (f blob)) bs (<[file := pre]> fs)
    = <[file := (pre ++ String.concat "" (map f bs))%string]> fs.
Proof.
  induction bs as [|b bs IH]; intros pre fs.
  - cbn. by rewrite append_empty.
  - cbn [fold_left map]. unfold Fs.Write at 2. rewrite alter_insert_eq, IH.
    by rewrite concat_lines_cons, append_assoc.
Qed.

(** X9: saveBlobList with an output path either changes nothing (when the
    file cannot be created) or replaces the content of that one file by
    one line per blob, the blob's URL, in the order given, for at most
    max(99999, limit) blobs (the writes to the created file are taken to
    go through; the code does not look at their errors). *)
Theorem saved_list_contents fl account container (blobs : list Blob) (fs : Fs.FS) :
  outputPath fl <> "" ->
  (Fs.create_ok os (outputPath fl) = false ->
   saveBlobList os fl account container blobs fs = fs)
  /\ (Fs.create_ok os (outputPath fl) = true ->
      saveBlobList os fl account container blobs fs
      = <[outputPath fl :=
            String.concat ""
              (map (line fl account container)
                 (firstn (Z.to_nat (Z.max 99999 (limit fl))) blobs))]> fs).
Proof.
  intros Hout. unfold saveBlobList. apply String.eqb_neq in Hout. rewrite Hout.
  split; intros ->; [done|].
  unfold Fs.Create. rewrite (writes_accumulate (line fl account container)).
  cbn [String.append]. do 2 f_equal.
  destruct (99999 <? limit fl)%Z eqn:Hl.
  - apply Z.ltb_lt in Hl. rewrite Z.max_r by lia.
    destruct (limit fl <? Z.of_nat (length blobs))%Z eqn:Hc; [done|].
    apply Z.ltb_ge in Hc. rewrite firstn_all2; [done|lia].
  - apply Z.ltb_ge in Hl. rewrite Z.max_l by lia.
    destruct (99999 <? Z.of_nat (length blobs))%Z eqn:Hc; [done|].
    apply Z.ltb_ge in Hc. rewrite firstn_all2; [done|lia].
Qed.

(** X10: every call of saveBlobList writes the same file named by
    --output, so the list saved for one container is lost when the list
    of the next one is saved: after two calls the file system is the one
    the second call alone would leave. *)
Theorem later_list_replaces_earlier fl a1 c1 (bs1 : list Blob) a2 c2
    (bs2 : list Blob) (fs : Fs.FS) :
  outputPath fl <> "" ->
  saveBlobList os fl a2 c2 bs2 (saveBlobList os fl a1 c1 bs1 fs)
  = saveBlobList os fl a2 c2 bs2 fs.
Proof.
  intros Hout. unfold saveBlobList. apply String.eqb_neq in Hout. rewrite Hout.
  destruct (Fs.create_ok os (outputPath fl)); [|done].
  unfold Fs.Create.
  rewrite !(writes_accumulate (line fl a2 c2)), (writes_accumulate (line fl a1 c1)).
  by rewrite insert_insert_eq.
Qed.

Lemma collected_is_whole_chain (lim : Z) (acc : list Blob) k ps :
  k = length ps
  \/ (lim <= Z.of_nat (length (acc ++ records (firstn k ps))))%Z ->
  (Z.of_nat (length (acc ++ records ps)) <= lim)%Z ->
  records (firstn k ps) = records ps.
Proof.
  intros [-> |Hstop] Hle; [by rewrite firstn_all|].
  rewrite <- (firstn_skipn k ps) at 2. rewrite records_app.
  rewrite <- (firstn_skipn k ps), records_app, !length_app in Hle.
  rewrite length_app in Hstop.
  assert (Hnil : length (records (skipn k ps)) = 0) by lia.
  destruct (records (skipn k ps)); [by rewrite app_nil_r|done].
Qed.

(** X11: blobber -o FILE without --download and with the limit left at
    (or set to) 10 runs with limit 99999: for a container whose chain is
    walked without a failing exchange and holds at most 99999 records,
    every record of every page is handed to saveBlobList, which writes
    one line for each of them. *)
Theorem default_limit_saves_the_whole_chain de fl accountList containerList
    fl' ops account container status b1 p1 cs creqs ls ps (fs : Fs.FS) :
  Run de fl accountList containerList = Scan fl' ops ->
  isDownload fl = false ->
  outputPath fl <> "" ->
  limit fl = 10%Z ->
  unmarshal_EnumerationResults b1 = Some p1 ->
  Blobs_Blob p1 <> [] ->
  count_part fl' (listURL fl' account container) p1 cs creqs ->
  linked (NextMarker p1) ls ps ->
  last_marker (NextMarker p1) ps = "" ->
  (Z.of_nat (length (records (p1 :: ps))) <= 99999)%Z ->
  Fs.create_ok os (outputPath fl) = true ->
  limit fl' = 99999%Z
  /\ exists o,
      checkContainer fl' account container (GetOk status (ReadOk b1) :: cs ++ ls)
      = Some o
      /\ action o = DoSave (records (p1 :: ps))
      /\ saveBlobList os fl' account container (records (p1 :: ps)) fs
         = <[outputPath fl :=
               String.concat ""
                 (map (line fl' account container) (records (p1 :: ps)))]> fs.
Proof.
  intros HRun Hdl Hout Hlim Hp Hne Hcount Hlinked Hlast Hsize Hcreate.
  assert (Hfl : fl' = with_limit fl 99999).
  { unfold Run in HRun.
    destruct (negb (String.eqb (outputPath fl) "") && listBlobs fl)%bool; [done|].
    apply String.eqb_neq in Hout. rewrite Hdl, Hout, Hlim in HRun. cbn in HRun.
    destruct accountList; [done|]. destruct containerList; [done|]. congruence. }
  subst fl'. split; [done|].
  assert (Hdisp : forall l, dispatch (with_limit fl 99999) l = DoSave l).
  { intros l. unfold dispatch. cbn. rewrite Hdl.
    apply String.eqb_neq in Hout. by rewrite Hout. }
  assert (Htrunc : truncate (with_limit fl 99999) (records (p1 :: ps))
                   = records (p1 :: ps)).
  { unfold truncate. cbn [limit with_limit].
    assert ((99999 <? Z.of_nat (length (records (p1 :: ps))))%Z = false) as ->
        by (apply Z.ltb_ge; lia).
    by rewrite andb_false_r. }
  rewrite (checkContainer_first_page _ _ _ _ _ _ _ Hp Hne).
  destruct (report_after_count _ account container p1 cs creqs ls Hcount)
    as [cmsgs ->].
  cbn [limit with_limit]. cbn [Z.ltb Z.compare Pos.compare Pos.compare_cont andb].
  assert (Hsave : saveBlobList os (with_limit fl 99999) account container
                    (records (p1 :: ps)) fs
                  = <[outputPath fl :=
                        String.concat ""
                          (map (line (with_limit fl 99999) account container)
                             (records (p1 :: ps)))]> fs).
  { destruct (saved_list_contents (with_limit fl 99999) account container
                (records (p1 :: ps)) fs Hout) as [_ Hok].
    rewrite (Hok Hcreate). cbn [outputPath limit with_limit].
    rewrite firstn_all2; [done|]. lia. }
  destruct (String.eqb (NextMarker p1) "") eqn:Hm; cbn [negb].
  - apply String.eqb_eq in Hm.
    inversion Hlinked as [m|]; [subst|congruence].
    eexists. split_and!; [done| |exact Hsave]. cbn [action]. rewrite Hdisp.
    f_equal. rewrite <- Htrunc. f_equal. unfold records. cbn.
    by rewrite app_nil_r.
  - destruct (list_walk_chain (with_limit fl 99999)
                (listURL (with_limit fl 99999) account container) _ _ _
                Hlinked (Blobs_Blob p1) Hlast)
      as (k & msgs & Hk & -> & Hstop & _).
    eexists. split_and!; [done| |exact Hsave]. cbn [action]. rewrite Hdisp.
    f_equal. rewrite records_cons in Hsize.
    rewrite (collected_is_whole_chain 99999 _ _ _ Hstop Hsize).
    by rewrite <- records_cons.
Qed.

End Saving.

(* --------------------------------------------------------------------- *)
(* The two download paths                                                 *)
(* --------------------------------------------------------------------- *)
Section Downloads.
Variable os : Fs.Os.
Variable get : string -> Fetch.

(** X12: DownloadFile returns nil exactly when the directory and the file
    could be created, the answer has status 200 and the copy ran to the
    end; the destination then holds exactly the bytes of the body. *)
Theorem download_succeeds_exactly_when url destPath (fs : Fs.FS) :
  (fst (Downloader.DownloadFile os get url destPath fs) = None
   <-> Fs.mkdirall_ok os destPath = true
       /\ Fs.create_ok os destPath = true
       /\ exists body, get url = FetchOk StatusOK body /\ breaks_after body = None)
  /\ (forall body,
        fst (Downloader.DownloadFile os get url destPath fs) = None ->
        get url = FetchOk StatusOK body ->
        snd (Downloader.DownloadFile os get url destPath fs)
        = <[destPath := data body]> fs).
Proof.
  unfold Downloader.DownloadFile.
  destruct (Fs.mkdirall_ok os destPath); cbn [negb].
  2: { split; [|done]. split; [done|]. by intros [? _]. }
  destruct (Fs.create_ok os destPath); cbn [negb].
  2: { split; [|done]. split; [done|]. by intros (_ & ? & _). }
  destruct (get url) as [|status body] eqn:Hget.
  { split; [|done]. split; [done|]. by intros (_ & _ & ? & ? & _). }
  destruct (Z.eqb status StatusOK) eqn:Hst; cbn [negb].
  2: { apply Z.eqb_neq in Hst. split; [|done]. split; [done|].
       intros (_ & _ & ? & [= ? _] & _). done. }
  apply Z.eqb_eq in Hst. subst status. unfold Copy.
  destruct (breaks_after body) as [n|] eqn:Hn; cbn [fst snd].
  - split; [|done]. split; [done|].
    intros (_ & _ & body' & [= <-] & Hn'). congruence.
  - split.
    + split; [|done]. intros _. split_and!; try done. by exists body.
    + intros body' _ [= <-]. apply write_after_create.
Qed.

(** X13: neither DownloadFile nor a job of downloadBlobs changes any file
    other than the one it is asked to write. *)
Theorem downloads_touch_one_path url path (fs : Fs.FS) other :
  other <> path ->
  snd (Downloader.DownloadFile os get url path fs) !! other = fs !! other
  /\ Blobber.download_job os get url path fs !! other = fs !! other.
Proof.
  intros Hne. split.
  - unfold Downloader.DownloadFile.
    destruct (Fs.mkdirall_ok os path); cbn [negb]; [|done].
    destruct (Fs.create_ok os path); cbn [negb]; [|done].
    assert (Hc : Fs.Create fs path !! other = fs !! other).
    { unfold Fs.Create. by rewrite lookup_insert_ne. }
    destruct (get url) as [|status body]; [done|].
    destruct (negb (Z.eqb status StatusOK)); [done|].
    destruct (Copy body) as [written failed].
    rewrite write_after_create.
    destruct failed; cbn [snd]; by rewrite lookup_insert_ne.
  - unfold Blobber.download_job.
    destruct (Fs.mkdirall_ok os path); [|done].
    destruct (get url) as [|status body]; [done|].
    destruct (Fs.create_ok os path); [|done].
    rewrite write_after_create. by rewrite lookup_insert_ne.
Qed.

(** X14: where DownloadFile succeeds, a job of downloadBlobs leaves the
    same file system. But the job does not look at the status code: for
    every answer, also a 404, it stores the bytes it could copy as the
    blob, replacing what the file held. *)
Theorem job_stores_any_answer url path (fs : Fs.FS) :
  (fst (Downloader.DownloadFile os get url path fs) = None ->
   Blobber.download_job os get url path fs
   = snd (Downloader.DownloadFile os get url path fs))
  /\ (forall status body,
        Fs.mkdirall_ok os path = true ->
        Fs.create_ok os path = true ->
        get url = FetchOk status body ->
        Blobber.download_job os get url path fs
        = <[path := fst (Copy body)]> fs).
Proof.
  split.
  - unfold Downloader.DownloadFile, Blobber.download_job.
    destruct (Fs.mkdirall_ok os path); cbn [negb]; [|done].
    destruct (Fs.create_ok os path); cbn [negb]; [|done].
    destruct (get url) as [|status body]; [done|].
    destruct (negb (Z.eqb status StatusOK)); [done|].
    destruct (Copy body) as [written failed]. by destruct failed.
  - intros status body Hmk Hcr Hget. unfold Blobber.download_job.
    rewrite Hmk, Hget, Hcr. apply write_after_create.
Qed.

(** X15: DebugDownloadFile returns the same error and leaves the same
    file system as DownloadFile; it differs only in the lines it prints,
    the first of which names the download. *)
Theorem debug_download_agrees url destPath baseDomain (fs : Fs.FS) :
  let '(msgs, err, fs') :=
    Downloader.DebugDownloadFile os get url destPath baseDomain fs in
  (err, fs') = Downloader.DownloadFile os get url destPath fs
  /\ hd_error msgs
     = Some (Downloader.DbgStarting
               (fst (Downloader.extractAccountAndContainer url baseDomain))
               (snd (Downloader.extractAccountAndContainer url baseDomain))
               url destPath).
Proof.
  unfold Downloader.DebugDownloadFile, Downloader.DownloadFile.
  destruct (Downloader.extractAccountAndContainer url baseDomain) as [a c].
  destruct (negb (Fs.mkdirall_ok os destPath)); [done|].
  destruct (negb (Fs.create_ok os destPath)); [done|].
  destruct (get url) as [|status body]; [done|].
  destruct (negb (Z.eqb status StatusOK)); [done|].
  destruct (Copy body) as [written failed]. by destruct failed.
Qed.

End Downloads.

(* --------------------------------------------------------------------- *)
(* Account and container of a blob URL                                    *)
(* --------------------------------------------------------------------- *)
Section BlobUrls.
Import Strings.

Lemma step_append (c : ascii) (a b : string) :
  (String c a ++ b)%string = String c (a ++ b)%string.
Proof. reflexivity. Qed.

Lemma has_byte_app c (a b : string) :
  has_byte c (a ++ b)%string = (has_byte c a || has_byte c b)%bool.
Proof.
  induction a as [|ch a IH]; [done|]. rewrite step_append. cbn [has_byte].
  rewrite IH. by rewrite orb_assoc.
Qed.

Lemma strip_prefix_app (p r : string) : strip_prefix p (p ++ r)%string = Some r.
Proof.
  induction p as [|ch p IH]; [done|]. rewrite step_append. cbn [strip_prefix].
  by rewrite Ascii.eqb_refl.
Qed.

(* The first cut is behind a prefix that does not hold the first byte of
   the separator. *)
Lemma Cut_behind (c0 : ascii) (sep' p r : string) :
  has_byte c0 p = false ->
  Cut (p ++ String c0 sep' ++ r)%string (String c0 sep') = Some (p, r).
Proof.
  induction p as [|ch p IH]; intros Hp.
  - change ("" ++ String c0 sep' ++ r)%string with (String c0 sep' ++ r)%string.
    destruct (String c0 sep' ++ r)%string eqn:Hs; [done|].
    unfold Cut; fold Cut. rewrite <- Hs. by rewrite strip_prefix_app.
  - cbn [has_byte] in Hp. apply orb_false_iff in Hp as [Hch Hp].
    rewrite step_append. cbn [Cut strip_prefix]. rewrite Hch.
    by rewrite (IH Hp).
Qed.

Lemma Cut_nowhere (c0 : ascii) (sep' s : string) :
  has_byte c0 s = false -> Cut s (String c0 sep') = None.
Proof.
  induction s as [|ch s IH]; intros Hs; [done|].
  cbn [has_byte] in Hs. apply orb_false_iff in Hs as [Hch Hs].
  cbn [Cut strip_prefix]. rewrite Hch. by rewrite (IH Hs).
Qed.

Lemma split_at_most_nonempty n s sep : split_at_most n s sep <> [].
Proof. destruct n; cbn; [done|]. by destruct (Cut s sep) as [[? ?]|]. Qed.

Lemma Split_first (p r : string) :
  has_byte "."%char p = false ->
  exists rest, rest <> [] /\ Split (p ++ "." ++ r)%string "." = p :: rest.
Proof.
  intros Hp. unfold Split.
  assert (Hlen : exists n, String.length (p ++ "." ++ r)%string = S n).
  { clear Hp. induction p as [|ch p [n IH]]; [by eexists|].
    rewrite step_append. cbn [String.length]. by eexists. }
  destruct Hlen as [n ->]. cbn [split_at_most].
  rewrite (Cut_behind "."%char "" p r Hp).
  exists (split_at_most n r "."). split; [apply split_at_most_nonempty|done].
Qed.

(** X16: for a URL built the way the listing and the downloads build it,
    https://ACCOUNT.BASEDOMAIN/CONTAINER/NAME, with no dot in the account
    and a non-empty container without a slash,
    extractAccountAndContainer gives back the account and the container,
    whatever the blob name and the base domain hold. *)
Theorem extract_of_blob_url (fl : Blobber.Flags) (account container : string)
    (blob : Blobber.Blob) :
  has_byte "."%char account = false ->
  container <> "" ->
  has_byte "/"%char container = false ->
  Downloader.extractAccountAndContainer
    (Blobber.blobURL fl account container blob) (Blobber.baseDomain fl)
  = (account, container).
Proof.
  intros Hacc Hne Hcont.
  unfold Downloader.extractAccountAndContainer, Blobber.blobURL.
  set (bd := Blobber.baseDomain fl). set (name := Blobber.Name blob).
  assert (Hhost : has_byte "."%char ("https://" ++ account)%string = false).
  { by rewrite has_byte_app, Hacc. }
  destruct (Split_first ("https://" ++ account) (bd ++ "/" ++ container ++ "/" ++ name) Hhost)
    as (rest & Hrest & Hsplit).
  rewrite append_assoc in Hsplit. rewrite Hsplit.
  destruct rest as [|r0 rest]; [done|]. cbn [length Nat.ltb Nat.leb hd].
  assert (Hcut : Cut ("https://" ++ account ++ "." ++ bd ++ "/" ++ container ++ "/" ++ name)
                   ("." ++ bd ++ "/")
                 = Some (("https://" ++ account)%string,
                         (container ++ "/" ++ name)%string)).
  { pose proof (Cut_behind "."%char (bd ++ "/") ("https://" ++ account)
                  (container ++ "/" ++ name) Hhost) as H.
    rewrite append_assoc in H.
    rewrite (step_append "."%char (bd ++ "/")) in H.
    rewrite (append_assoc bd "/") in H. exact H. }
  unfold SplitN2. rewrite Hcut. cbn [length Nat.ltb Nat.leb nth].
  rewrite (Cut_behind "/"%char "" container name Hcont).
  cbn [length Nat.ltb Nat.leb hd orb].
  apply String.eqb_neq in Hne. rewrite Hne.
  unfold TrimPrefix. by rewrite strip_prefix_app.
Qed.

(** X17: extractAccountAndContainer never returns an empty container
    name, and for a URL without a dot it returns unknown for both the
    account and the container. *)
Theorem extract_falls_back_to_unknown (url baseDomain : string) :
  snd (Downloader.extractAccountAndContainer url baseDomain) <> ""
  /\ (has_byte "."%char url = false ->
      Downloader.extractAccountAndContainer url baseDomain
      = ("unknown", "unknown")).
Proof.
  unfold Downloader.extractAccountAndContainer. split.
  - destruct (length (Split url ".") <? 2)%nat; [done|].
    destruct (length (SplitN2 url ("." ++ baseDomain ++ "/")) <? 2)%nat; [done|].
    destruct (length (SplitN2 (nth 1 (SplitN2 url ("." ++ baseDomain ++ "/")) "") "/")
              <? 1)%nat; cbn [orb]; [done|].
    destruct (String.eqb (hd "" (SplitN2 (nth 1 (SplitN2 url ("." ++ baseDomain ++ "/")) "") "/")) "")
      eqn:He; [done|].
    cbn [snd]. by apply String.eqb_neq.
  - intros Hdot. unfold Split.
    destruct (String.length url); cbn [split_at_most]; [done|].
    by rewrite (Cut_nowhere "."%char "" url Hdot).
Qed.

End BlobUrls.

(* --------------------------------------------------------------------- *)
(* Markers in page URLs                                                   *)
(* --------------------------------------------------------------------- *)
Section Markers.

Lemma hex_digits_unreserved (c : ascii) :
  unreserved (hex_digit (nat_of_ascii c / 16)) = true
  /\ unreserved (hex_digit (nat_of_ascii c mod 16)) = true.
Proof. destruct c as [[] [] [] [] [] [] [] []]; vm_compute; done. Qed.

(** X18: an escaped marker holds only letters, digits, the bytes - _ . ~
    and the bytes + and %: whatever continuation token the server
    returns, it cannot add a parameter to the next page's URL or end its
    query. *)
Theorem escaped_marker_is_query_safe (s : string) (c : ascii) :
  Strings.has_byte c (QueryEscape s) = true ->
  unreserved c = true \/ c = "+"%char \/ c = "%"%char.
Proof.
  induction s as [|ch s IH]; [done|]. cbn [QueryEscape].
  destruct (unreserved ch) eqn:Hu.
  - cbn [Strings.has_byte]. intros [Hc|Hc]%orb_true_iff; [|by apply IH].
    apply Ascii.eqb_eq in Hc. subst. by left.
  - destruct (Nat.eqb (nat_of_ascii ch) 32).
    + cbn [Strings.has_byte]. intros [Hc|Hc]%orb_true_iff; [|by apply IH].
      apply Ascii.eqb_eq in Hc. subst. right. by left.
    + destruct (hex_digits_unreserved ch) as [Hhi Hlo].
      cbn [Strings.has_byte].
      intros [Hc|[Hc|[Hc|Hc]%orb_true_iff]%orb_true_iff]%orb_true_iff;
        [| | |by apply IH]; apply Ascii.eqb_eq in Hc; subst; auto.
Qed.

Lemma hex_digit_injective i j :
  i < 16 -> j < 16 -> hex_digit i = hex_digit j -> i = j.
Proof.
  intros Hi Hj.
  do 16 (destruct i as [|i];
         [do 16 (destruct j as [|j]; [by vm_compute|]); lia|]).
  lia.
Qed.

Lemma nat_of_ascii_injective (c1 c2 : ascii) :
  nat_of_ascii c1 = nat_of_ascii c2 -> c1 = c2.
Proof.
  intros H. rewrite <- (ascii_nat_embedding c1), <- (ascii_nat_embedding c2).
  by rewrite H.
Qed.

Lemma QueryEscape_injective (s1 : string) : forall s2,
  QueryEscape s1 = QueryEscape s2 -> s1 = s2.
Proof.
  assert (Hplus : unreserved "+"%char = false) by done.
  assert (Hpct : unreserved "%"%char = false) by done.
  induction s1 as [|c1 s1 IH]; intros [|c2 s2]; cbn [QueryEscape].
  - done.
  - destruct (unreserved c2); [done|].
    by destruct (Nat.eqb (nat_of_ascii c2) 32).
  - destruct (unreserved c1); [done|].
    by destruct (Nat.eqb (nat_of_ascii c1) 32).
  - destruct (unreserved c1) eqn:U1; destruct (unreserved c2) eqn:U2.
    + intros [= -> H]. by rewrite (IH _ H).
    + destruct (Nat.eqb (nat_of_ascii c2) 32); intros [= -> _]; congruence.
    + destruct (Nat.eqb (nat_of_ascii c1) 32); intros [= <- _]; congruence.
    + destruct (Nat.eqb (nat_of_ascii c1) 32) eqn:S1;
        destruct (Nat.eqb (nat_of_ascii c2) 32) eqn:S2; try done.
      * intros [= H]. apply Nat.eqb_eq in S1, S2.
        rewrite (IH _ H). f_equal. apply nat_of_ascii_injective. congruence.
      * intros [= Hhi Hlo H]. rewrite (IH _ H). f_equal.
        apply nat_of_ascii_injective.
        pose proof (nat_ascii_bounded c1). pose proof (nat_ascii_bounded c2).
        change (fst (Nat.divmod (nat_of_ascii c1) 15 0 15))
          with (nat_of_ascii c1 / 16) in Hhi.
        change (fst (Nat.divmod (nat_of_ascii c2) 15 0 15))
          with (nat_of_ascii c2 / 16) in Hhi.
        change (15 - snd (Nat.divmod (nat_of_ascii c1) 15 0 15))
          with (nat_of_ascii c1 mod 16) in Hlo.
        change (15 - snd (Nat.divmod (nat_of_ascii c2) 15 0 15))
          with (nat_of_ascii c2 mod 16) in Hlo.
        apply hex_digit_injective in Hhi;
          [|apply Nat.Div0.div_lt_upper_bound; lia
           |apply Nat.Div0.div_lt_upper_bound; lia].
        apply hex_digit_injective in Hlo;
          [|apply Nat.mod_upper_bound; lia|apply Nat.mod_upper_bound; lia].
        rewrite (Nat.div_mod_eq (nat_of_ascii c1) 16),
                (Nat.div_mod_eq (nat_of_ascii c2) 16).
        by rewrite Hhi, Hlo.
Qed.

Lemma append_cancel_l (p a b : string) : (p ++ a = p ++ b)%string -> a = b.
Proof.
  induction p as [|ch p IH]; [done|]. rewrite !step_append.
  intros [= H]. by apply IH.
Qed.

(** X19: different continuation tokens give different page URLs: the URL
    of the next page determines the marker it was built from. *)
Theorem next_page_url_determines_marker (lurl m1 m2 : string) :
  Blobber.nextURL lurl m1 = Blobber.nextURL lurl m2 -> m1 = m2.
Proof.
  unfold Blobber.nextURL. intros H.
  apply append_cancel_l, append_cancel_l in H. by apply QueryEscape_injective.
Qed.

End Markers.

(* --------------------------------------------------------------------- *)
(* pkg/azure: the access result and the blob listing                      *)
(* --------------------------------------------------------------------- *)
Section Scanner.
Variable cfg : Azure.Config.
Variables account container : string.

(** X20: an AccessResult of checkAccess is public exactly when it carries
    no error code, so the two fields never disagree; it always names the
    pair and the URL it was asked about, and its Blobs field is never
    filled. *)
Theorem access_result_is_consistent (get : GetResult) :
  let r := Azure.checkAccess cfg account container get in
  (Azure.IsPublic r = true <-> Azure.ErrorCode r = "")
  /\ Azure.Account r = account
  /\ Azure.Container r = container
  /\ Azure.URL r = Azure.access_url cfg account container
  /\ Azure.Blobs r = [].
Proof.
  unfold Azure.checkAccess.
  destruct get as [|status [|body]]; cbn.
  - by split_and!.
  - destruct (Z.eqb status StatusOK); cbn; by split_and!.
  - destruct (Z.eqb status StatusOK); cbn; [by split_and!|].
    destruct (Azure.unmarshal_ErrorResponse body) as [e|]; cbn; [|by split_and!].
    destruct (String.eqb (Azure.Code e) "") eqn:He; cbn; [by split_and!|].
    apply String.eqb_neq in He. by split_and!.
Qed.

Lemma no_BlobList_child kids (l : Azure.BlobList) :
  Forall (fun k => name_of k <> "BlobList") kids ->
  Azure.decode_BlobList_elems kids l = Some l.
Proof.
  induction 1 as [|k kids Hk _ IH]; [done|]. cbn.
  apply String.eqb_neq in Hk. by rewrite Hk.
Qed.

Lemma BlobList_child_or_none (kids : list node) :
  Exists (fun k => name_of k = "BlobList") kids
  \/ Forall (fun k => name_of k <> "BlobList") kids.
Proof.
  induction kids as [|k kids [IH|IH]]; [by right| |].
  - left. by apply Exists_cons_tl.
  - destruct (String.eqb (name_of k) "BlobList") eqn:Hk.
    + left. apply Exists_cons_hd. by apply String.eqb_eq.
    + right. constructor; [by apply String.eqb_neq|done].
Qed.

(** X21: Scanner.ListBlobs returns a URL only when the request could be
    built, the answer has status 200, and the root element of its body
    has a child named BlobList: the struct it decodes into looks for the
    blobs under BlobList, so a listing that holds its Blobs element
    directly under the root, as the one checkContainer decodes, gives no
    URL. *)
Theorem ListBlobs_needs_BlobList (request_ok : bool) (resp : GetResult) :
  Azure.ListBlobs cfg account container request_ok resp <> [] ->
  request_ok = true
  /\ exists root,
      resp = GetOk StatusOK (ReadOk (Doc root))
      /\ Exists (fun k => name_of k = "BlobList") (kids_of root).
Proof.
  unfold Azure.ListBlobs. destruct request_ok; cbn [negb]; [|done].
  destruct resp as [|status [|[|root]]]; try done;
    destruct (Z.eqb status StatusOK) eqn:Hst; cbn [negb]; try done.
  apply Z.eqb_eq in Hst. subst status. intros Hne. split; [done|].
  exists root. split; [done|].
  destruct (BlobList_child_or_none (kids_of root)) as [Hex|Hnone]; [done|].
  exfalso. apply Hne. unfold Azure.unmarshal_EnumerationResults.
  by rewrite no_BlobList_child.
Qed.

End Scanner.

(* --------------------------------------------------------------------- *)
(* processInput                                                           *)
(* --------------------------------------------------------------------- *)
Section Input.
Import Strings.

Lemma length_step_append (a b : string) :
  String.length (a ++ b)%string = String.length a + String.length b.
Proof.
  induction a as [|ch a IH]; [done|]. rewrite step_append. cbn [String.length].
  by rewrite IH.
Qed.

Lemma rev_onto_spec (s acc : string) : rev_onto s acc = (rev s ++ acc)%string.
Proof.
  unfold rev. revert acc. induction s as [|ch s IH]; intros acc; [done|].
  cbn [rev_onto]. rewrite (IH (String ch acc)), (IH (String ch "")).
  by rewrite append_assoc.
Qed.

Lemma rev_app (a b : string) : rev (a ++ b)%string = (rev b ++ rev a)%string.
Proof.
  induction a as [|ch a IH].
  - cbn [rev rev_onto]. change ("" ++ b)%string with b. by rewrite append_empty.
  - rewrite step_append. unfold rev at 1 3. cbn [rev_onto].
    rewrite !rev_onto_spec, IH. by rewrite append_assoc.
Qed.

Lemma rev_involutive (s : string) : rev (rev s) = s.
Proof.
  induction s as [|ch s IH]; [done|]. unfold rev at 2. cbn [rev_onto].
  rewrite rev_onto_spec, rev_app, IH. done.
Qed.

Lemma length_rev (s : string) : String.length (rev s) = String.length s.
Proof.
  induction s as [|ch s IH]; [done|]. unfold rev. cbn [rev_onto].
  rewrite rev_onto_spec, length_step_append, IH. cbn. lia.
Qed.

Lemma has_byte_rev c (s : string) : has_byte c (rev s) = has_byte c s.
Proof.
  induction s as [|ch s IH]; [done|]. unfold rev. cbn [rev_onto].
  rewrite rev_onto_spec, has_byte_app, IH. cbn [has_byte].
  rewrite orb_false_r. apply orb_comm.
Qed.

(* What strip_prefix leaves is the rest of the string. *)
Lemma strip_prefix_inv (p s rest : string) :
  strip_prefix p s = Some rest -> s = (p ++ rest)%string.
Proof.
  revert s. induction p as [|a p IH]; intros s; cbn [strip_prefix].
  - by intros [= ->].
  - destruct s as [|b s]; [done|]. destruct (Ascii.eqb a b) eqn:Hab; [|done].
    apply Ascii.eqb_eq in Hab. subst b. intros H. rewrite step_append.
    by rewrite <- (IH _ H).
Qed.

Lemma strip_rune_inv runes (s rest : string) :
  strip_rune runes s = Some rest ->
  exists r, In r runes /\ s = (r ++ rest)%string.
Proof.
  induction runes as [|r runes IH]; [done|]. cbn [strip_rune].
  destruct (strip_prefix r s) as [rest'|] eqn:Hr.
  - intros [= <-]. exists r. split; [by left|]. by apply strip_prefix_inv.
  - intros H. destruct (IH H) as (r' & Hin & Heq). exists r'. split; [by right|done].
Qed.

(* Trimming returns a suffix. *)
Lemma trim_runes_suffix n runes (s : string) :
  exists w, s = (w ++ trim_runes n runes s)%string.
Proof.
  revert s. induction n as [|n IH]; intros s; [by exists ""|]. cbn [trim_runes].
  destruct (strip_rune runes s) as [rest|] eqn:Hr; [|by exists ""].
  destruct (strip_rune_inv _ _ _ Hr) as (r & _ & ->).
  destruct (IH rest) as [w Hw]. exists (r ++ w)%string.
  rewrite append_assoc. by rewrite <- Hw.
Qed.

(* With enough steps nothing is left to trim. *)
Lemma trim_runes_done n runes (s : string) :
  Forall (fun r => r <> "") runes ->
  String.length s <= n ->
  strip_rune runes (trim_runes n runes s) = None.
Proof.
  intros Hne. revert s. induction n as [|n IH]; intros s Hlen.
  - destruct s; [|cbn in Hlen; lia]. cbn [trim_runes].
    clear Hlen. induction Hne as [|r runes Hr _ IHr]; [done|].
    cbn [strip_rune]. destruct r; [done|]. cbn [strip_prefix]. exact IHr.
  - cbn [trim_runes]. destruct (strip_rune runes s) as [rest|] eqn:Hr; [|done].
    apply IH. destruct (strip_rune_inv _ _ _ Hr) as (r & Hin & ->).
    rewrite length_step_append in Hlen.
    assert (r <> "") by exact (proj1 (List.Forall_forall _ _) Hne r Hin).
    destruct r; [done|]. cbn in Hlen. lia.
Qed.

Lemma strip_prefix_app_l (p s z rest : string) :
  strip_prefix p s = Some rest -> strip_prefix p (s ++ z)%string = Some (rest ++ z)%string.
Proof.
  revert s. induction p as [|a p IH]; intros s; cbn [strip_prefix].
  - by intros [= ->].
  - destruct s as [|b s]; [done|]. rewrite step_append. cbn [strip_prefix].
    destruct (Ascii.eqb a b); [apply IH|done].
Qed.

Lemma strip_rune_prefix runes (x z : string) :
  strip_rune runes (x ++ z)%string = None -> strip_rune runes x = None.
Proof.
  induction runes as [|r runes IH]; [done|]. cbn [strip_rune].
  destruct (strip_prefix r x) as [rest|] eqn:Hx.
  - by rewrite (strip_prefix_app_l _ _ z _ Hx).
  - destruct (strip_prefix r (x ++ z)%string); [done|]. apply IH.
Qed.

Lemma space_runes_nonempty : Forall (fun r => r <> "") space_runes.
Proof. unfold space_runes. repeat constructor; done. Qed.

Lemma rev_space_runes_nonempty : Forall (fun r => r <> "") (map rev space_runes).
Proof. unfold space_runes. cbn. repeat constructor; done. Qed.

(* A trimmed string neither starts nor ends with a white space rune. *)
Lemma TrimSpace_trimmed (s : string) :
  strip_rune space_runes (TrimSpace s) = None
  /\ strip_rune (map rev space_runes) (rev (TrimSpace s)) = None.
Proof.
  unfold TrimSpace, TrimRightSpace. set (t := TrimLeftSpace s).
  assert (Ht : strip_rune space_runes t = None).
  { apply trim_runes_done; [apply space_runes_nonempty|done]. }
  split.
  - destruct (trim_runes_suffix (String.length t) (map rev space_runes) (rev t))
      as [w Hw].
    apply (f_equal rev) in Hw. rewrite rev_involutive, rev_app in Hw.
    rewrite Hw in Ht. by apply strip_rune_prefix in Ht.
  - rewrite rev_involutive.
    apply trim_runes_done; [apply rev_space_runes_nonempty|].
    by rewrite length_rev.
Qed.

Lemma has_byte_suffix c (w s : string) :
  has_byte c (w ++ s)%string = false -> has_byte c s = false.
Proof. rewrite has_byte_app. by intros [_ ?]%orb_false_iff. Qed.

Lemma TrimSpace_keeps_bytes_out c (s : string) :
  has_byte c s = false -> has_byte c (TrimSpace s) = false.
Proof.
  intros Hs. unfold TrimSpace, TrimRightSpace, TrimLeftSpace.
  set (t := trim_runes (String.length s) space_runes s).
  assert (Ht : has_byte c t = false).
  { destruct (trim_runes_suffix (String.length s) space_runes s) as [w Hw].
    fold t in Hw. rewrite Hw in Hs. by apply has_byte_suffix in Hs. }
  rewrite has_byte_rev.
  destruct (trim_runes_suffix (String.length t) (map rev space_runes) (rev t))
    as [w Hw].
  rewrite <- has_byte_rev in Ht. rewrite Hw in Ht. by apply has_byte_suffix in Ht.
Qed.

Lemma keep_names_spec items x :
  In x (Blobber.keep_names items) <->
  x <> "" /\ exists item, In item items /\ x = TrimSpace item.
Proof.
  unfold Blobber.keep_names. rewrite List.filter_In, in_map_iff. split.
  - intros [(item & <- & Hin) Hne]. apply negb_true_iff, String.eqb_neq in Hne.
    split; [done|]. by exists item.
  - intros [Hne (item & Hin & ->)]. split; [by exists item|].
    by apply negb_true_iff, String.eqb_neq.
Qed.

(** X22: every name processInput returns is non-empty and neither starts
    nor ends with a white space rune, whether it comes from a file or
    from a comma-separated flag; the empty input and a file that cannot
    be opened give no name. *)
Theorem input_names_are_trimmed (files : string -> Blobber.InputFile)
    (input x : string) :
  (In x (Blobber.processInput files input) ->
   x <> ""
   /\ strip_rune space_runes x = None
   /\ strip_rune (map rev space_runes) (rev x) = None)
  /\ Blobber.processInput files "" = []
  /\ (files input = Blobber.CannotOpen -> Blobber.processInput files input = []).
Proof.
  split_and!.
  - unfold Blobber.processInput. destruct (String.eqb input ""); [done|].
    assert (H : forall items, In x (Blobber.keep_names items) ->
                x <> "" /\ strip_rune space_runes x = None
                /\ strip_rune (map rev space_runes) (rev x) = None).
    { intros items [Hne (item & _ & ->)]%keep_names_spec.
      split; [done|]. apply TrimSpace_trimmed. }
    destruct (files input); [apply H|done|apply H].
  - done.
  - intros Hf. unfold Blobber.processInput. rewrite Hf.
    by destruct (String.eqb input "").
Qed.

End Input.

Section InputLists.
Import Strings.

Lemma Cut_shorter (s sep before after : string) :
  sep <> "" ->
  Cut s sep = Some (before, after) ->
  String.length after < String.length s.
Proof.
  intros Hsep. revert before. induction s as [|ch s IH]; intros before.
  - cbn [Cut]. destruct sep; [done|]. done.
  - cbn [Cut]. destruct (strip_prefix sep (String ch s)) as [rest|] eqn:Hp.
    + intros [= _ <-]. apply strip_prefix_inv in Hp. rewrite Hp.
      rewrite length_step_append. destruct sep; [done|]. cbn. lia.
    + destruct (Cut s sep) as [[b a]|] eqn:Hc; [|done].
      intros [= _ <-]. specialize (IH _ eq_refl). cbn. lia.
Qed.

Lemma Cut_before_free (c0 : ascii) (s before after : string) :
  Cut s (String c0 "") = Some (before, after) -> has_byte c0 before = false.
Proof.
  revert before. induction s as [|ch s IH]; intros before; [done|].
  cbn [Cut strip_prefix]. destruct (Ascii.eqb c0 ch) eqn:Hch.
  - by intros [= <- _].
  - destruct (Cut s (String c0 "")) as [[b a]|] eqn:Hc; [|done].
    intros [= <- <-]. cbn [has_byte]. rewrite Hch. by apply IH.
Qed.

Lemma Cut_none_free (c0 : ascii) (s : string) :
  Cut s (String c0 "") = None -> has_byte c0 s = false.
Proof.
  induction s as [|ch s IH]; [done|].
  cbn [Cut strip_prefix has_byte]. destruct (Ascii.eqb c0 ch); [done|].
  destruct (Cut s (String c0 "")) as [[b a]|]; [done|]. intros _. by apply IH.
Qed.

(* The pieces of a string split at a byte do not hold that byte. *)
Lemma split_pieces_free (c0 : ascii) n (s : string) :
  String.length s <= n ->
  Forall (fun piece => has_byte c0 piece = false)
         (split_at_most n s (String c0 "")).
Proof.
  revert s. induction n as [|n IH]; intros s Hlen.
  - destruct s; [|cbn in Hlen; lia]. by repeat constructor.
  - cbn [split_at_most].
    destruct (Cut s (String c0 "")) as [[before after]|] eqn:Hc.
    + constructor; [by eapply Cut_before_free|]. apply IH.
      assert (Hsep : String c0 "" <> "") by done.
      pose proof (Cut_shorter _ _ _ _ Hsep Hc). lia.
    + constructor; [by apply Cut_none_free|done].
Qed.

(** X23: a name that processInput takes from a comma-separated flag never
    holds a comma. *)
Theorem names_from_a_list_hold_no_comma (files : string -> Blobber.InputFile)
    (input x : string) :
  files input = Blobber.NoSuchFile ->
  In x (Blobber.processInput files input) ->
  has_byte ","%char x = false.
Proof.
  intros Hf. unfold Blobber.processInput. rewrite Hf.
  destruct (String.eqb input ""); [done|].
  intros [_ (item & Hin & ->)]%keep_names_spec.
  apply TrimSpace_keeps_bytes_out.
  pose proof (split_pieces_free ","%char (String.length input) input (le_n _)) as H.
  exact (proj1 (List.Forall_forall _ _) H item Hin).
Qed.

(* A name that processInput hands back unchanged. *)
Local Abbreviation clean :=
  (fun name : string =>
     name <> "" /\ TrimSpace name = name /\ has_byte ","%char name = false).

Lemma concat_comma_cons (x y : string) (l : list string) :
  String.concat "," (x :: y :: l) = (x ++ "," ++ String.concat "," (y :: l))%string.
Proof. reflexivity. Qed.

Lemma split_joined (names : list string) : forall n,
  names <> [] ->
  Forall clean names ->
  String.length (String.concat "," names) <= n ->
  split_at_most n (String.concat "," names) "," = names.
Proof.
  induction names as [|x names IH]; intros n Hne Hclean Hlen; [done|].
  apply Forall_cons in Hclean as [(Hx & _ & Hcomma) Hclean].
  destruct names as [|y names].
  - cbn [String.concat] in *. destruct n; [done|]. cbn [split_at_most].
    by rewrite (Cut_nowhere ","%char "" x Hcomma).
  - rewrite concat_comma_cons in *. rewrite length_step_append in Hlen.
    destruct n as [|n]; [destruct x; [done|cbn in Hlen; lia]|].
    cbn [split_at_most]. rewrite (Cut_behind ","%char "" x _ Hcomma).
    f_equal. apply IH; [done|done|].
    rewrite step_append in Hlen. cbn [String.length] in Hlen.
    change ("" ++ ?z)%string with z in Hlen. lia.
Qed.

Lemma keep_clean_names (names : list string) :
  Forall clean names -> Blobber.keep_names names = names.
Proof.
  unfold Blobber.keep_names. induction 1 as [|x names (Hx & Ht & _) _ IH]; [done|].
  cbn [map List.filter]. rewrite Ht. apply String.eqb_neq in Hx. rewrite Hx.
  cbn [negb]. by rewrite IH.
Qed.

(** X24: a flag that joins names with commas is read back as exactly
    those names, in order, when every name is non-empty, holds no comma
    and has no white space around it, and no file of that name exists. *)
Theorem joined_names_are_read_back (files : string -> Blobber.InputFile)
    (names : list string) :
  names <> [] ->
  Forall clean names ->
  files (String.concat "," names) = Blobber.NoSuchFile ->
  Blobber.processInput files (String.concat "," names) = names.
Proof.
  intros Hne Hclean Hf. unfold Blobber.processInput. rewrite Hf.
  assert (String.eqb (String.concat "," names) "" = false) as ->.
  { apply String.eqb_neq. destruct names as [|x [|y names]]; [done| |].
    - cbn. apply Forall_cons in Hclean as [(Hx & _) _]. done.
    - rewrite concat_comma_cons. apply Forall_cons in Hclean as [(Hx & _) _].
      destruct x; [done|]. by rewrite step_append. }
  unfold Split. rewrite split_joined; [|done|done|done].
  by apply keep_clean_names.
Qed.

End InputLists.

(* --------------------------------------------------------------------- *)
(* The further properties at concrete inputs                              *)
(* --------------------------------------------------------------------- *)

Lemma sample_scan_runs :
  Blobber.Run Sample.resolver Sample.list_flags ["acct1"] ["c1"]
  = Blobber.Scan Sample.list_flags
      [Blobber.OpLookup "acct1.blob.core.windows.net"; Blobber.OpWgAdd;
       Blobber.OpAcquire "acct1" "c1"; Blobber.OpGo "acct1" "c1"].
Proof. reflexivity. Defined.

Lemma sample_scan_reaches_probing :
  Blobber.reachable 500
    [Blobber.OpLookup "acct1.blob.core.windows.net"; Blobber.OpWgAdd;
     Blobber.OpAcquire "acct1" "c1"; Blobber.OpGo "acct1" "c1"]
    Sample.probing_state.
Proof.
  unfold Blobber.reachable.
  eapply rtc_l; [apply Blobber.step_lookup|].
  eapply rtc_l; [apply Blobber.step_wgadd|].
  eapply rtc_l; [apply Blobber.step_acquire; reflexivity|].
  eapply rtc_l; [apply (Blobber.step_go _ "acct1" "c1" [] 1 [])|].
  apply rtc_refl.
Defined.

Lemma sample_scan_reaches_the_end :
  Blobber.reachable 500
    [Blobber.OpLookup "acct1.blob.core.windows.net"; Blobber.OpWgAdd;
     Blobber.OpAcquire "acct1" "c1"; Blobber.OpGo "acct1" "c1"]
    Sample.finished_state.
Proof.
  eapply rtc_trans; [apply sample_scan_reaches_probing|].
  eapply rtc_l;
    [apply (Blobber.step_probed _ (Blobber.Build_Worker "acct1" "c1" Blobber.Probing)
              [] 1 [] []); reflexivity|].
  eapply rtc_l;
    [apply (Blobber.step_release _ (Blobber.Build_Worker "acct1" "c1" Blobber.Releasing)
              [] 0 [] []); reflexivity|].
  eapply rtc_l;
    [apply (Blobber.step_done _ (Blobber.Build_Worker "acct1" "c1" Blobber.Counting)
              [] 0 [] []); reflexivity|].
  apply rtc_refl.
Defined.

(* One account, one container: one check, counted once. *)
Lemma wait_joins_all_workers_witness :
  Progress.quiescent Sample.finished_state
  /\ Blobber.sem Sample.finished_state = 0
  /\ Blobber.checkedCount Sample.finished_state = 1.
Proof.
  apply (wait_joins_all_workers Sample.resolver Sample.list_flags ["acct1"] ["c1"]
           _ _ _ sample_scan_runs).
  - cbn. lia.
  - apply sample_scan_reaches_the_end.
  - split; reflexivity.
Defined.

(* While the worker probes, checkContainer can return. *)
Lemma scan_is_never_stuck_witness :
  exists s', Blobber.step 500 Sample.probing_state s'.
Proof.
  apply (scan_is_never_stuck Sample.resolver Sample.list_flags ["acct1"] ["c1"]).
  - cbn. lia.
  - apply sample_scan_reaches_probing.
  - right. apply Exists_cons_hd. discriminate.
Defined.

(* With -g 0 the scan stops in front of its first send. *)
Lemma no_probe_without_slots_witness :
  Blobber.workers Sample.blocked_state = []
  /\ Blobber.sem Sample.blocked_state = 0
  /\ ~ Progress.joined Sample.blocked_state.
Proof.
  destruct (no_probe_without_slots Sample.resolver Sample.zero_flags
              ["acct1"] ["c1"] Sample.blocked_state) as (Hw & Hs & Hj).
  - cbn. lia.
  - unfold Blobber.reachable.
    eapply rtc_l; [apply Blobber.step_lookup|].
    eapply rtc_l; [apply Blobber.step_wgadd|].
    apply rtc_refl.
  - split; [exact Hw|]. split; [exact Hs|]. apply Hj; [reflexivity|].
    exists "acct1", "c1". right. right. left. reflexivity.
Defined.

(* A two-page listing under limit 6000: the list URL, then the marker m1. *)
Lemma requests_stay_on_the_list_url_witness :
  exists o reqs,
    Blobber.checkContainer Sample.fetch_flags "acct1" "c1"
      [Sample.ok (Sample.page ["a"] "m1"); Sample.ok (Sample.page ["b"] "")] = Some o
    /\ Blobber.requests o
       = Blobber.listURL Sample.fetch_flags "acct1" "c1" :: reqs.
Proof.
  eexists. 
  destruct (requests_stay_on_the_list_url Sample.fetch_flags "acct1" "c1"
              [Sample.ok (Sample.page ["a"] "m1"); Sample.ok (Sample.page ["b"] "")]
              _ eq_refl) as [(reqs & Hr & _) _].
  exists reqs. split; [reflexivity|exact Hr].
Defined.

(* Limit 10 and a first page of three blobs: at most ten are listed. *)
Lemma handed_blobs_within_limit_witness :
  exists o,
    Blobber.checkContainer Sample.list_flags "acct1" "c1"
      [Sample.ok (Sample.page ["a"; "b"; "c"] "")] = Some o
    /\ (Z.of_nat (length (Blobber.blobs_of (Blobber.action o))) <= 10)%Z.
Proof.
  eexists. split; [reflexivity|].
  apply (proj1 (handed_blobs_within_limit Sample.list_flags "acct1" "c1"
                  [Sample.ok (Sample.page ["a"; "b"; "c"] "")] _ eq_refl)).
  reflexivity.
Defined.

(* The one refusal that is printed without --debug. *)
Lemma only_permission_refusal_is_shown_witness :
  exists o,
    Blobber.checkContainer Sample.list_flags "acct1" "c1"
      [GetOk 409 (ReadOk (Sample.error_body "PublicAccessNotPermitted"))] = Some o
    /\ Blobber.console o = [Blobber.InfoPublicAccessNotPermitted "acct1" "c1"].
Proof.
  eexists. split; [reflexivity|].
  apply (proj2 (only_permission_refusal_is_shown Sample.list_flags "acct1" "c1"
                  (GetOk 409 (ReadOk (Sample.error_body "PublicAccessNotPermitted")))
                  [] _ eq_refl eq_refl eq_refl)).
  eexists _, _, _. split; [reflexivity|]. split; reflexivity.
Defined.

(* --total: three records in two pages, reported as 3. *)
Lemma total_counts_the_whole_chain_witness :
  exists o,
    Blobber.checkContainer Sample.total_flags "acct1" "c1"
      ([Sample.ok (Sample.page ["a"; "b"] "m1"); Sample.ok (Sample.page ["c"] "")]
       ++ [Sample.ok (Sample.page ["c"] "")]) = Some o
    /\ In (Blobber.FoundTotal "acct1" "c1" 3) (Blobber.console o).
Proof.
  eexists. split; [reflexivity|].
  apply (total_counts_the_whole_chain Sample.total_flags "acct1" "c1" 200
           (Sample.page ["a"; "b"] "m1") (Sample.results ["a"; "b"] "m1")
           [Sample.ok (Sample.page ["c"] "")] [Sample.results ["c"] ""]
           [Sample.ok (Sample.page ["c"] "")]).
  - reflexivity.
  - reflexivity.
  - discriminate.
  - discriminate.
  - eapply Chain.linked_cons; [discriminate|reflexivity|constructor].
  - reflexivity.
  - reflexivity.
Defined.

(* --total with limit 6000: the marker m1 is requested twice. *)
Lemma total_fetches_the_chain_twice_witness :
  exists o,
    Blobber.checkContainer Sample.total_flags "acct1" "c1"
      ([Sample.ok (Sample.page ["a"; "b"] "m1"); Sample.ok (Sample.page ["c"] "")]
       ++ [Sample.ok (Sample.page ["c"] "")]) = Some o
    /\ Blobber.requests o
       = [Sample.lurl; Blobber.nextURL Sample.lurl "m1";
          Blobber.nextURL Sample.lurl "m1"].
Proof.
  destruct (total_fetches_the_chain_twice Sample.total_flags "acct1" "c1" 200
              (Sample.page ["a"; "b"] "m1") (Sample.results ["a"; "b"] "m1")
              [Sample.ok (Sample.page ["c"] "")] [Sample.ok (Sample.page ["c"] "")]
              [Sample.results ["c"] ""])
    as (o & Ho & Hr & _).
  - reflexivity.
  - reflexivity.
  - reflexivity.
  - discriminate.
  - discriminate.
  - eapply Chain.linked_cons; [discriminate|reflexivity|constructor].
  - eapply Chain.linked_cons; [discriminate|reflexivity|constructor].
  - reflexivity.
  - reflexivity.
  - exists o. split; [exact Ho|exact Hr].
Defined.

(* One blob saved to out.txt. *)
Lemma saved_list_contents_witness :
  Blobber.saveBlobList Sample.os_ok Sample.save_flags "acct1" "c1"
    [Sample.blob "a"] Sample.earlier_download !! "out.txt"
  = Some ("https://acct1.blob.core.windows.net/c1/a" ++ String "010"%char "")%string.
Proof.
  destruct (saved_list_contents Sample.os_ok Sample.save_flags "acct1" "c1"
              [Sample.blob "a"] Sample.earlier_download) as [_ Hok].
  - discriminate.
  - rewrite (Hok eq_refl). apply lookup_insert_eq.
Defined.

(* The list of acct1/c1 is gone once the list of acct1/c2 is saved. *)
Lemma later_list_replaces_earlier_witness :
  Blobber.saveBlobList Sample.os_ok Sample.save_flags "acct1" "c2" [Sample.blob "b"]
    (Blobber.saveBlobList Sample.os_ok Sample.save_flags "acct1" "c1"
       [Sample.blob "a"] Sample.earlier_download)
  = Blobber.saveBlobList Sample.os_ok Sample.save_flags "acct1" "c2"
      [Sample.blob "b"] Sample.earlier_download.
Proof.
  apply (later_list_replaces_earlier Sample.os_ok Sample.save_flags).
  discriminate.
Defined.

(* -o out.txt with the default limit: both pages are saved. *)
Lemma default_limit_saves_the_whole_chain_witness :
  exists o,
    Blobber.checkContainer (Blobber.with_limit Sample.save_flags 99999) "acct1" "c1"
      [Sample.ok (Sample.page ["a"; "b"] "m1"); Sample.ok (Sample.page ["c"] "")]
    = Some o
    /\ Blobber.action o
       = Blobber.DoSave [Sample.blob "a"; Sample.blob "b"; Sample.blob "c"].
Proof.
  destruct (default_limit_saves_the_whole_chain Sample.os_ok Sample.resolver
              Sample.save_flags ["acct1"] ["c1"]
              (Blobber.with_limit Sample.save_flags 99999)
              [Blobber.OpLookup "acct1.blob.core.windows.net"; Blobber.OpWgAdd;
               Blobber.OpAcquire "acct1" "c1"; Blobber.OpGo "acct1" "c1"]
              "acct1" "c1" 200
              (Sample.page ["a"; "b"] "m1") (Sample.results ["a"; "b"] "m1")
              [] [] [Sample.ok (Sample.page ["c"] "")] [Sample.results ["c"] ""]
              Sample.earlier_download)
    as (_ & o & Ho & Ha & _).
  - reflexivity.
  - reflexivity.
  - discriminate.
  - reflexivity.
  - reflexivity.
  - discriminate.
  - split; reflexivity.
  - eapply Chain.linked_cons; [discriminate|reflexivity|constructor].
  - reflexivity.
  - cbn. lia.
  - reflexivity.
  - exists o. split; [exact Ho|exact Ha].
Defined.

(* A failed download of a.txt leaves b.txt as it was. *)
Lemma downloads_touch_one_path_witness :
  snd (Downloader.DownloadFile Sample.os_ok Sample.not_found
         "https://acct1.blob.core.windows.net/c1/b.txt" "out/b.txt"
         Sample.earlier_download) !! "out/a.txt"
  = Sample.earlier_download !! "out/a.txt".
Proof.
  apply (downloads_touch_one_path Sample.os_ok Sample.not_found
           "https://acct1.blob.core.windows.net/c1/b.txt" "out/b.txt"
           Sample.earlier_download "out/a.txt").
  discriminate.
Defined.

(* A blob in a folder: the account and the container come back. *)
Lemma extract_of_blob_url_witness :
  Downloader.extractAccountAndContainer
    "https://acct1.blob.core.windows.net/c1/dir/a.txt" "blob.core.windows.net"
  = ("acct1", "c1").
Proof.
  apply (extract_of_blob_url Sample.list_flags "acct1" "c1" (Sample.blob "dir/a.txt")).
  - reflexivity.
  - discriminate.
  - reflexivity.
Defined.

(* The marker a&b is escaped to a%26b. *)
Lemma escaped_marker_is_query_safe_witness :
  QueryEscape "a&b" = "a%26b"
  /\ (unreserved "6"%char = true \/ "6"%char = "+"%char \/ "6"%char = "%"%char).
Proof.
  split; [reflexivity|].
  apply (escaped_marker_is_query_safe "a&b" "6"%char). reflexivity.
Defined.

Lemma next_page_url_determines_marker_witness :
  Blobber.nextURL Sample.lurl "m 1" = Blobber.nextURL Sample.lurl "m 1"
  /\ "m 1" = "m 1".
Proof.
  split; [reflexivity|].
  apply (next_page_url_determines_marker Sample.lurl "m 1" "m 1"). reflexivity.
Defined.

(* A listing wrapped in BlobList is the one ListBlobs reads. *)
Lemma ListBlobs_needs_BlobList_witness :
  Azure.ListBlobs Sample.config "acct1" "c1" true
    (GetOk 200 (ReadOk (Sample.wrapped_page ["a"])))
  = ["https://acct1.blob.core.windows.net/c1/a"]
  /\ Azure.ListBlobs Sample.config "acct1" "c1" true
       (GetOk 200 (ReadOk (Sample.page ["a"] ""))) = []
  /\ exists root,
      GetOk 200 (ReadOk (Sample.wrapped_page ["a"])) = GetOk StatusOK (ReadOk (Doc root))
      /\ Exists (fun k => name_of k = "BlobList") (kids_of root).
Proof.
  split; [reflexivity|]. split; [reflexivity|].
  apply (ListBlobs_needs_BlobList Sample.config "acct1" "c1" true
           (GetOk 200 (ReadOk (Sample.wrapped_page ["a"])))).
  discriminate.
Defined.

(* -a "acct1, acct2" *)
Lemma names_from_a_list_hold_no_comma_witness :
  Blobber.processInput Sample.no_files "acct1, acct2" = ["acct1"; "acct2"]
  /\ Strings.has_byte ","%char "acct2" = false.
Proof.
  split; [reflexivity|].
  apply (names_from_a_list_hold_no_comma Sample.no_files "acct1, acct2" "acct2").
  - reflexivity.
  - right. left. reflexivity.
Defined.

Lemma joined_names_are_read_back_witness :
  Blobber.processInput Sample.no_files (String.concat "," ["acct1"; "acct2"])
  = ["acct1"; "acct2"].
Proof.
  apply (joined_names_are_read_back Sample.no_files ["acct1"; "acct2"]).
  - discriminate.
  - repeat constructor; discriminate.
  - reflexivity.
Defined.
